(** * Payment-settlement verification core

    A shallow embedding of the crypto-payment verification path of the
    backend:

    - the cache library [lib/redis.js] ([src/unnamed/part_001]) with its
      three clients,
    - [src/lib/blockchain.js]: contract artifact loader, health check and
      contract binding for the call transport,
    - [src/middleware/payment.middleware.js]: [validateCryptoPayment], and
      the controller that follows it in that file, [verifyCryptoPayment] with
      the cache write of its event subscriber.

    Handlers are written as programs over the operations the JavaScript
    source awaits; an interpreter runs them against an explicit environment
    (clock, cache server, ledger node, file system, database) and an
    explicit state (cache contents, module-level variables, orders, journal).

    The environment is what the collaborators answer while one handler runs
    and is held fixed for that run; between runs it may change freely.  Times
    are in milliseconds, as [Date.now()] gives them; [mtimeMs] is taken on the
    same scale.  The cache server follows Redis: a key with an expiry instant
    is gone once the clock has passed it.  [order.save()] validates the
    document against the order schema of [src/unnamed/part_000] and hands it
    to the database only when it is valid; what the database answers is the
    environment's.

    Beyond the verification path the development covers the connection
    manager of [src/lib/blockchain.js] and the event subscriber's set-up as
    state machines over what can happen to them, the argument lists of the
    REST client and the cache wrapper of [lib/redis.js], the URL of the push
    transport, [src/middleware/auth.middleware.js] with the route that mounts
    the handlers ([src/server.js], line 114), the order schema, and
    [checkoutSuccess]. *)

From Stdlib Require Import ZArith String Ascii List Bool Lia DecimalString DecimalZ.
From stdpp Require Import base option gmap strings list.

Local Open Scope string_scope.
Local Open Scope Z_scope.

(** ** JavaScript values used by the handlers *)

(** The result of an awaited call: the promise resolves with a value, or it
    rejects (the [await] throws) with an error carrying a message. *)
Inductive outcome (A : Type) : Type :=
| Resolved (a : A)
| Rejected (message : string).
Arguments Resolved {A} a.
Arguments Rejected {A} message.

(** [!s] on an optional string: [undefined], [null] and the empty string are
    falsy. *)
Definition truthy (s : option string) : bool :=
  match s with
  | None => false
  | Some EmptyString => false
  | Some (String _ _) => true
  end.

(** [String.prototype.toLowerCase] on the ASCII range. *)
Definition lower_ascii (c : ascii) : ascii :=
  let n := nat_of_ascii c in
  if (65 <=? n)%nat && (n <=? 90)%nat then ascii_of_nat (n + 32) else c.

Fixpoint toLowerCase (s : string) : string :=
  match s with
  | EmptyString => EmptyString
  | String c r => String (lower_ascii c) (toLowerCase r)
  end.

(** The character class [[A-Fa-f0-9]]. *)
Definition is_hex (c : ascii) : bool :=
  let n := nat_of_ascii c in
  ((48 <=? n)%nat && (n <=? 57)%nat)
  || ((65 <=? n)%nat && (n <=? 70)%nat)
  || ((97 <=? n)%nat && (n <=? 102)%nat).

Fixpoint all_hex (s : string) : bool :=
  match s with
  | EmptyString => true
  | String c r => is_hex c && all_hex r
  end.

(** [/^0x([A-Fa-f0-9]{64})$/.test(s)] *)
Definition txHashRegex_test (s : string) : bool :=
  match s with
  | String "0" (String "x" r) => (String.length r =? 64)%nat && all_hex r
  | _ => false
  end.

(** [Number.prototype.toString] on an integer, and the inverse reading the
    cache server applies to a counter. *)
Definition toString (z : Z) : string := NilZero.string_of_int (Z.to_int z).

Definition parse_int (s : string) : option Z :=
  match NilZero.int_of_string s with
  | Some d => Some (Z.of_int d)
  | None => None
  end.

(** A JavaScript number: [NaN], an infinity, or a finite double, which is a
    fraction of two integers. *)
Inductive JsNumber :=
| NaN
| Infinity (negative : bool)
| Finite (numerator : Z) (denominator : positive).

(** A value of a JSON body, as far as the tests of the handlers tell values
    apart: [undefined] (the field is absent), [null], a boolean, a number, a
    string, or an array or object, which comes with the number [ToNumber]
    makes of it. *)
Inductive JsValue :=
| js_undefined
| js_null
| js_boolean (b : bool)
| js_number (n : JsNumber)
| js_string (s : string)
| js_object (toNumber : JsNumber).

(** [!v] *)
Definition falsy (v : JsValue) : bool :=
  match v with
  | js_undefined | js_null | js_boolean false | js_string EmptyString
  | js_number NaN | js_number (Finite 0 _) => true
  | _ => false
  end.

(** [ToNumber(v)], the conversion [isNaN(v)] and [v <= 0] apply to [v];
    [StringToNumber] is its part on strings. *)
Definition ToNumber (StringToNumber : string -> JsNumber) (v : JsValue) : JsNumber :=
  match v with
  | js_undefined => NaN
  | js_null => Finite 0 1
  | js_boolean b => if b then Finite 1 1 else Finite 0 1
  | js_number n => n
  | js_string s => StringToNumber s
  | js_object n => n
  end.

Definition isNaN (n : JsNumber) : bool :=
  match n with
  | NaN => true
  | _ => false
  end.

(** [n <= 0]: every comparison with [NaN] is false. *)
Definition le_zero (n : JsNumber) : bool :=
  match n with
  | NaN => false
  | Infinity negative => negative
  | Finite numerator _ => numerator <=? 0
  end.

(** [!amount || isNaN(amount) || amount <= 0], where [n] is [ToNumber(amount)]
    (line 30 of the middleware). *)
Definition invalid_amount (amount : JsValue) (n : JsNumber) : bool :=
  falsy amount || isNaN n || le_zero n.

(** ** Requests and responses *)

Record Product := mkProduct {
  product_id : string;
  product_name : string;
  product_price : Z;
  product_quantity : Z
}.

(** [req.body] (and [req.user]) of a verification request.  [products] is
    [None] when the field is absent or not an array; [paymentId],
    [walletAddress] and [transactionHash] are strings when they are there;
    [amount] is whatever value the body carries. *)
Record Request := mkRequest {
  products : option (list Product);
  paymentId : option string;
  walletAddress : option string;
  transactionHash : option string;
  amount : JsValue;
  user : option string
}.

Record ErrorJson := mkError {
  error : string;
  retryAfter : option Z;
  retryable : option bool;
  details : option string
}.

Record OrderJson := mkOrderJson {
  json_id : N;
  json_amount : JsValue;
  json_status : string;
  json_paymentMethod : string
}.

Inductive Json :=
| JError (e : ErrorJson)
| JSuccess (order : OrderJson).

(** What a handler does with the request: it calls [next()], or it answers
    with [res.status(code).json(body)]. *)
Inductive Response :=
| Next
| Reply (code : Z) (body : Json).

Definition err (msg : string) : Json := JError (mkError msg None None None).

(** ** The order collection *)

(** A document of the [Order] model as the controller builds it with
    [new Order({...})] (lines 285-299): the fields the controller passes,
    the [_id] the constructor adds, and the two required paths of the schema
    the controller may leave out, an item's [product] and the [totalAmount]
    ([None] when not given). *)
Record OrderItem := mkItem {
  item_productId : string;
  item_name : string;
  item_price : Z;
  item_quantity : Z;
  item_product : option string
}.

Record Order := mkOrder {
  order_id : N;
  order_products : list OrderItem;
  order_paymentMethod : string;
  order_paymentId : string;
  order_transactionHash : string;
  order_walletAddress : string;
  order_amount : JsValue;
  order_user : option string;
  order_status : string;
  order_totalAmount : option JsValue
}.

(** ** The order schema ([src/unnamed/part_000]) *)

Module OrderSchema.
(** The [enum] of the paths [status] and [paymentMethod]. *)
Definition status_enum : list string :=
  ["pending"; "processing"; "shipped"; "delivered"; "cancelled"].
Definition paymentMethod_enum : list string := ["stripe"; "crypto"].

Definition allows (enum : list string) (v : string) : bool :=
  existsb (String.eqb v) enum.

Definition required {A} (path : string) (v : option A) : list string :=
  match v with
  | None => [path]
  | Some _ => []
  end.

(** The paths on which the validators of the schema fail: [user],
    [totalAmount] and each item's [product] are required, an item's
    [quantity] has [min: 1], and [status] and [paymentMethod] must be in
    their enums.  ([amount], [productId] and [name] are no paths of the
    schema.) *)
Definition invalid_paths (o : Order) : list string :=
  required "user" (order_user o)
  ++ flat_map (fun item =>
                 (required "products.product" (item_product item)
                  ++ (if item_quantity item <? 1 then ["products.quantity"] else []))%list)
              (order_products o)
  ++ required "totalAmount" (order_totalAmount o)
  ++ (if allows status_enum (order_status o) then [] else ["status"])
  ++ (if allows paymentMethod_enum (order_paymentMethod o)
      then [] else ["paymentMethod"]).

(** The message of the [ValidationError], abridged to the paths it names. *)
Definition ValidationError (paths : list string) : string :=
  "Order validation failed: " +:+ String.concat ", " paths.

(** [document.validate()], which [save()] runs before anything is sent to
    the database. *)
Definition validate (o : Order) : outcome unit :=
  match invalid_paths o with
  | [] => Resolved tt
  | paths => Rejected (ValidationError paths)
  end.
End OrderSchema.

(** ** The ledger node, as seen through the call transport *)

Record Receipt := mkReceipt { receipt_status : bool }.

(** [to] is [null] for a contract-creation transaction. *)
Record Transaction := mkTransaction { transaction_to : option string }.

Record Chain := mkChain {
  net_getId : outcome Z;
  eth_getTransactionReceipt : string -> outcome (option Receipt);
  eth_getTransaction : string -> outcome (option Transaction);
  (** [contract.methods.getPaymentStatus(paymentId).call()] on the contract
      deployed at the given address *)
  methods_getPaymentStatus : string -> string -> outcome bool
}.

(** ** The contract artifact *)

(** What [JSON.parse] makes of [PaymentProcessor.json], an object
    [{abi, networks: {<networkId>: {address}}}]: the [abi] as it is, and the
    address of each network with a deployment.  [networks] is [None] for a
    text that parses to something without a [networks] object. *)
Record ContractJson := mkContractJson {
  abi : string;
  networks : option (gmap Z string)
}.

(** [PaymentProcessor.networks[networkId]]: reading a property of
    [undefined] throws. *)
Definition deployedNetwork (descriptor : ContractJson) (networkId : Z)
  : outcome (option string) :=
  match networks descriptor with
  | Some deployments => Resolved (deployments !! networkId)
  | None => Rejected "Cannot read properties of undefined"
  end.

Record File := mkFile {
  mtimeMs : Z;
  readFileSync : outcome string
}.

(** [new web3.eth.Contract(abi, address)] *)
Record Contract := mkContract {
  contract_abi : string;
  options_address : string
}.

(** ** The cache *)

(** The three clients [src/lib/redis.js] can export as [redis]. *)
Inductive RedisClient :=
| Ioredis                   (* new Redis(process.env.UPSTASH_REDIS_URL) *)
| UpstashRedisRestClient    (* REST credentials configured *)
| InMemoryMock.             (* constructing the ioredis client threw *)

(** A key of the store: its value and its expiry instant (ms), if it has
    one. *)
Record entry := Entry {
  value : string;
  expireAt : option Z
}.

(** The server treats a key as gone once the clock has passed its expiry
    instant. *)
Definition live (now : Z) (e : entry) : bool :=
  match expireAt e with
  | None => true
  | Some t => now <=? t
  end.

Module Server.
(** The commands of the cache server the clients send. *)

Definition lookup (now : Z) (s : gmap string entry) (k : string) : option entry :=
  match s !! k with
  | Some e => if live now e then Some e else None
  | None => None
  end.

Definition GET (now : Z) (s : gmap string entry) (k : string) : option string :=
  value <$> lookup now s k.

(** [SET k v EX seconds] *)
Definition SETEX (now : Z) (s : gmap string entry) (k v : string) (seconds : Z)
  : outcome (gmap string entry) :=
  if seconds <=? 0 then Rejected "ERR invalid expire time in 'set' command"
  else Resolved (<[k := Entry v (Some (now + 1000 * seconds))]> s).

Definition INCR (now : Z) (s : gmap string entry) (k : string)
  : outcome (Z * gmap string entry) :=
  match lookup now s k with
  | None => Resolved (1, <[k := Entry (toString 1) None]> s)
  | Some e =>
      match parse_int (value e) with
      | Some n =>
          if n <? 9223372036854775807
          then Resolved (n + 1, <[k := Entry (toString (n + 1)) (expireAt e)]> s)
          else Rejected "ERR increment or decrement would overflow"
      | None => Rejected "ERR value is not an integer or out of range"
      end
  end.

Definition EXPIRE (now : Z) (s : gmap string entry) (k : string) (seconds : Z)
  : gmap string entry :=
  match lookup now s k with
  | Some e => <[k := Entry (value e) (Some (now + 1000 * seconds))]> s
  | None => s
  end.
End Server.

(** ** Environment and state *)

(** What the outside world answers while one handler runs: the clock, which
    cache client the process was configured with and whether the cache can be
    reached, the ledger node, the artifact on disk, the library functions
    [ethers.isAddress] and [JSON.parse] (restricted to artifacts), what the
    database answers when [order.save()] inserts a valid document, the
    conversion of a string to a number, and whether the constructor
    [new web3.eth.Contract(abi, address)] accepts its arguments or throws. *)
Record Env := mkEnv {
  now : Z;
  redis : RedisClient;
  redis_reachable : bool;
  chain : Chain;
  paymentProcessorPath : option File;
  JSON_parse : string -> option ContractJson;
  ethers_isAddress : string -> bool;
  Order_insertOne : Order -> outcome unit;
  StringToNumber : string -> JsNumber;
  web3_eth_Contract : string -> string -> outcome unit
}.

(** One entry of the journal per interaction with a collaborator, with the
    answer that was received. *)
Inductive Event :=
| EvGet (key : string) (r : outcome (option string))
| EvSet (key val : string) (EX : Z) (r : outcome unit)
| EvIncr (key : string) (r : outcome Z)
| EvExpire (key : string) (seconds : Z) (r : outcome unit)
| EvNetId (r : outcome Z)
| EvReceipt (hash : string) (r : outcome (option Receipt))
| EvPaymentStatus (address pid : string) (r : outcome bool)
| EvTransaction (hash : string) (r : outcome (option Transaction))
| EvSave (o : Order) (r : outcome unit).

(** What persists between handlers: the cache contents, the module-level
    variables of [src/lib/blockchain.js], the order collection, the number of
    object ids handed out, and the journal. *)
Record State := mkState {
  store : gmap string entry;
  PaymentProcessor : ContractJson;
  lastContractLoadTime : Z;
  isBlockchainAvailable : bool;
  orders : list Order;
  objectIds : N;
  journal : list Event
}.

Definition with_store (f : gmap string entry) (s : State) : State :=
  mkState f (PaymentProcessor s) (lastContractLoadTime s)
          (isBlockchainAvailable s) (orders s) (objectIds s) (journal s).

Definition with_available (b : bool) (s : State) : State :=
  mkState (store s) (PaymentProcessor s) (lastContractLoadTime s)
          b (orders s) (objectIds s) (journal s).

Definition with_loaded (c : ContractJson) (t : Z) (s : State) : State :=
  mkState (store s) c t
          (isBlockchainAvailable s) (orders s) (objectIds s) (journal s).

Definition with_order (o : Order) (s : State) : State :=
  mkState (store s) (PaymentProcessor s) (lastContractLoadTime s)
          (isBlockchainAvailable s) (orders s ++ [o]) (objectIds s) (journal s).

Definition with_fresh_id (s : State) : State :=
  mkState (store s) (PaymentProcessor s) (lastContractLoadTime s)
          (isBlockchainAvailable s) (orders s) (N.succ (objectIds s)) (journal s).

Definition log (ev : Event) (s : State) : State :=
  mkState (store s) (PaymentProcessor s) (lastContractLoadTime s)
          (isBlockchainAvailable s) (orders s) (objectIds s) (journal s ++ [ev]).

(** The state of a freshly started process: [PaymentProcessor] is the empty
    placeholder [{ networks: {} }] and nothing was ever loaded. *)
Definition placeholder : ContractJson := mkContractJson EmptyString (Some ∅).

Definition initial : State :=
  mkState ∅ placeholder 0 false [] 0%N [].

(** ** The cache clients of [src/lib/redis.js] *)

Module Client.
Definition unreachable {A} : outcome A := Rejected "connection failed".
Definition not_a_function {A} (m : string) : outcome A :=
  Rejected ("redis." +:+ m +:+ " is not a function").

(** [redis.get(key)] *)
Definition get (e : Env) (s : gmap string entry) (k : string)
  : outcome (option string) :=
  match redis e with
  | Ioredis | UpstashRedisRestClient =>
      if redis_reachable e then Resolved (Server.GET (now e) s k)
      else unreachable
  | InMemoryMock => Resolved (value <$> s !! k)
  end.

(** [redis.set(key, value, 'EX', seconds)]: ioredis sends the command as it
    is, the REST client turns it into [set/key/value/ex/seconds], the mock
    is [(key, value) => cache.set(key, value)] and drops the rest. *)
Definition set (e : Env) (s : gmap string entry) (k v : string) (seconds : Z)
  : outcome (gmap string entry) :=
  match redis e with
  | Ioredis | UpstashRedisRestClient =>
      if redis_reachable e then Server.SETEX (now e) s k v seconds
      else unreachable
  | InMemoryMock => Resolved (<[k := Entry v None]> s)
  end.

(** The expiry instant a successful [set ... 'EX' seconds] leaves on the
    key. *)
Definition kept_expiry (e : Env) (seconds : Z) : option Z :=
  match redis e with
  | Ioredis | UpstashRedisRestClient => Some (now e + 1000 * seconds)
  | InMemoryMock => None
  end.

(** [redis.incr(key)]: only ioredis has the method. *)
Definition incr (e : Env) (s : gmap string entry) (k : string)
  : outcome (Z * gmap string entry) :=
  match redis e with
  | Ioredis =>
      if redis_reachable e then Server.INCR (now e) s k else unreachable
  | UpstashRedisRestClient | InMemoryMock => not_a_function "incr"
  end.

(** [redis.expire(key, seconds)]: only ioredis has the method. *)
Definition expire (e : Env) (s : gmap string entry) (k : string) (seconds : Z)
  : outcome (gmap string entry) :=
  match redis e with
  | Ioredis =>
      if redis_reachable e then Resolved (Server.EXPIRE (now e) s k seconds)
      else unreachable
  | UpstashRedisRestClient | InMemoryMock => not_a_function "expire"
  end.
End Client.

(** ** The contract artifact loader ([src/lib/blockchain.js], lines 14-48) *)

(** [loadContractAbi()]: synchronous, so it runs as one step.  The artifact
    is re-read only when it exists and was modified after the last load; a
    read or parse that throws is caught and leaves both variables as they
    were. *)
Definition loadContractAbi (e : Env) (s : State) : State :=
  match paymentProcessorPath e with
  | Some f =>
      if lastContractLoadTime s <? mtimeMs f then
        match readFileSync f with
        | Resolved contractJson =>
            match JSON_parse e contractJson with
            | Some parsed => with_loaded parsed (now e) s
            | None => s
            end
        | Rejected _ => s
        end
      else s
  | None => s
  end.

(** ** Handlers as programs *)

(** The operations a handler awaits (and the few synchronous ones that read or
    write module state), indexed by the type of what they return. *)
Inductive op : Type -> Type :=
| redis_get (key : string) : op (outcome (option string))
| redis_set (key val : string) (EX : Z) : op (outcome unit)
| redis_incr (key : string) : op (outcome Z)
| redis_expire (key : string) (seconds : Z) : op (outcome unit)
| Date_now : op Z
| isAddress (a : string) : op bool
| web3_eth_net_getId : op (outcome Z)
| web3_eth_getTransactionReceipt (hash : string) : op (outcome (option Receipt))
| web3_eth_getTransaction (hash : string) : op (outcome (option Transaction))
| getPaymentStatus_call (c : Contract) (pid : string) : op (outcome bool)
| read_isBlockchainAvailable : op bool
| write_isBlockchainAvailable (b : bool) : op unit
| call_loadContractAbi : op unit
| read_PaymentProcessor : op ContractJson
| new_ObjectId : op N
| order_save (o : Order) : op (outcome unit)
| coerce (v : JsValue) : op JsNumber
| new_Contract (abi address : string) : op (outcome Contract).

Inductive prog (A : Type) : Type :=
| Ret (a : A)
| Vis {X : Type} (o : op X) (k : X -> prog A).
Arguments Ret {A} a.
Arguments Vis {A X} o k.

Fixpoint bind {A B} (p : prog A) (f : A -> prog B) : prog B :=
  match p with
  | Ret a => f a
  | Vis o k => Vis o (fun x => bind (k x) f)
  end.

(** [await x := o in k] is [const x = await o; k]; with [orelse h] the
    operation stands in a [try] whose [catch] is [h]; [call] runs another
    handler-level function. *)
Notation "'await' x ':=' o 'in' k" := (Vis o (fun x => k))
  (at level 10, x name, o at level 100, k at level 200).
Notation "'await' x ':=' o 'orelse' h 'in' k" :=
  (Vis o (fun r => match r with
                   | Resolved x => k
                   | Rejected message => h message
                   end))
  (at level 10, x name, o at level 100, h at level 100, k at level 200).
Notation "'call' x ':=' p 'in' k" := (bind p (fun x => k))
  (at level 10, x name, p at level 100, k at level 200).

Definition forget {A} (r : outcome A) : outcome unit :=
  match r with
  | Resolved _ => Resolved tt
  | Rejected m => Rejected m
  end.

(** One operation against the environment and the state. *)
Definition exec (e : Env) {X} (o : op X) (s : State) : X * State :=
  match o in op X return X * State with
  | redis_get k =>
      let r := Client.get e (store s) k in (r, log (EvGet k r) s)
  | redis_set k v ex =>
      match Client.set e (store s) k v ex with
      | Resolved st => (Resolved tt, log (EvSet k v ex (Resolved tt)) (with_store st s))
      | Rejected m => (Rejected m, log (EvSet k v ex (Rejected m)) s)
      end
  | redis_incr k =>
      match Client.incr e (store s) k with
      | Resolved (n, st) => (Resolved n, log (EvIncr k (Resolved n)) (with_store st s))
      | Rejected m => (Rejected m, log (EvIncr k (Rejected m)) s)
      end
  | redis_expire k secs =>
      match Client.expire e (store s) k secs with
      | Resolved st =>
          (Resolved tt, log (EvExpire k secs (Resolved tt)) (with_store st s))
      | Rejected m => (Rejected m, log (EvExpire k secs (Rejected m)) s)
      end
  | Date_now => (now e, s)
  | isAddress a => (ethers_isAddress e a, s)
  | web3_eth_net_getId =>
      let r := net_getId (chain e) in (r, log (EvNetId r) s)
  | web3_eth_getTransactionReceipt h =>
      let r := eth_getTransactionReceipt (chain e) h in (r, log (EvReceipt h r) s)
  | web3_eth_getTransaction h =>
      let r := eth_getTransaction (chain e) h in (r, log (EvTransaction h r) s)
  | getPaymentStatus_call c pid =>
      let r := methods_getPaymentStatus (chain e) (options_address c) pid in
      (r, log (EvPaymentStatus (options_address c) pid r) s)
  | read_isBlockchainAvailable => (isBlockchainAvailable s, s)
  | write_isBlockchainAvailable b => (tt, with_available b s)
  | call_loadContractAbi => (tt, loadContractAbi e s)
  | read_PaymentProcessor => (PaymentProcessor s, s)
  | new_ObjectId => (objectIds s, with_fresh_id s)
  | order_save o =>
      match OrderSchema.validate o with
      | Rejected m => (Rejected m, log (EvSave o (Rejected m)) s)
      | Resolved _ =>
          match Order_insertOne e o with
          | Resolved _ => (Resolved tt, log (EvSave o (Resolved tt)) (with_order o s))
          | Rejected m => (Rejected m, log (EvSave o (Rejected m)) s)
          end
      end
  | coerce v => (ToNumber (StringToNumber e) v, s)
  | new_Contract abi address =>
      match web3_eth_Contract e abi address with
      | Resolved _ => (Resolved (mkContract abi address), s)
      | Rejected m => (Rejected m, s)
      end
  end.

(** A handler run to completion, with nothing else scheduled in between. *)
Fixpoint run (e : Env) {A} (p : prog A) (s : State) : A * State :=
  match p with
  | Ret a => (a, s)
  | Vis o k => let '(x, s') := exec e o s in run e (k x) s'
  end.

(** The operations that are awaited; the others are synchronous. *)
Definition awaited {X} (o : op X) : bool :=
  match o with
  | redis_get _ | redis_set _ _ _ | redis_incr _ | redis_expire _ _
  | web3_eth_net_getId | web3_eth_getTransactionReceipt _
  | web3_eth_getTransaction _ | getPaymentStatus_call _ _ | order_save _ => true
  | _ => false
  end.

(** One scheduling step: the handler runs its synchronous code up to and
    including its next [await]; other handlers may run before it resumes. *)
Fixpoint step (e : Env) {A} (p : prog A) (s : State) : prog A * State :=
  match p with
  | Ret a => (Ret a, s)
  | Vis o k =>
      let '(x, s') := exec e o s in
      if awaited o then (k x, s') else step e (k x) s'
  end.


(** ** [src/lib/blockchain.js]: health check and contract binding *)

(** [isBlockchainHealthy()] (lines 213-224) *)
Definition isBlockchainHealthy : prog bool :=
  await r := web3_eth_net_getId in
  match r with
  | Resolved _ => await _ := write_isBlockchainAvailable true in Ret true
  | Rejected _ => await _ := write_isBlockchainAvailable false in Ret false
  end.

(** [getPaymentProcessorContract()] (lines 258-299) on the call transport
    ([forEvents = false]); [None] is the [null] it returns, also from the
    [catch] around the whole body, where a constructor that throws lands. *)
Definition getPaymentProcessorContract : prog (option Contract) :=
  await available := read_isBlockchainAvailable in
  if negb available then Ret None else
  await _ := call_loadContractAbi in
  call isHealthy := isBlockchainHealthy in
  if negb isHealthy then Ret None else
  await networkId := web3_eth_net_getId orelse (fun _ => Ret None) in
  await descriptor := read_PaymentProcessor in
  match deployedNetwork descriptor networkId with
  | Rejected _ | Resolved None => Ret None
  | Resolved (Some address) =>
      await contractInstance := new_Contract (abi descriptor) address
        orelse (fun _ => Ret None) in
      Ret (Some contractInstance)
  end.

(** ** [validateCryptoPayment] ([src/middleware/payment.middleware.js], 10-77) *)

Definition tx_processing (transactionHash : string) : string :=
  "tx-processing:" +:+ transactionHash.
Definition wallet_requests (walletAddress : string) : string :=
  "wallet-requests:" +:+ walletAddress.
Definition tx (transactionHash : string) : string :=
  "tx:" +:+ transactionHash.

Definition already_being_processed : Response :=
  Reply 429 (JError (mkError "Transaction is already being processed"
                             (Some 5) None None)).

Definition too_many_requests : Response :=
  Reply 429 (JError (mkError "Too many payment verification requests"
                             (Some 60) None None)).

(** The [try] block of lines 46-74: any cache operation that throws lands in
    the [catch], which logs and falls through to [next()]. *)
Definition dedup_and_rate_limit (transactionHash walletAddress : string)
  : prog Response :=
  let continue := fun _ : string => Ret Next in
  await cachedTx := redis_get (tx_processing transactionHash) orelse continue in
  if truthy cachedTx then Ret already_being_processed else
  await t := Date_now in
  await _ := redis_set (tx_processing transactionHash) (toString t) 300
    orelse continue in
  await walletRequestCount := redis_incr (wallet_requests walletAddress)
    orelse continue in
  let limit :=
    if 10 <? walletRequestCount then Ret too_many_requests else Ret Next in
  if walletRequestCount =? 1 then
    await _ := redis_expire (wallet_requests walletAddress) 60 orelse continue in
    limit
  else limit.

Definition validateCryptoPayment (req : Request) : prog Response :=
  match products req with
  | None | Some [] => Ret (Reply 400 (err "Invalid products data"))
  | Some (_ :: _) =>
  if negb (truthy (paymentId req))
  then Ret (Reply 400 (err "Payment ID is required")) else
  match walletAddress req with
  | None | Some EmptyString => Ret (Reply 400 (err "Wallet address is required"))
  | Some walletAddress =>
  match transactionHash req with
  | None | Some EmptyString =>
      Ret (Reply 400 (err "Transaction hash is required"))
  | Some transactionHash =>
  await n := coerce (amount req) in
  if invalid_amount (amount req) n
  then Ret (Reply 400 (err "Invalid amount")) else
  await wellFormed := isAddress walletAddress in
  if negb wellFormed
  then Ret (Reply 400 (err "Invalid wallet address format")) else
  if negb (txHashRegex_test transactionHash)
  then Ret (Reply 400 (err "Invalid transaction hash format")) else
  dedup_and_rate_limit transactionHash walletAddress
  end end end.

(** ** [verifyCryptoPayment] (the controller, lines 216-333 of the same file) *)

Definition dquote : string := String (ascii_of_nat 34) EmptyString.

(** [JSON.stringify({ orderId: order._id.toString(), timestamp: Date.now() })] *)
Definition processed_record (orderId : N) (timestamp : Z) : string :=
  "{" +:+ dquote +:+ "orderId" +:+ dquote +:+ ":"
      +:+ dquote +:+ toString (Z.of_N orderId) +:+ dquote +:+ ","
      +:+ dquote +:+ "timestamp" +:+ dquote +:+ ":" +:+ toString timestamp +:+ "}".

Definition services_unavailable : Response :=
  Reply 503 (JError (mkError "Blockchain services temporarily unavailable"
                             (Some 60) (Some true) None)).

(** The inner [catch (blockchainError)] of lines 318-325. *)
Definition blockchainError (message : string) : prog Response :=
  Ret (Reply 500 (JError (mkError "Error verifying blockchain transaction"
                                  None (Some true) (Some message)))).

(** The [catch (contractError)] of lines 268-274. *)
Definition contractError (_ : string) : prog Response :=
  Ret (Reply 500 (JError (mkError "Error verifying payment status on blockchain"
                                  None (Some true) None))).

(** The outer [catch (error)] of lines 326-332. *)
Definition outerError (message : string) : prog Response :=
  Ret (Reply 500 (JError (mkError "An error occurred while verifying crypto payment"
                                  None None (Some message)))).

Definition null_toLowerCase : string :=
  "Cannot read properties of null (reading 'toLowerCase')".

(** [{productId: p._id, name: p.name, price: p.price, quantity: p.quantity}]:
    no [product]. *)
Definition order_item (p : Product) : OrderItem :=
  mkItem (product_id p) (product_name p) (product_price p) (product_quantity p)
         None.

(** Lines 282-317: the order is built (without [totalAmount]) and saved,
    then the processed record is written, then the success response is sent;
    a [save()] or a [set] that rejects lands in the inner [catch]. *)
Definition create_order (req : Request) (items : list Product)
    (paymentId walletAddress transactionHash : string) : prog Response :=
  await oid := new_ObjectId in
  let order := mkOrder oid (map order_item items) "crypto" paymentId
                       transactionHash walletAddress (amount req) (user req)
                       "completed" None in
  await _ := order_save order orelse blockchainError in
  await t := Date_now in
  await _ := redis_set (tx transactionHash) (processed_record oid t) 604800
    orelse blockchainError in
  Ret (Reply 200 (JSuccess (mkOrderJson oid (amount req) "completed" "crypto"))).

(** Lines 244-325: the inner [try]. *)
Definition verify_on_chain (req : Request) (items : list Product)
    (paymentId walletAddress transactionHash : string) : prog Response :=
  await receipt := web3_eth_getTransactionReceipt transactionHash
    orelse blockchainError in
  match receipt with
  | None | Some {| receipt_status := false |} =>
      Ret (Reply 400 (err "Invalid transaction or transaction failed"))
  | Some {| receipt_status := true |} =>
  call contract := getPaymentProcessorContract in
  match contract with
  | None => Ret services_unavailable
  | Some contract =>
  await paymentStatus := getPaymentStatus_call contract paymentId
    orelse contractError in
  if negb paymentStatus
  then Ret (Reply 400 (err "Payment not found or not processed on blockchain"))
  else
  await transaction := web3_eth_getTransaction transactionHash
    orelse blockchainError in
  match transaction with
  | None =>
      Ret (Reply 400 (err "Transaction not sent to payment processor contract"))
  | Some {| transaction_to := None |} => blockchainError null_toLowerCase
  | Some {| transaction_to := Some to |} =>
      if negb (String.eqb (toLowerCase to) (toLowerCase (options_address contract)))
      then Ret (Reply 400 (err "Transaction not sent to payment processor contract"))
      else create_order req items paymentId walletAddress transactionHash
  end end end.

Definition verifyCryptoPayment (req : Request) : prog Response :=
  match products req with
  | None | Some [] => Ret (Reply 400 (err "Invalid or empty products array"))
  | Some (item :: items) =>
  match paymentId req, walletAddress req, transactionHash req with
  | Some (String p ps), Some (String w ws), Some (String h hs) =>
      let paymentId := String p ps in
      let walletAddress := String w ws in
      let transactionHash := String h hs in
      await cachedTransaction := redis_get (tx transactionHash)
        orelse outerError in
      if truthy cachedTransaction
      then Ret (Reply 400 (err "Transaction already processed")) else
      call isHealthy := isBlockchainHealthy in
      if negb isHealthy then Ret services_unavailable else
      verify_on_chain req (item :: items) paymentId walletAddress transactionHash
  | _, _, _ => Ret (Reply 400 (err "Missing required parameters"))
  end end.

(** ** The event subscriber's cache write (lines 370-388 of the controller) *)

(** An integer as web3 hands it over: a [bigint] (what web3 4.x gives by
    default) or a plain number. *)
Inductive Integer :=
| bigint (n : Z)
| plain (n : Z).

(** The event as the ['data'] callback receives it: the [returnValues] it
    reads, [event.blockNumber] and [event.transactionHash]. *)
Record PaymentProcessed := mkPaymentProcessed {
  ev_payer : string;
  ev_amount : Z;
  ev_paymentId : string;
  ev_date : Z;
  ev_tokenAddress : string;
  ev_blockNumber : Integer;
  ev_transactionHash : string
}.

Definition payment (paymentId : string) : string := "payment:" +:+ paymentId.

(** The text of the record for an event in block [blockNumber]. *)
Definition settlement_text (ev : PaymentProcessed) (blockNumber : Z) : string :=
  let field := fun (name val : string) =>
    dquote +:+ name +:+ dquote +:+ ":" +:+ val in
  let quoted := fun v : string => dquote +:+ v +:+ dquote in
  "{" +:+ field "payer" (quoted (ev_payer ev)) +:+ ","
      +:+ field "amount" (quoted (toString (ev_amount ev))) +:+ ","
      +:+ field "date" (quoted (toString (ev_date ev))) +:+ ","
      +:+ field "tokenAddress" (quoted (ev_tokenAddress ev)) +:+ ","
      +:+ field "blockNumber" (toString blockNumber) +:+ ","
      +:+ field "transactionHash" (quoted (ev_transactionHash ev)) +:+ "}".

(** [JSON.stringify({payer, amount: amount.toString(), date: date.toString(),
    tokenAddress, blockNumber: event.blockNumber, transactionHash})]: it
    throws a [TypeError] on a [bigint]. *)
Definition settlement_record (ev : PaymentProcessed) : outcome string :=
  match ev_blockNumber ev with
  | plain blockNumber => Resolved (settlement_text ev blockNumber)
  | bigint _ => Rejected "Do not know how to serialize a BigInt"
  end.

(** The ['data'] callback of the [PaymentProcessed] subscription: its body
    is one [try] whose [catch] logs. *)
Definition onPaymentProcessed (ev : PaymentProcessed) : prog unit :=
  match settlement_record ev with
  | Rejected _ => Ret tt
  | Resolved record =>
      await _ := redis_set (payment (ev_paymentId ev)) record 259200
        orelse (fun _ => Ret tt) in
      Ret tt
  end.

(** ** Authentication ([src/middleware/auth.middleware.js]) *)

Module Auth.
(** A thrown error: its [name] and its [message]. *)
Record Error := mkJsError { name : string; message : string }.

Inductive result (A : Type) : Type :=
| Returned (a : A)
| Thrown (err : Error).
Arguments Returned {A} a.
Arguments Thrown {A} err.

(** A user document, as far as the handlers look at it. *)
Record User := mkUser { _id : string; role : string }.

(** [jwt.verify(token, secret)] gives the payload, of which [userId] is read
    (it may be missing), or throws; [User.findById(id).select("-password")]
    resolves with a user or with [null], or rejects. *)
Record Collaborators := mkCollaborators {
  jwt_verify : string -> result (option string);
  User_findById : option string -> result (option User)
}.

(** What the middleware does: it sets [req.user] and calls [next()], or it
    answers [res.status(code).json({message, error})]. *)
Inductive Answer :=
| Proceed (user : User)
| Refuse (code : Z) (message : string) (error : option string).

(** [protectedRoute] (lines 5-29), given [req.cookies.accessToken]. *)
Definition protectedRoute (a : Collaborators) (accessToken : option string)
  : Answer :=
  let server_error := fun err : Error =>
    Refuse 500 "Unauthorized- Server errori Invalid access token"
           (Some (message err)) in
  (* the inner [catch] *)
  let caught := fun err : Error =>
    if String.eqb (name err) "TokenExpiredError"
    then Refuse 401 "User not authenticated- Token expired" None
    else server_error err in
  match accessToken with
  | None | Some EmptyString =>
      Refuse 401 "User not authenticated- No access token" None
  | Some (String c token) =>
      match jwt_verify a (String c token) with
      | Thrown err => caught err
      | Returned userId =>
          match User_findById a userId with
          | Thrown err => caught err
          | Returned None =>
              Refuse 401 "User not authenticated- No user found" None
          | Returned (Some user) => Proceed user
          end
      end
  end.

(** [adminRoute] (lines 32-43), given [req.user]; [true] is [next()], [false]
    the 403. *)
Definition adminRoute (user : option User) : bool :=
  match user with
  | Some u => String.eqb (role u) "admin"
  | None => false
  end.
End Auth.

(** ** The route ([routes/payment.route.js], in [src/server.js] after the
    server itself; line 114) *)

(** What the client of [POST /verify-crypto-payment] receives. *)
Inductive Reception :=
| Unauthenticated (code : Z) (message : string) (error : option string)
| Handled (r : Response).

Definition as_user (u : Auth.User) (req : Request) : Request :=
  mkRequest (products req) (paymentId req) (walletAddress req)
            (transactionHash req) (amount req) (Some (Auth._id u)).

(** [router.post('/verify-crypto-payment', protectedRoute,
    validateCryptoPayment, verifyCryptoPayment)]: each handler runs when the
    one before it called [next()]; [protectedRoute] sets [req.user], which
    the controller reads. *)
Definition verify_crypto_payment (e : Env) (a : Auth.Collaborators)
    (accessToken : option string) (body : Request) (s : State)
  : Reception * State :=
  match Auth.protectedRoute a accessToken with
  | Auth.Refuse code message error => (Unauthenticated code message error, s)
  | Auth.Proceed u =>
      let '(r, s') := run e (validateCryptoPayment (as_user u body)) s in
      match r with
      | Next =>
          let '(r', s'') := run e (verifyCryptoPayment (as_user u body)) s' in
          (Handled r', s'')
      | Reply _ _ => (Handled r, s')
      end
  end.

(** Everything that touches the cache or the order collection, as one
    invocation each. *)
Inductive Call :=
| Validate (req : Request)
| Verify (req : Request)
| Route (a : Auth.Collaborators) (accessToken : option string) (body : Request)
| Settled (ev : PaymentProcessed).

Definition handle (e : Env) (c : Call) (s : State) : State :=
  match c with
  | Validate req => snd (run e (validateCryptoPayment req) s)
  | Verify req => snd (run e (verifyCryptoPayment req) s)
  | Route a accessToken body => snd (verify_crypto_payment e a accessToken body s)
  | Settled ev => snd (run e (onPaymentProcessed ev) s)
  end.

(** Invocations served one after the other, each under the environment of
    its own moment. *)
Fixpoint serve (calls : list (Env * Call)) (s : State) : State :=
  match calls with
  | [] => s
  | (e, c) :: rest => serve rest (handle e c s)
  end.

(** The answers of the middleware to requests served one after the other. *)
Fixpoint validations (calls : list (Env * Request)) (s : State) : list Response :=
  match calls with
  | [] => []
  | (e, req) :: rest =>
      let '(r, s') := run e (validateCryptoPayment req) s in
      r :: validations rest s'
  end.

(** What the rate limit answers to the requests that follow the [k]-th of a
    window: [next()] up to the tenth, the rejection from the eleventh on. *)
Fixpoint expected (k : Z) (n : nat) : list Response :=
  match n with
  | O => []
  | S n => (if 10 <? k + 1 then too_many_requests else Next) :: expected (k + 1) n
  end.

(** The loader on its 30-second timer, one run per entry. *)
Fixpoint reloads (envs : list Env) (s : State) : State :=
  match envs with
  | [] => s
  | e :: rest => reloads rest (loadContractAbi e s)
  end.

(** The artifact is there, newer than the last load, readable and well
    formed: what it parses to. *)
Definition good_artifact (e : Env) (s : State) : option ContractJson :=
  match paymentProcessorPath e with
  | Some f =>
      if lastContractLoadTime s <? mtimeMs f then
        match readFileSync f with
        | Resolved contractJson => JSON_parse e contractJson
        | Rejected _ => None
        end
      else None
  | None => None
  end.

(** The artifact read by the last of a series of loader runs that found a
    good one. *)
Fixpoint last_good (envs : list Env) (s : State) : option ContractJson :=
  match envs with
  | [] => None
  | e :: rest =>
      match last_good rest (loadContractAbi e s) with
      | Some d => Some d
      | None => good_artifact e s
      end
  end.

(** ** Observations used by the statements *)

(** The cache answers [get key] with a truthy value. *)
Definition cached (e : Env) (s : State) (key : string) : bool :=
  match Client.get e (store s) key with
  | Resolved v => truthy v
  | Rejected _ => false
  end.

(** The cache answers: the client is the in-process mock, or the server can
    be reached. *)
Definition answering (e : Env) : Prop :=
  redis e = InMemoryMock \/ redis_reachable e = true.

(** The fields both handlers insist on. *)
Definition present (req : Request) : bool :=
  match products req with
  | Some (_ :: _) =>
      truthy (paymentId req) && truthy (walletAddress req)
      && truthy (transactionHash req)
  | _ => false
  end.

(** The structural validation of the middleware (lines 13-43). *)
Definition structurally_valid (e : Env) (req : Request) : bool :=
  present req
  && negb (invalid_amount (amount req) (ToNumber (StringToNumber e) (amount req)))
  && match walletAddress req with Some w => ethers_isAddress e w | None => false end
  && match transactionHash req with Some h => txHashRegex_test h | None => false end.

Definition is_error (r : Response) : bool :=
  match r with
  | Reply _ (JError _) => true
  | _ => false
  end.

(** The hash a request carries (empty when it carries none). *)
Definition hash_of (req : Request) : string :=
  match transactionHash req with
  | Some h => h
  | None => EmptyString
  end.

(** The journal of the request that opens a counter window for wallet [w]:
    its [incr] created the counter, answering 1, and its [expire] gave the
    counter its 60 s. *)
Definition opens_window (w : string) (events : list Event) : Prop :=
  In (EvIncr (wallet_requests w) (Resolved 1)) events
  /\ In (EvExpire (wallet_requests w) 60 (Resolved tt)) events.

(** A later request of the window that the request sent under [e0] opened:
    same client, cache in reach, the counter not yet expired, the request
    structurally valid and from the same wallet. *)
Definition within_window (e0 : Env) (w : string) (rq : Env * Request) : Prop :=
  redis (fst rq) = redis e0
  /\ redis_reachable (fst rq) = true
  /\ now (fst rq) <= now e0 + 60000
  /\ structurally_valid (fst rq) (snd rq) = true
  /\ walletAddress (snd rq) = Some w.

(** A request that reaches the rate limit of wallet [w] through the ioredis
    client while the wallet's counter, which expires at [T], is alive. *)
Definition in_window (w : string) (T : Z) (rq : Env * Request) : Prop :=
  redis (fst rq) = Ioredis
  /\ redis_reachable (fst rq) = true
  /\ now (fst rq) <= T
  /\ structurally_valid (fst rq) (snd rq) = true
  /\ walletAddress (snd rq) = Some w.

(** An invocation under [e] finds a record that lasts until [T] still in
    force: its clock has not passed [T], or the client is the in-memory mock,
    which never looks at expiry times. *)
Definition record_in_force (e : Env) (T : Z) : Prop :=
  redis e = InMemoryMock \/ now e <= T.

(** The journal entries a program adds when run from [s]. *)
Definition emitted (e : Env) {A} (p : prog A) (s : State) : list Event :=
  drop (length (journal s)) (journal (snd (run e p s))).

(** The journal entries a request through the route adds. *)
Definition route_emitted (e : Env) (a : Auth.Collaborators)
    (accessToken : option string) (body : Request) (s : State) : list Event :=
  drop (length (journal s))
       (journal (snd (verify_crypto_payment e a accessToken body s))).

(** The state the middleware leaves after requests served one after the
    other. *)
Definition validated (calls : list (Env * Request)) (s : State) : State :=
  serve (map (fun rq => (fst rq, Validate (snd rq))) calls) s.

(** What a run of the loader leaves in [PaymentProcessor] and
    [lastContractLoadTime]. *)
Definition refresh (e : Env) (current : ContractJson) (last : Z) : ContractJson * Z :=
  match paymentProcessorPath e with
  | Some f =>
      if last <? mtimeMs f then
        match readFileSync f with
        | Resolved c =>
            match JSON_parse e c with
            | Some parsed => (parsed, now e)
            | None => (current, last)
            end
        | Rejected _ => (current, last)
        end
      else (current, last)
  | None => (current, last)
  end.

(** ** Sample data *)

Module Sample.
Definition hash : string :=
  "0x" +:+ "aaaaaaaaaaaaaaaaaaaaaaaaaaaaaaaaaaaaaaaaaaaaaaaaaaaaaaaaaaaaaaaa".
Definition wallet : string := "0x52908400098527886E0F7030069857D2E4169EE7".
Definition deployed : string := "0xABCDEF0000000000000000000000000000000001".

(** A ledger on which the payment settled: the receipt succeeded, the
    contract knows the payment, and the transaction went to the contract
    (the node reports the address in lower case). *)
Definition ledger : Chain :=
  mkChain (Resolved 5777)
          (fun _ => Resolved (Some (mkReceipt true)))
          (fun _ => Resolved (Some (mkTransaction
             (Some "0xabcdef0000000000000000000000000000000001"))))
          (fun _ _ => Resolved true).

(** The same ledger, where the transaction created a contract. *)
Definition creation_ledger : Chain :=
  mkChain (Resolved 5777)
          (fun _ => Resolved (Some (mkReceipt true)))
          (fun _ => Resolved (Some (mkTransaction None)))
          (fun _ _ => Resolved true).

Definition artifact : ContractJson :=
  mkContractJson "abi" (Some {[ 5777 := deployed ]}).

Definition parse (text : string) : option ContractJson :=
  if String.eqb text "artifact" then Some artifact else None.

(** Decimal numerals are converted to the integer they denote, the empty
    string to 0, every other string to [NaN]. *)
Definition number (s : string) : JsNumber :=
  match s with
  | EmptyString => Finite 0 1
  | _ => match parse_int s with
         | Some n => Finite n 1
         | None => NaN
         end
  end.

(** A database that accepts every insert and a constructor that accepts
    every ABI and address. *)
Definition collaborators (t : Z) (client : RedisClient) (reachable : bool)
    (node : Chain) (file : option File) : Env :=
  mkEnv t client reachable node file parse (fun _ => true)
        (fun _ => Resolved tt) number (fun _ _ => Resolved tt).

Definition env (client : RedisClient) (reachable : bool) (t : Z) : Env :=
  collaborators t client reachable ledger
                (Some (mkFile 500 (Resolved "artifact"))).

Definition creation_env : Env :=
  collaborators 1000 Ioredis true creation_ledger
                (Some (mkFile 500 (Resolved "artifact"))).

Definition ten : JsValue := js_number (Finite 10 1).

Definition request_from (w h : string) : Request :=
  mkRequest (Some [mkProduct "p1" "shoe" 10 1]) (Some "pay1") (Some w)
            (Some h) ten None.

Definition request_for (h : string) : Request := request_from wallet h.

Definition request : Request := request_for hash.

(** Eleven well-formed hashes that differ in their last digit. *)
Definition hash_n (c : string) : string :=
  "0x" +:+ "aaaaaaaaaaaaaaaaaaaaaaaaaaaaaaaaaaaaaaaaaaaaaaaaaaaaaaaaaaaaaaa" +:+ c.
Definition eleven : list Request :=
  map (fun c => request_for (hash_n c))
      ["0"; "1"; "2"; "3"; "4"; "5"; "6"; "7"; "8"; "9"; "a"].
End Sample.

(** ** Scenarios *)

(** A cache that holds a processed record for the sample hash, as line 304
    writes it: for order 0, written at time 1000. *)
Definition recorded : State :=
  mkState {[ tx Sample.hash := Entry (processed_record 0 1000) (Some 604801000) ]}
          placeholder 0 false [] 0%N [].

(** An access token that [jwt.verify] accepts, of a user that is found. *)
Definition signed_in : Auth.Collaborators :=
  Auth.mkCollaborators (fun _ => Auth.Returned (Some "user1"))
                       (fun _ => Auth.Returned (Some (Auth.mkUser "user1" "customer"))).

(** The order the controller builds from the sample request in a fresh
    process, from an anonymous caller and from the signed-in user. *)
Definition sample_order (user : option string) : Order :=
  mkOrder 0 [mkItem "p1" "shoe" 10 1 None] "crypto" "pay1" Sample.hash
          Sample.wallet Sample.ten user "completed" None.

(** The sample request sent twice, through the route by a signed-in user and
    straight to the controller. *)
Definition replays : list (Env * Call) :=
  [(Sample.env Ioredis true 2000, Route signed_in (Some "token") Sample.request);
   (Sample.env Ioredis true 604801001, Verify Sample.request)].

(** The eleven sample requests, all sent at time [t]. *)
Definition eleven_at (client : RedisClient) (t : Z) : list (Env * Request) :=
  map (fun req => (Sample.env client true t, req)) Sample.eleven.


(** The artifact is deployed at time 500 and loaded at 1000; it is then
    missing at 31000, rewritten with text that does not parse at 61000 and
    unreadable at 91000. *)
Definition missing_env : Env :=
  Sample.collaborators 31000 Ioredis true Sample.ledger None.
Definition malformed_env : Env :=
  Sample.collaborators 61000 Ioredis true Sample.ledger
                       (Some (mkFile 60000 (Resolved "{"))).
Definition unreadable_env : Env :=
  Sample.collaborators 91000 Ioredis true Sample.ledger
                       (Some (mkFile 90000 (Rejected "EACCES: permission denied"))).
Definition timer_runs : list Env :=
  [Sample.env Ioredis true 1000; missing_env; malformed_env; unreadable_env].

(** ** The REST client's argument lists ([src/unnamed/part_001], lines 43-64) *)

Module Rest.
(** An argument of a client method: a string, a number, or [undefined]. *)
Inductive arg :=
| Str (s : string)
| Num (n : Z)
| Undefined.

(** Strict equality, as [includes] and [indexOf] apply it to these values. *)
Definition arg_eqb (a b : arg) : bool :=
  match a, b with
  | Str s, Str s' => String.eqb s s'
  | Num n, Num n' => n =? n'
  | Undefined, Undefined => true
  | _, _ => false
  end.

(** [args.includes(x)] *)
Definition includes (x : arg) (args : list arg) : bool :=
  existsb (fun a => arg_eqb a x) args.

(** [args.indexOf(x)]: [-1] when [x] is not an element. *)
Fixpoint indexOf (x : arg) (args : list arg) : Z :=
  match args with
  | [] => -1
  | a :: rest =>
      if arg_eqb a x then 0
      else let i := indexOf x rest in if i <? 0 then -1 else i + 1
  end.

(** [args[i]]: [undefined] out of range. *)
Definition at_index (args : list arg) (i : Z) : arg :=
  if i <? 0 then Undefined
  else match nth_error args (Z.to_nat i) with
       | Some a => a
       | None => Undefined
       end.

(** [set(key, value, ...args)] (lines 48-56): the command and the arguments
    it hands to [_request]. *)
Definition set (key value : arg) (args : list arg) : string * list arg :=
  if includes (Str "EX") args
     && (indexOf (Str "EX") args + 1 <? Z.of_nat (length args))
  then
    let exIndex := indexOf (Str "EX") args in
    let seconds := at_index args (exIndex + 1) in
    ("set", [key; value; Str "ex"; seconds])
  else ("set", [key; value]).

Definition get (key : arg) : string * list arg := ("get", [key]).
Definition del (key : arg) : string * list arg := ("del", [key]).
Definition ping : string * list arg := ("ping", []).

End Rest.

(** ** The push transport's URL ([src/lib/blockchain.js], lines 53-65) *)

Module Url.
(** No character of the string is the path separator. *)
Fixpoint no_slash (s : string) : bool :=
  match s with
  | EmptyString => true
  | String c rest => negb (Ascii.eqb c "/") && no_slash rest
  end.
End Url.

Module Js.
(** [s.startsWith(p)] *)
Fixpoint startsWith (s p : string) {struct p} : bool :=
  match p with
  | EmptyString => true
  | String a p' =>
      match s with
      | EmptyString => false
      | String b s' => Ascii.eqb b a && startsWith s' p'
      end
  end.

(** [s.includes(p)] *)
Fixpoint includes (s p : string) : bool :=
  startsWith s p
  || match s with
     | EmptyString => false
     | String _ s' => includes s' p
     end.

Fixpoint skip (n : nat) (s : string) : string :=
  match n, s with
  | S n', String _ s' => skip n' s'
  | _, _ => s
  end.

(** [s.replace(pattern, replacement)] for a string pattern: the first
    occurrence is replaced.  (The replacements used here contain no [$].) *)
Fixpoint replace (s pattern replacement : string) : string :=
  if startsWith s pattern
  then replacement +:+ skip (String.length pattern) s
  else match s with
       | EmptyString => EmptyString
       | String c s' => String c (replace s' pattern replacement)
       end.
End Js.

(** [wsProvider] as the module leaves it, given the environment variable
    [WS_BLOCKCHAIN_PROVIDER_URL]. *)
Definition wsProvider (WS_BLOCKCHAIN_PROVIDER_URL : option string) : string :=
  let wsProvider :=
    match WS_BLOCKCHAIN_PROVIDER_URL with
    | Some (String c url) => String c url
    | Some EmptyString | None => "ws://127.0.0.1:7545"
    end in
  if Js.startsWith wsProvider "https://" then
    let wsProvider := Js.replace wsProvider "https://" "wss://" in
    if Js.includes wsProvider "infura.io" && negb (Js.includes wsProvider "/ws/")
    then Js.replace wsProvider "/v3/" "/ws/v3/"
    else wsProvider
  else wsProvider.

(** ** The connection manager ([src/lib/blockchain.js], lines 67-251) *)

Module Transport.
Definition MAX_BLOCKCHAIN_RETRIES : Z := 5.
Definition MAX_WS_RETRIES : Z := 10.

(** [web3Ws]: not assigned yet, an instance over a websocket provider, or
    the HTTP instance taken as fallback (line 187). *)
Inductive Web3Ws := NotAssigned | OverWebSocket | HttpFallback.

(** The module-level variables of lines 68-73, the work that is scheduled and
    has not run yet, and how often each constructor was entered. *)
Record Conn := mkConn {
  isBlockchainAvailable : bool;
  isWebSocketAvailable : bool;
  blockchainRetryCount : Z;
  wsRetryCount : Z;
  web3Ws : Web3Ws;
  (** [getBlockNumber()] promises of [createHttpProvider] not yet settled *)
  blockNumberProbes : nat;
  (** the 1 s connection tests of [createWebSocketProvider] not yet run *)
  connectionTests : nat;
  (** [setTimeout(createWebSocketProvider, ...)] not yet fired *)
  scheduledCreations : nat;
  (** websocket providers constructed so far (each has the three listeners) *)
  wsProviders : nat;
  (** calls of [createHttpProvider] and of [createWebSocketProvider] *)
  httpCreations : nat;
  wsCreations : nat
}.

(** The variables as they are declared, before the initial setup. *)
Definition declared : Conn :=
  mkConn false false 0 0 NotAssigned 0 0 0 0 0 0.

(** [createHttpProvider()] (lines 80-108); [constructed] says whether the
    [try] block ran through (the provider constructor did not throw). *)
Definition createHttpProvider (constructed : bool) (c : Conn) : Conn :=
  if constructed then
    mkConn (isBlockchainAvailable c) (isWebSocketAvailable c)
           (blockchainRetryCount c) (wsRetryCount c) (web3Ws c)
           (S (blockNumberProbes c)) (connectionTests c) (scheduledCreations c)
           (wsProviders c) (S (httpCreations c)) (wsCreations c)
  else
    mkConn false (isWebSocketAvailable c)
           (blockchainRetryCount c) (wsRetryCount c) (web3Ws c)
           (blockNumberProbes c) (connectionTests c) (scheduledCreations c)
           (wsProviders c) (S (httpCreations c)) (wsCreations c).

(** [createWebSocketProvider()] (lines 114-190) *)
Definition createWebSocketProvider (constructed : bool) (c : Conn) : Conn :=
  if constructed then
    mkConn (isBlockchainAvailable c) (isWebSocketAvailable c)
           (blockchainRetryCount c) (wsRetryCount c) OverWebSocket
           (blockNumberProbes c) (S (connectionTests c)) (scheduledCreations c)
           (S (wsProviders c)) (httpCreations c) (S (wsCreations c))
  else if wsRetryCount c <? MAX_WS_RETRIES then
    mkConn (isBlockchainAvailable c) false
           (blockchainRetryCount c) (wsRetryCount c + 1) (web3Ws c)
           (blockNumberProbes c) (connectionTests c) (S (scheduledCreations c))
           (wsProviders c) (httpCreations c) (S (wsCreations c))
  else
    mkConn (isBlockchainAvailable c) false
           (blockchainRetryCount c) (wsRetryCount c) HttpFallback
           (blockNumberProbes c) (connectionTests c) (scheduledCreations c)
           (wsProviders c) (httpCreations c) (S (wsCreations c)).

(** What can happen once the module is loaded.  The booleans say how the
    outside answers: whether a constructor runs through, whether a probe
    resolves. *)
Inductive Happening :=
| Interval (http ws : bool)        (* the 15 s interval of lines 197-207 *)
| BlockNumber (resolved : bool)    (* a [getBlockNumber()] of line 92 settles *)
| ProviderError                    (* ['error'] of a websocket provider *)
| ProviderEnd                      (* ['end'] *)
| ProviderConnect                  (* ['connect'] *)
| ConnectionTest (resolved : bool) (* the test of lines 161-172 runs *)
| ScheduledCreation (ws : bool)    (* a scheduled [createWebSocketProvider] *)
| CallHealth (resolved : bool)     (* [isBlockchainHealthy()], lines 213-224 *)
| EventHealth (currentProvider resolved : bool).
                                   (* [isEventSubscriptionHealthy()], 230-251 *)

Definition set_call (b : bool) (c : Conn) : Conn :=
  mkConn b (isWebSocketAvailable c) (blockchainRetryCount c) (wsRetryCount c)
         (web3Ws c) (blockNumberProbes c) (connectionTests c)
         (scheduledCreations c) (wsProviders c) (httpCreations c) (wsCreations c).

Definition set_push (b : bool) (c : Conn) : Conn :=
  mkConn (isBlockchainAvailable c) b (blockchainRetryCount c) (wsRetryCount c)
         (web3Ws c) (blockNumberProbes c) (connectionTests c)
         (scheduledCreations c) (wsProviders c) (httpCreations c) (wsCreations c).

(** [isEventSubscriptionHealthy()]: the answer and the state it leaves. *)
Definition isEventSubscriptionHealthy (currentProvider resolved : bool) (c : Conn)
  : bool * Conn :=
  if negb (isWebSocketAvailable c) then (false, c)
  else match web3Ws c with
       | NotAssigned => (false, set_push false c)
       | _ =>
           if negb currentProvider then (false, set_push false c)
           else if resolved then (true, c)
           else (false, set_push false c)
       end.

Definition react (c : Conn) (h : Happening) : Conn :=
  match h with
  | Interval http ws =>
      let c1 :=
        if negb (isBlockchainAvailable c)
           && (blockchainRetryCount c <? MAX_BLOCKCHAIN_RETRIES)
        then createHttpProvider http
               (mkConn (isBlockchainAvailable c) (isWebSocketAvailable c)
                       (blockchainRetryCount c + 1) (wsRetryCount c) (web3Ws c)
                       (blockNumberProbes c) (connectionTests c)
                       (scheduledCreations c) (wsProviders c)
                       (httpCreations c) (wsCreations c))
        else c in
      if negb (isWebSocketAvailable c1) && (wsRetryCount c1 <? MAX_WS_RETRIES)
      then createWebSocketProvider ws
             (mkConn (isBlockchainAvailable c1) (isWebSocketAvailable c1)
                     (blockchainRetryCount c1) (wsRetryCount c1 + 1) (web3Ws c1)
                     (blockNumberProbes c1) (connectionTests c1)
                     (scheduledCreations c1) (wsProviders c1)
                     (httpCreations c1) (wsCreations c1))
      else c1
  | BlockNumber resolved =>
      match blockNumberProbes c with
      | O => c
      | S probes =>
          if resolved then
            mkConn true (isWebSocketAvailable c) 0 (wsRetryCount c) (web3Ws c)
                   probes (connectionTests c) (scheduledCreations c)
                   (wsProviders c) (httpCreations c) (wsCreations c)
          else
            mkConn false (isWebSocketAvailable c) (blockchainRetryCount c)
                   (wsRetryCount c) (web3Ws c)
                   probes (connectionTests c) (scheduledCreations c)
                   (wsProviders c) (httpCreations c) (wsCreations c)
      end
  | ProviderError =>
      match wsProviders c with
      | O => c
      | S _ => set_push false c
      end
  | ProviderEnd =>
      match wsProviders c with
      | O => c
      | S _ =>
          if wsRetryCount c <? MAX_WS_RETRIES then
            mkConn (isBlockchainAvailable c) false (blockchainRetryCount c)
                   (wsRetryCount c + 1) (web3Ws c)
                   (blockNumberProbes c) (connectionTests c)
                   (S (scheduledCreations c)) (wsProviders c)
                   (httpCreations c) (wsCreations c)
          else set_push false c
      end
  | ProviderConnect =>
      match wsProviders c with
      | O => c
      | S _ =>
          mkConn (isBlockchainAvailable c) true (blockchainRetryCount c)
                 0 (web3Ws c)
                 (blockNumberProbes c) (connectionTests c)
                 (scheduledCreations c) (wsProviders c)
                 (httpCreations c) (wsCreations c)
      end
  | ConnectionTest resolved =>
      match connectionTests c with
      | O => c
      | S tests =>
          mkConn (isBlockchainAvailable c)
                 (if resolved then true else isWebSocketAvailable c)
                 (blockchainRetryCount c) (wsRetryCount c) (web3Ws c)
                 (blockNumberProbes c) tests
                 (scheduledCreations c) (wsProviders c)
                 (httpCreations c) (wsCreations c)
      end
  | ScheduledCreation ws =>
      match scheduledCreations c with
      | O => c
      | S scheduled =>
          createWebSocketProvider ws
            (mkConn (isBlockchainAvailable c) (isWebSocketAvailable c)
                    (blockchainRetryCount c) (wsRetryCount c) (web3Ws c)
                    (blockNumberProbes c) (connectionTests c)
                    scheduled (wsProviders c)
                    (httpCreations c) (wsCreations c))
      end
  | CallHealth resolved => set_call resolved c
  | EventHealth currentProvider resolved =>
      snd (isEventSubscriptionHealthy currentProvider resolved c)
  end.

(** The initial setup of lines 192-194. *)
Definition setup (http ws : bool) : Conn :=
  createWebSocketProvider ws (createHttpProvider http declared).

Fixpoint after (happenings : list Happening) (c : Conn) : Conn :=
  match happenings with
  | [] => c
  | h :: rest => after rest (react c h)
  end.
End Transport.

(** ** The event subscriber (the controller, lines 335-427) *)

Module Subscriber.
(** What the push side answers while the setup runs: whether [web3Ws] has a
    provider, what [web3Ws.eth.net.getId()] gives, whether the contract
    instance offers [events.PaymentProcessed], and what calling it gives: it
    throws, or it returns a subscription ([true]) or nothing ([false]); and
    whether the constructor [new web3Ws.eth.Contract(abi, address)] accepts
    its arguments or throws. *)
Record PushEnv := mkPushEnv {
  currentProvider : bool;
  ws_net_getId : outcome Z;
  events_PaymentProcessed : Contract -> bool;
  subscribe : Contract -> outcome bool;
  web3Ws_eth_Contract : string -> string -> outcome unit
}.

Definition resolved {A} (r : outcome A) : bool :=
  match r with
  | Resolved _ => true
  | Rejected _ => false
  end.

(** [getPaymentProcessorContract(true)] ([src/lib/blockchain.js], lines
    258-299, with [forEvents] set). *)
Definition getPaymentProcessorContract_forEvents (e : Env) (p : PushEnv)
    (c : Transport.Conn) (s : State) : option Contract * Transport.Conn * State :=
  if negb (Transport.isWebSocketAvailable c) then (None, c, s) else
  let s1 := loadContractAbi e s in
  let '(isHealthy, c1) :=
    Transport.isEventSubscriptionHealthy (currentProvider p)
                                         (resolved (ws_net_getId p)) c in
  if negb isHealthy then (None, c1, s1) else
  match ws_net_getId p with
  | Rejected _ => (None, c1, s1)
  | Resolved networkId =>
      match deployedNetwork (PaymentProcessor s1) networkId with
      | Resolved (Some address) =>
          match web3Ws_eth_Contract p (abi (PaymentProcessor s1)) address with
          | Resolved _ =>
              (Some (mkContract (abi (PaymentProcessor s1)) address), c1, s1)
          | Rejected _ => (None, c1, s1)
          end
      | _ => (None, c1, s1)
      end
  end.

(** The connection manager's variables, the loader's variables, the
    contracts a listener was attached to, and the retry bookkeeping of lines
    409-411 with the delays of the timers that are pending. *)
Record Listener := mkListener {
  conn : Transport.Conn;
  module : State;
  subscriptions : list Contract;
  retryCount : Z;
  timers : list Z
}.

Definition maxRetries : Z := 3.
Definition retryDelay : Z := 10000.

(** [setupBlockchainEventListeners()] (lines 336-406): the promise it
    returns, and the state it leaves.  The body is one [try] whose [catch]
    logs; the subscription is made in an inner [try] whose [catch] logs
    too. *)
Definition setupBlockchainEventListeners (e : Env) (p : PushEnv) (l : Listener)
  : outcome unit * Listener :=
  let '(isHealthy, c1) :=
    Transport.isEventSubscriptionHealthy (currentProvider p)
                                         (resolved (ws_net_getId p)) (conn l) in
  if negb isHealthy
  then (Resolved tt, mkListener c1 (module l) (subscriptions l) (retryCount l) (timers l))
  else
  let '(contract, c2, s2) := getPaymentProcessorContract_forEvents e p c1 (module l) in
  let skipped := mkListener c2 s2 (subscriptions l) (retryCount l) (timers l) in
  match contract with
  | None => (Resolved tt, skipped)
  | Some contract =>
      if negb (events_PaymentProcessed p contract) then (Resolved tt, skipped)
      else
        match subscribe p contract with
        | Rejected _ | Resolved false => (Resolved tt, skipped)
        | Resolved true =>
            (Resolved tt,
             mkListener c2 s2 (subscriptions l ++ [contract]) (retryCount l)
                        (timers l))
        end
  end.

(** [initializeEventListeners()] (lines 413-424) *)
Definition initializeEventListeners (e : Env) (p : PushEnv) (l : Listener)
  : Listener :=
  match setupBlockchainEventListeners e p l with
  | (Resolved _, l') => l'
  | (Rejected _, l') =>
      if retryCount l' <? maxRetries
      then mkListener (conn l') (module l') (subscriptions l')
                      (retryCount l' + 1) (timers l' ++ [retryDelay])
      else l'
  end.

(** The process after the module is loaded: the timer of line 427 is pending. *)
Definition loaded (c : Transport.Conn) (s : State) : Listener :=
  mkListener c s [] 0 [5000].

(** What happens next: something in the connection manager, or the oldest
    pending timer fires and runs [initializeEventListeners]. *)
Inductive Step :=
| Manager (h : Transport.Happening)
| Timer (e : Env) (p : PushEnv).

Definition step (l : Listener) (st : Step) : Listener :=
  match st with
  | Manager h =>
      mkListener (Transport.react (conn l) h) (module l) (subscriptions l)
                 (retryCount l) (timers l)
  | Timer e p =>
      match timers l with
      | [] => l
      | _ :: pending =>
          initializeEventListeners e p
            (mkListener (conn l) (module l) (subscriptions l) (retryCount l) pending)
      end
  end.

Fixpoint lifetime (steps : list Step) (l : Listener) : Listener :=
  match steps with
  | [] => l
  | st :: rest => lifetime rest (step l st)
  end.
End Subscriber.

(** ** The cache wrapper ([src/unnamed/part_001], lines 136-157) *)

Section Wrapper.
(** The data a callback produces, with what [JSON.parse] makes of a cached
    text, what [JSON.stringify] makes of the data (either may throw), and
    whether the data is truthy. *)
Context {D : Type}.
Variable JSON_parse_data : string -> outcome D.
Variable JSON_stringify : D -> outcome string.
Variable truthy_data : D -> bool.

(** [getOrSetCache(key, callback, expiryInSeconds = 3600)].  [callback n] is
    what the callback's promise settles with when it is invoked for the
    [n]-th time (counting from 0).  The result is what the wrapper's promise
    settles with, the cache it leaves, and how often the callback was
    invoked. *)
Definition getOrSetCache (e : Env) (st : gmap string entry) (key : string)
    (callback : nat -> outcome D) (expiryInSeconds : option Z)
  : outcome D * gmap string entry * nat :=
  let seconds :=
    match expiryInSeconds with
    | Some seconds => seconds
    | None => 3600
    end in
  (* the [catch]: the callback is invoked (again) and its promise returned *)
  let fallback := fun invoked : nat => (callback invoked, st, S invoked) in
  match Client.get e st key with
  | Rejected _ => fallback 0%nat
  | Resolved (Some (String c text)) =>
      match JSON_parse_data (String c text) with
      | Resolved data => (Resolved data, st, 0%nat)
      | Rejected _ => fallback 0%nat
      end
  | Resolved _ =>
      match callback 0%nat with
      | Rejected _ => fallback 1%nat
      | Resolved freshData =>
          if truthy_data freshData then
            match JSON_stringify freshData with
            | Rejected _ => fallback 1%nat
            | Resolved text =>
                match Client.set e st key text seconds with
                | Resolved st' => (Resolved freshData, st', 1%nat)
                | Rejected _ => fallback 1%nat
                end
            end
          else (Resolved freshData, st, 1%nat)
      end
  end.
End Wrapper.

(** ** [checkoutSuccess] (the controller, lines 160-214) *)

Module Checkout.
Section Numbers.
(** JavaScript numbers are carried around as they are; [hundredth n] is
    [n / 100]. *)
Variable Number : Type.
Variable hundredth : Z -> Number.

Record Item := mkItem {
  product : string;
  quantity : Number;
  price : Number
}.

(** A checkout session, as far as the handler reads it. *)
Record Session := mkSession {
  payment_status : string;
  metadata_userId : string;
  metadata_couponCode : string;
  metadata_products : string;
  amount_total : Z
}.

Record Coupon := mkCoupon {
  code : string;
  userId : string;
  isActive : bool
}.

Record Order := mkOrder {
  _id : N;
  user : string;
  products : list Item;
  totalAmount : Number;
  stripeSessionId : string
}.

(** The orders that carry a [stripeSessionId], the coupons, and the object
    ids handed out. *)
Record Shop := mkShop {
  orders : list Order;
  coupons : list Coupon;
  objectIds : N
}.

(** What the collaborators answer while the handler runs:
    [stripe.checkout.sessions.retrieve], whether the database answers the
    two queries, [JSON.parse] of the products in the metadata, and
    [newOrder.save()]. *)
Record Services := mkServices {
  sessions_retrieve : string -> outcome Session;
  Order_findOne : outcome unit;
  Coupon_findOneAndUpdate : outcome unit;
  JSON_parse_products : string -> outcome (list Item);
  save : Order -> outcome unit
}.

Inductive Answer :=
| AlreadyProcessed (orderId : N)     (* 200, "Order already processed" *)
| Created (orderId : N)              (* 200, "Payment successful, ..." *)
| Failed (error : string)            (* 500 *)
| Unanswered.                        (* the handler returns without a response *)

(** [Order.findOne({ stripeSessionId })] on the collection. *)
Definition findOne (sessionId : string) (os : list Order) : option Order :=
  List.find (fun o => String.eqb (stripeSessionId o) sessionId) os.

(** [Coupon.findOneAndUpdate({ code, userId }, { isActive: false })]: the
    first matching coupon is updated. *)
Fixpoint deactivate (c u : string) (cs : list Coupon) : list Coupon :=
  match cs with
  | [] => []
  | coupon :: rest =>
      if String.eqb (code coupon) c && String.eqb (userId coupon) u
      then mkCoupon (code coupon) (userId coupon) false :: rest
      else coupon :: deactivate c u rest
  end.

Definition checkoutSuccess (v : Services) (sessionId : string) (s : Shop)
  : Answer * Shop :=
  match sessions_retrieve v sessionId with
  | Rejected m => (Failed m, s)
  | Resolved session =>
      if String.eqb (payment_status session) "paid" then
        match Order_findOne v with
        | Rejected m => (Failed m, s)
        | Resolved _ =>
            match findOne sessionId (orders s) with
            | Some existingOrder => (AlreadyProcessed (_id existingOrder), s)
            | None =>
                let updated :=
                  match metadata_couponCode session with
                  | EmptyString => Resolved s
                  | String _ _ =>
                      match Coupon_findOneAndUpdate v with
                      | Rejected m => Rejected m
                      | Resolved _ =>
                          Resolved
                            (mkShop (orders s)
                                    (deactivate (metadata_couponCode session)
                                                (metadata_userId session)
                                                (coupons s))
                                    (objectIds s))
                      end
                  end in
                match updated with
                | Rejected m => (Failed m, s)
                | Resolved s1 =>
                    match JSON_parse_products v (metadata_products session) with
                    | Rejected m => (Failed m, s1)
                    | Resolved items =>
                        let newOrder :=
                          mkOrder (objectIds s1) (metadata_userId session) items
                                  (hundredth (amount_total session)) sessionId in
                        let s2 := mkShop (orders s1) (coupons s1)
                                         (N.succ (objectIds s1)) in
                        match save v newOrder with
                        | Rejected m => (Failed m, s2)
                        | Resolved _ =>
                            (Created (_id newOrder),
                             mkShop (orders s2 ++ [newOrder]) (coupons s2)
                                    (objectIds s2))
                        end
                    end
                end
            end
        end
      else (Unanswered, s)
  end.
End Numbers.

Arguments mkItem {Number}.
Arguments product {Number}.
Arguments quantity {Number}.
Arguments price {Number}.
Arguments mkOrder {Number}.
Arguments _id {Number}.
Arguments user {Number}.
Arguments products {Number}.
Arguments totalAmount {Number}.
Arguments stripeSessionId {Number}.
Arguments mkShop {Number}.
Arguments orders {Number}.
Arguments coupons {Number}.
Arguments objectIds {Number}.
Arguments mkServices {Number}.
Arguments sessions_retrieve {Number}.
Arguments Order_findOne {Number}.
Arguments Coupon_findOneAndUpdate {Number}.
Arguments JSON_parse_products {Number}.
Arguments save {Number}.
Arguments findOne {Number}.
Arguments checkoutSuccess {Number}.
End Checkout.

(** ** Further observations *)

(** The cache key an event is about. *)
Definition key_of (ev : Event) : option string :=
  match ev with
  | EvGet k _ | EvSet k _ _ _ | EvIncr k _ | EvExpire k _ _ => Some k
  | _ => None
  end.

(** Both retry counters are within their budgets. *)
Definition within_budget (c : Transport.Conn) : Prop :=
  0 <= Transport.blockchainRetryCount c <= Transport.MAX_BLOCKCHAIN_RETRIES
  /\ 0 <= Transport.wsRetryCount c <= Transport.MAX_WS_RETRIES.

(** Each call of [createHttpProvider] after the first was paid for with one
    unit of the call budget. *)
Definition call_attempts_paid (c : Transport.Conn) : Prop :=
  Z.of_nat (Transport.httpCreations c) <= 1 + Transport.blockchainRetryCount c.

(** Each call of [createWebSocketProvider] after the first, made or
    scheduled, was paid for with one unit of the push budget. *)
Definition push_attempts_paid (c : Transport.Conn) : Prop :=
  Z.of_nat (Transport.wsCreations c + Transport.scheduledCreations c)
  <= 1 + Transport.wsRetryCount c.

(** The call budget is used up and no probe is outstanding. *)
Definition call_given_up (c : Transport.Conn) : Prop :=
  Transport.blockchainRetryCount c = Transport.MAX_BLOCKCHAIN_RETRIES
  /\ Transport.blockNumberProbes c = 0%nat.

(** ** Further scenarios *)

(** A ledger node that cannot be reached. *)
Definition outage : Chain :=
  mkChain (Rejected "timeout") (fun _ => Rejected "timeout")
          (fun _ => Rejected "timeout") (fun _ _ => Rejected "timeout").

Definition outage_env (t : Z) : Env :=
  Sample.collaborators t Ioredis true outage
                       (Some (mkFile 500 (Resolved "artifact"))).

(** The sample hash with its digits in upper case. *)
Definition upper_hash : string :=
  "0x" +:+ "AAAAAAAAAAAAAAAAAAAAAAAAAAAAAAAAAAAAAAAAAAAAAAAAAAAAAAAAAAAAAAAA".

(** The sample wallet has used up a window that ended at time 61000. *)
Definition used_up : State :=
  mkState {[ wallet_requests Sample.wallet := Entry (toString 11) (Some 61000) ]}
          placeholder 0 false [] 0%N [].

(** The call budget used up: the provider constructor threw at start-up and
    on each of the five intervals that followed. *)
Definition given_up : Transport.Conn :=
  Transport.after (repeat (Transport.Interval false true) 5)
                  (Transport.setup false true).

(** A cache wrapper over texts, whose callback produces ["fresh"]. *)
Definition text_wrapper :=
  getOrSetCache (D := string) Resolved Resolved (fun text => truthy (Some text)).
Definition fresh (_ : nat) : outcome string := Resolved "fresh".

(** A paid checkout session without coupon, and services that answer. *)
Definition paid : Checkout.Session :=
  Checkout.mkSession "paid" "user1" EmptyString "[]" 2000.
Definition shop_services : Checkout.Services Z :=
  Checkout.mkServices (fun _ => Resolved paid) (Resolved tt) (Resolved tt)
                      (fun _ => Resolved []) (fun _ => Resolved tt).
Definition empty_shop : Checkout.Shop Z := Checkout.mkShop [] [] 0%N.

(** * Properties *)

Arguments Client.get : simpl never.
Arguments Client.set : simpl never.
Arguments Client.incr : simpl never.
Arguments Client.expire : simpl never.
Arguments Client.kept_expiry : simpl never.
Arguments toString : simpl never.
Arguments toLowerCase : simpl never.
Arguments txHashRegex_test : simpl never.
Arguments tx : simpl never.
Arguments tx_processing : simpl never.
Arguments wallet_requests : simpl never.
Arguments payment : simpl never.
Arguments processed_record : simpl never.
Arguments settlement_record : simpl never.
Arguments settlement_text : simpl never.
Arguments invalid_amount : simpl never.
Arguments OrderSchema.validate : simpl never.
Arguments OrderSchema.invalid_paths : simpl never.
Arguments refresh : simpl never.
Arguments deployedNetwork : simpl never.

(** ** Running programs *)

Lemma run_bind e {A B} (p : prog A) (f : A -> prog B) s :
  run e (bind p f) s = let '(a, s') := run e p s in run e (f a) s'.
Proof.
  revert s. induction p as [a | X o k IH]; intros s; cbn [bind run].
  - reflexivity.
  - destruct (exec e o s) as [x s']. apply IH.
Qed.

Lemma loadContractAbi_eq e s :
  loadContractAbi e s
  = mkState (store s)
            (fst (refresh e (PaymentProcessor s) (lastContractLoadTime s)))
            (snd (refresh e (PaymentProcessor s) (lastContractLoadTime s)))
            (isBlockchainAvailable s) (orders s) (objectIds s) (journal s).
Proof.
  destruct s as [st pp t b os ids j].
  unfold loadContractAbi, refresh; cbn.
  destruct (paymentProcessorPath e) as [f|]; [|done].
  destruct (t <? mtimeMs f); [|done].
  destruct (readFileSync f) as [c|]; [|done].
  destruct (JSON_parse e c); done.
Qed.
Arguments loadContractAbi : simpl never.

(** [order.save()] rejects a document whose status is ["completed"], the
    status the controller gives every order: the value is outside the enum
    of the schema. *)
Lemma completed_is_invalid o :
  order_status o = "completed" -> In "status" (OrderSchema.invalid_paths o).
Proof.
  intros H. unfold OrderSchema.invalid_paths. rewrite H.
  do 3 (apply in_or_app; right). apply in_or_app; left. cbn. auto.
Qed.

Lemma validate_rejects o :
  order_status o = "completed" ->
  OrderSchema.validate o
  = Rejected (OrderSchema.ValidationError (OrderSchema.invalid_paths o)).
Proof.
  intros H. apply completed_is_invalid in H. unfold OrderSchema.validate.
  destruct (OrderSchema.invalid_paths o); [destruct H | reflexivity].
Qed.

(** A document without [totalAmount] fails on that path too. *)
Lemma totalAmount_is_required o :
  order_totalAmount o = None -> In "totalAmount" (OrderSchema.invalid_paths o).
Proof.
  intros H. unfold OrderSchema.invalid_paths. rewrite H.
  do 2 (apply in_or_app; right). apply in_or_app; left. cbn. auto.
Qed.

(** Symbolic execution: unfold the interpreter on the next operation, reuse
    what is already known about an answer, or split on it. *)
Ltac run_step :=
  first
    [ progress cbn [run exec bind fst snd isBlockchainHealthy
                    getPaymentProcessorContract verify_on_chain create_order
                    blockchainError contractError outerError
                    dedup_and_rate_limit onPaymentProcessed
                    negb options_address contract_abi
                    store PaymentProcessor lastContractLoadTime
                    isBlockchainAvailable orders objectIds journal
                    log with_store with_available with_order
                    with_fresh_id with_loaded]
    | rewrite loadContractAbi_eq
    | rewrite validate_rejects by reflexivity
    | match goal with
      | H : ?x = _ |- context [match ?x with _ => _ end] => rewrite H
      | H : ?x = _ |- context [if ?x then _ else _] => rewrite H
      | |- context [match ?x with _ => _ end] =>
          lazymatch x with
          | context [match _ with _ => _ end] => fail
          | _ => destruct x eqn:?
          end
      | |- context [if ?x then _ else _] =>
          lazymatch x with
          | context [match _ with _ => _ end] => fail
          | _ => destruct x eqn:?
          end
      end ].
Ltac run_all := repeat run_step.

(** Bring [drop (length j) (j ++ new)] to [new]. *)
Ltac journal_norm :=
  rewrite <- ?app_assoc; cbn [app];
  first [ rewrite drop_app_length | rewrite drop_all | idtac ].

(** A membership in an explicit list that no element satisfies. *)
Ltac not_in H :=
  cbn [In] in H;
  repeat (destruct H as [H | H]; [discriminate H |]);
  lazymatch type of H with False => destruct H end.

Lemma present_fields req :
  present req = true ->
  exists item items p w h,
    products req = Some (item :: items)
    /\ paymentId req = Some p /\ truthy (Some p) = true
    /\ walletAddress req = Some w /\ truthy (Some w) = true
    /\ transactionHash req = Some h /\ truthy (Some h) = true.
Proof.
  unfold present. destruct (products req) as [[|item items]|]; try discriminate.
  intros H. apply andb_true_iff in H as [H Hh]. apply andb_true_iff in H as [Hp Hw].
  destruct (paymentId req) as [p|]; try discriminate.
  destruct (walletAddress req) as [w|]; try discriminate.
  destruct (transactionHash req) as [h|]; try discriminate.
  exists item, items, p, w, h. repeat split; assumption.
Qed.
(** ** The cache key namespace *)

Lemma tx_inj h h' : tx h = tx h' -> h = h'.
Proof. unfold tx; cbv [String.append]. congruence. Qed.

Lemma tx_processing_inj h h' : tx_processing h = tx_processing h' -> h = h'.
Proof. unfold tx_processing; cbv [String.append]. congruence. Qed.

Lemma tx_not_processing h h' : tx_processing h' <> tx h.
Proof. unfold tx, tx_processing; cbv [String.append]. congruence. Qed.

Lemma tx_not_wallet h w : wallet_requests w <> tx h.
Proof. unfold tx, wallet_requests; cbv [String.append]. congruence. Qed.

Lemma tx_not_payment h p : payment p <> tx h.
Proof. unfold tx, payment; cbv [String.append]. congruence. Qed.

Lemma processing_not_wallet h w : wallet_requests w <> tx_processing h.
Proof. unfold tx_processing, wallet_requests; cbv [String.append]. congruence. Qed.

(** ** What a client operation changes *)

Lemma set_other e st k v ex st' k' :
  Client.set e st k v ex = Resolved st' -> k <> k' -> st' !! k' = st !! k'.
Proof.
  unfold Client.set, Server.SETEX, Client.unreachable. intros H Hk.
  destruct (redis e), (redis_reachable e), (ex <=? 0);
    inversion H; subst; by rewrite lookup_insert_ne.
Qed.

Lemma incr_other e st k n st' k' :
  Client.incr e st k = Resolved (n, st') -> k <> k' -> st' !! k' = st !! k'.
Proof.
  unfold Client.incr, Server.INCR, Client.unreachable, Client.not_a_function.
  intros H Hk.
  destruct (redis e), (redis_reachable e); try discriminate.
  destruct (Server.lookup (now e) st k) as [ent|].
  - destruct (parse_int (value ent)) as [m|]; [|discriminate].
    destruct (m <? 9223372036854775807); inversion H; subst.
    by rewrite lookup_insert_ne.
  - inversion H; subst. by rewrite lookup_insert_ne.
Qed.

Lemma expire_other e st k secs st' k' :
  Client.expire e st k secs = Resolved st' -> k <> k' -> st' !! k' = st !! k'.
Proof.
  unfold Client.expire, Server.EXPIRE, Client.unreachable, Client.not_a_function.
  intros H Hk.
  destruct (redis e), (redis_reachable e); try discriminate.
  inversion H; subst.
  destruct (Server.lookup (now e) st k); [by rewrite lookup_insert_ne | done].
Qed.

(** [get] depends on the store only through the key it reads. *)
Lemma get_ext e st st' k :
  st' !! k = st !! k -> Client.get e st' k = Client.get e st k.
Proof.
  unfold Client.get, Server.GET, Server.lookup. intros ->. reflexivity.
Qed.

(** Rewrite a lookup in a store an operation produced into a lookup in the
    store it started from, when the operation wrote another key. *)
Ltac frame :=
  repeat match goal with
    | H : Client.set _ _ ?k _ _ = Resolved ?st' |- context [?st' !! ?k'] =>
        rewrite (set_other _ _ _ _ _ _ k' H) by (try congruence; auto)
    | H : Client.incr _ _ ?k = Resolved (_, ?st') |- context [?st' !! ?k'] =>
        rewrite (incr_other _ _ _ _ _ k' H) by (try congruence; auto)
    | H : Client.expire _ _ ?k _ = Resolved ?st' |- context [?st' !! ?k'] =>
        rewrite (expire_other _ _ _ _ _ k' H) by (try congruence; auto)
    end.

(** ** The middleware and the subscriber leave the rest alone *)

Lemma validate_frame e s req :
  let out := run e (validateCryptoPayment req) s in
  orders (snd out) = orders s
  /\ (fst out = Next \/ is_error (fst out) = true)
  /\ forall k, (forall h, tx_processing h <> k) -> (forall w, wallet_requests w <> k) ->
       store (snd out) !! k = store s !! k.
Proof.
  destruct s as [st pp t b os ids j]. unfold validateCryptoPayment.
  run_all; cbn [fst snd orders store is_error];
    (split; [reflexivity | split; [auto | intros k Hp Hw; frame; reflexivity]]).
Qed.

(** ** Replaying a processed transaction *)

Lemma verify_replay e s req h :
  present req = true -> transactionHash req = Some h ->
  cached e s (tx h) = true ->
  run e (verifyCryptoPayment req) s
  = (Reply 400 (err "Transaction already processed"),
     log (EvGet (tx h) (Client.get e (store s) (tx h))) s).
Proof.
  intros Hp Hh Hc.
  destruct (present_fields req Hp)
    as (item & items & p & w & h' & E1 & E2 & T2 & E3 & T3 & E4 & T4).
  rewrite Hh in E4. inversion E4; subst h'. clear E4.
  unfold verifyCryptoPayment. rewrite E1, E2, E3, Hh.
  destruct p as [|pc ps]; [discriminate|].
  destruct w as [|wc ws]; [discriminate|].
  destruct h as [|hc hs]; [discriminate|].
  cbn [run exec].
  unfold cached in Hc.
  destruct (Client.get e (store s) (tx (String hc hs))) as [v|m]; [|discriminate].
  rewrite Hc. reflexivity.
Qed.

Lemma cached_ext e s s' k :
  store s' !! k = store s !! k -> cached e s' k = cached e s k.
Proof. intros H. unfold cached. by rewrite (get_ext _ _ _ _ H). Qed.

(** What the middleware answers to a request that carries its fields. *)
Lemma validate_answers e s req :
  present req = true ->
  fst (run e (validateCryptoPayment req) s) = Next
  \/ fst (run e (validateCryptoPayment req) s) = already_being_processed
  \/ fst (run e (validateCryptoPayment req) s) = too_many_requests
  \/ exists msg,
       In msg ["Invalid amount"; "Invalid wallet address format";
               "Invalid transaction hash format"]
       /\ fst (run e (validateCryptoPayment req) s) = Reply 400 (err msg).
Proof.
  intros Hp.
  destruct (present_fields req Hp)
    as (item & items & p & w & h & E1 & E2 & T2 & E3 & T3 & E4 & T4).
  destruct s as [st pp t b os ids j].
  unfold validateCryptoPayment. rewrite E1, E2, E3, E4, T2.
  destruct w as [|wc ws]; [discriminate |].
  destruct h as [|hc hs]; [discriminate |].
  run_all; cbn [fst];
    first [ by left | right; left; reflexivity | right; right; left; reflexivity
          | right; right; right; eexists; split; [| reflexivity]; cbn [In]; auto 10 ].
Qed.

(** [protectedRoute] refuses with 401 or with 500. *)
Lemma refusal_codes a accessToken code message error :
  Auth.protectedRoute a accessToken = Auth.Refuse code message error ->
  code = 401 \/ code = 500.
Proof.
  unfold Auth.protectedRoute.
  destruct accessToken as [[| c token] |]; try (intros [= <- _ _]; by left).
  destruct (Auth.jwt_verify a (String c token)) as [userId | err].
  - destruct (Auth.User_findById a userId) as [[user |] | err].
    + discriminate.
    + intros [= <- _ _]. by left.
    + destruct (String.eqb (Auth.name err) "TokenExpiredError");
        intros [= <- _ _]; [by left | by right].
  - destruct (String.eqb (Auth.name err) "TokenExpiredError");
      intros [= <- _ _]; [by left | by right].
Qed.

(** C1 (as amended): when the cache answers [get tx:<hash>] with a record,
    the controller replies 400 [{error: "Transaction already processed"}],
    an error response, after that single read: the cache, the orders and the
    module state are as before.  Through the route the request creates no
    order either, and its answer is one of: a refusal of
    [protectedRoute], with 401 or 500; a 400 of the middleware (["Invalid amount"],
    ["Invalid wallet address format"], ["Invalid transaction hash format"]);
    the middleware's 429 for a hash in flight or for an exhausted rate limit;
    or that 400, which is the answer whenever [protectedRoute] and the
    middleware let the request through. *)
Theorem already_processed_is_answered_400 e a accessToken s req h :
  present req = true -> transactionHash req = Some h ->
  cached e s ("tx:" +:+ h) = true ->
  run e (verifyCryptoPayment req) s
    = (Reply 400 (err "Transaction already processed"),
       log (EvGet ("tx:" +:+ h) (Client.get e (store s) ("tx:" +:+ h))) s)
  /\ orders (snd (verify_crypto_payment e a accessToken req s)) = orders s
  /\ ((exists code message error,
         fst (verify_crypto_payment e a accessToken req s)
         = Unauthenticated code message error
         /\ (code = 401 \/ code = 500))
      \/ (exists msg,
            In msg ["Invalid amount"; "Invalid wallet address format";
                    "Invalid transaction hash format";
                    "Transaction already processed"]
            /\ fst (verify_crypto_payment e a accessToken req s)
               = Handled (Reply 400 (err msg)))
      \/ fst (verify_crypto_payment e a accessToken req s)
         = Handled already_being_processed
      \/ fst (verify_crypto_payment e a accessToken req s)
         = Handled too_many_requests)
  /\ (forall u,
        Auth.protectedRoute a accessToken = Auth.Proceed u ->
        fst (run e (validateCryptoPayment (as_user u req)) s) = Next ->
        fst (verify_crypto_payment e a accessToken req s)
        = Handled (Reply 400 (err "Transaction already processed"))).
Proof.
  change ("tx:" +:+ h) with (tx h).
  intros Hp Hh Hc. split; [by apply verify_replay |].
  unfold verify_crypto_payment.
  destruct (Auth.protectedRoute a accessToken) as [u | code message error] eqn:Hauth.
  2: { cbn [fst snd]. split; [reflexivity |]. split; [| intros u [=]].
       left. exists code, message, error. split; [reflexivity |].
       exact (refusal_codes _ _ _ _ _ Hauth). }
  assert (Hp' : present (as_user u req) = true) by exact Hp.
  assert (Hh' : transactionHash (as_user u req) = Some h) by exact Hh.
  pose proof (validate_frame e s (as_user u req)) as (Ho & _ & Hs).
  pose proof (validate_answers e s (as_user u req) Hp') as Hr.
  destruct (run e (validateCryptoPayment (as_user u req)) s) as [r s1] eqn:Hrun;
    cbn [fst snd] in *.
  assert (Hc1 : cached e s1 (tx h) = true).
  { rewrite (cached_ext e s s1); [done |].
    apply Hs; intros x; [apply tx_not_processing | apply tx_not_wallet]. }
  assert (Hstop : forall u0 : Auth.User,
             Auth.Proceed u = Auth.Proceed u0 ->
             fst (run e (validateCryptoPayment (as_user u0 req)) s) = Next ->
             r <> Next -> False).
  { intros u0 [= <-] H Hne. rewrite Hrun in H. exact (Hne H). }
  unfold already_being_processed, too_many_requests in *.
  destruct Hr as [-> | [-> | [-> | (msg & Hmsg & ->)]]].
  - rewrite (verify_replay e s1 (as_user u req) h Hp' Hh' Hc1). cbn [fst snd orders log].
    split; [exact Ho |]. split; [| reflexivity].
    right; left. eexists. split; [| reflexivity]. cbn [In]. auto 10.
  - cbn [fst snd]. split; [exact Ho |].
    split; [tauto | intros u0 H1 H2; destruct (Hstop u0 H1 H2); discriminate].
  - cbn [fst snd]. split; [exact Ho |].
    split; [tauto | intros u0 H1 H2; destruct (Hstop u0 H1 H2); discriminate].
  - cbn [fst snd]. split; [exact Ho |].
    split; [| intros u0 H1 H2; destruct (Hstop u0 H1 H2); discriminate].
    right; left. exists msg. split; [| reflexivity]. cbn [In] in Hmsg |- *. tauto.
Qed.

Lemma already_processed_is_answered_400_witness :
  run (Sample.env Ioredis true 2000) (verifyCryptoPayment Sample.request) recorded
    = (Reply 400 (err "Transaction already processed"),
       log (EvGet ("tx:" +:+ Sample.hash)
              (Client.get (Sample.env Ioredis true 2000) (store recorded)
                          ("tx:" +:+ Sample.hash)))
           recorded)
  /\ orders (snd (verify_crypto_payment (Sample.env Ioredis true 2000) signed_in
                    (Some "token") Sample.request recorded))
     = orders recorded
  /\ ((exists code message error,
         fst (verify_crypto_payment (Sample.env Ioredis true 2000) signed_in
                (Some "token") Sample.request recorded)
         = Unauthenticated code message error
         /\ (code = 401 \/ code = 500))
      \/ (exists msg,
            In msg ["Invalid amount"; "Invalid wallet address format";
                    "Invalid transaction hash format";
                    "Transaction already processed"]
            /\ fst (verify_crypto_payment (Sample.env Ioredis true 2000) signed_in
                      (Some "token") Sample.request recorded)
               = Handled (Reply 400 (err msg)))
      \/ fst (verify_crypto_payment (Sample.env Ioredis true 2000) signed_in
                (Some "token") Sample.request recorded)
         = Handled already_being_processed
      \/ fst (verify_crypto_payment (Sample.env Ioredis true 2000) signed_in
                (Some "token") Sample.request recorded)
         = Handled too_many_requests)
  /\ (forall u,
        Auth.protectedRoute signed_in (Some "token") = Auth.Proceed u ->
        fst (run (Sample.env Ioredis true 2000)
                 (validateCryptoPayment (as_user u Sample.request)) recorded) = Next ->
        fst (verify_crypto_payment (Sample.env Ioredis true 2000) signed_in
               (Some "token") Sample.request recorded)
        = Handled (Reply 400 (err "Transaction already processed"))).
Proof.
  apply (already_processed_is_answered_400 _ _ _ _ _ Sample.hash);
    vm_compute; reflexivity.
Defined.

(** C1 (as stated) fails: the cache holds the processed record of the sample
    hash; the sample request, sent by a signed-in user, is answered with
    status 400 and an [error] body by the controller, and so through the
    route, not with a success. *)
Lemma replay_is_an_error_response :
  cached (Sample.env Ioredis true 2000) recorded ("tx:" +:+ Sample.hash) = true
  /\ fst (run (Sample.env Ioredis true 2000) (verifyCryptoPayment Sample.request)
              recorded)
     = Reply 400 (JError (mkError "Transaction already processed" None None None))
  /\ fst (verify_crypto_payment (Sample.env Ioredis true 2000) signed_in
            (Some "token") Sample.request recorded)
     = Handled (Reply 400 (JError (mkError "Transaction already processed"
                                           None None None))).
Proof. vm_compute. repeat split; reflexivity. Qed.

(** ** A transaction without recipient *)

(** C10: when the transaction fetched for the request has [to = null], the
    [toLowerCase] call on it throws inside the inner [try]: the controller
    answers 500 [{error: "Error verifying blockchain transaction",
    retryable: true}] (not the 400 of a wrong recipient), no order is saved
    or even attempted, and the order collection is unchanged. *)
Theorem null_recipient_is_a_retryable_500 e s req h :
  In (EvTransaction h (Resolved (Some (mkTransaction None))))
     (emitted e (verifyCryptoPayment req) s) ->
  fst (run e (verifyCryptoPayment req) s)
    = Reply 500 (JError (mkError "Error verifying blockchain transaction"
                                 None (Some true) (Some null_toLowerCase)))
  /\ orders (snd (run e (verifyCryptoPayment req) s)) = orders s
  /\ forall o r, ~ In (EvSave o r) (emitted e (verifyCryptoPayment req) s).
Proof.
  destruct s as [st pp t b os ids j].
  unfold emitted, verifyCryptoPayment.
  run_all; journal_norm; cbn [fst snd orders]; intros H;
    try (exfalso; not_in H).
  all: split; [reflexivity | split; [reflexivity | intros ? ? H'; not_in H']].
Qed.

Lemma null_recipient_is_a_retryable_500_witness :
  fst (run Sample.creation_env (verifyCryptoPayment Sample.request) initial)
    = Reply 500 (JError (mkError "Error verifying blockchain transaction"
                                 None (Some true) (Some null_toLowerCase)))
  /\ orders (snd (run Sample.creation_env (verifyCryptoPayment Sample.request) initial))
     = orders initial
  /\ forall o r,
       ~ In (EvSave o r)
            (emitted Sample.creation_env (verifyCryptoPayment Sample.request) initial).
Proof.
  apply (null_recipient_is_a_retryable_500 _ _ _ Sample.hash).
  vm_compute. do 6 right. left. reflexivity.
Defined.

(** ** The processed record *)

(** The controller changes neither the cache nor the order collection, and
    it never answers with the success response. *)
Lemma verify_changes_nothing e s req :
  store (snd (run e (verifyCryptoPayment req) s)) = store s
  /\ orders (snd (run e (verifyCryptoPayment req) s)) = orders s
  /\ (forall order,
        fst (run e (verifyCryptoPayment req) s) <> Reply 200 (JSuccess order))
  /\ (forall key val EX r,
        ~ In (EvSet key val EX r) (emitted e (verifyCryptoPayment req) s)).
Proof.
  destruct s as [st pp t b os ids j].
  unfold emitted, verifyCryptoPayment.
  run_all; journal_norm; cbn [fst snd store orders];
    (split; [reflexivity |]); (split; [reflexivity |]);
    (split; [discriminate | intros ? ? ? ? H; not_in H]).
Qed.

(** C7 (code bug): the success of lines 302-317 is never reached.  Every
    order the controller hands to [order.save()] is rejected by the
    validators of the order schema (its [status], ["completed"], is outside
    the enum, and it has no [totalAmount]), the rejection lands in the inner
    [catch], and so no run of the controller answers 200, writes the
    processed record (or any key of the cache), or adds an order.  The sample
    request, whose payment settled on the ledger, gets as far as
    [order.save()] and is answered 500
    [{error: "Error verifying blockchain transaction", retryable: true}]; the
    cache holds nothing under [tx:<hash>] afterwards. *)
Theorem processed_record_is_never_written :
  (forall e s req,
     (forall order,
        fst (run e (verifyCryptoPayment req) s) <> Reply 200 (JSuccess order))
     /\ (forall key val EX r,
           ~ In (EvSet key val EX r) (emitted e (verifyCryptoPayment req) s))
     /\ store (snd (run e (verifyCryptoPayment req) s)) = store s
     /\ orders (snd (run e (verifyCryptoPayment req) s)) = orders s
     /\ (forall o r,
           In (EvSave o r) (emitted e (verifyCryptoPayment req) s) ->
           order_status o = "completed"
           /\ OrderSchema.allows OrderSchema.status_enum (order_status o) = false
           /\ order_totalAmount o = None
           /\ In "status" (OrderSchema.invalid_paths o)
           /\ In "totalAmount" (OrderSchema.invalid_paths o)
           /\ exists message, r = Rejected message))
  /\ (exists message,
        In (EvSave (sample_order None) (Rejected message))
           (emitted (Sample.env Ioredis true 1000)
                    (verifyCryptoPayment Sample.request) initial))
  /\ (exists details,
        fst (run (Sample.env Ioredis true 1000) (verifyCryptoPayment Sample.request)
                 initial)
        = Reply 500 (JError (mkError "Error verifying blockchain transaction"
                                     None (Some true) (Some details))))
  /\ store (snd (run (Sample.env Ioredis true 1000)
                     (verifyCryptoPayment Sample.request) initial))
       !! ("tx:" +:+ Sample.hash) = None.
Proof.
  split; [| split; [| split]].
  - intros e s req.
    destruct (verify_changes_nothing e s req) as (Hs & Ho & Hr & Hw).
    repeat (split; [assumption |]).
    destruct s as [st pp t b os ids j]. intros o r.
    unfold emitted, verifyCryptoPayment.
    run_all; journal_norm; intros H; try (exfalso; not_in H).
    all: cbn [In] in H;
      repeat (destruct H as [H | H]; [try discriminate H |]); try (destruct H; fail).
    all: inversion H; subst o r; cbn [order_status order_totalAmount].
    all: split; [reflexivity |]; split; [reflexivity |]; split; [reflexivity |];
      split; [by apply completed_is_invalid |];
      split; [by apply totalAmount_is_required | eexists; reflexivity].
  - eexists. vm_compute. do 7 right. left. reflexivity.
  - eexists. vm_compute. reflexivity.
  - vm_compute. reflexivity.
Qed.

(** ** Orders are created after the ledger checks *)

(** Whenever the controller gets as far as [order.save()], the journal of the
    run shows, before it: the receipt of the request's transaction with a
    successful status, the contract's answer [true] for the request's payment
    id, asked of the address the artifact gives for the node's network, and
    the transaction with a recipient equal to that address up to letter
    case. *)
Lemma save_only_after_checks e s req o r :
  In (EvSave o r) (emitted e (verifyCryptoPayment req) s) ->
  exists h pid n address to before after,
    transactionHash req = Some h /\ paymentId req = Some pid
    /\ order_transactionHash o = h
    /\ emitted e (verifyCryptoPayment req) s = (before ++ EvSave o r :: after)%list
    /\ In (EvReceipt h (Resolved (Some (mkReceipt true)))) before
    /\ In (EvNetId (Resolved n)) before
    /\ deployedNetwork (PaymentProcessor (snd (run e (verifyCryptoPayment req) s))) n
       = Resolved (Some address)
    /\ In (EvPaymentStatus address pid (Resolved true)) before
    /\ In (EvTransaction h (Resolved (Some (mkTransaction (Some to))))) before
    /\ toLowerCase to = toLowerCase address.
Proof.
  destruct s as [st pp t b os ids j].
  unfold emitted, verifyCryptoPayment.
  run_all; journal_norm; cbn [fst snd PaymentProcessor]; intros H;
    try (exfalso; not_in H).
  all: cbn [In] in H;
    repeat (destruct H as [H | H]; [try discriminate H |]); try (destruct H; fail).
  all: inversion H; subst o r; clear H.
  all: match goal with
    | Hn : deployedNetwork _ ?n = Resolved (Some ?address),
      Ht : eth_getTransaction _ ?h = Resolved (Some {| transaction_to := Some ?to |}),
      Heq : negb (String.eqb (toLowerCase ?to) (toLowerCase ?address)) = false
      |- context [EvPaymentStatus ?address ?pid (Resolved ?st)] =>
        exists h, pid, n, address, to;
        eexists [_; _; _; _; _; _; _]; eexists;
        destruct st; [| discriminate];
        repeat split; try reflexivity; try assumption;
        [ cbn; tauto | cbn; tauto | cbn; tauto | cbn; tauto
        | apply negb_false_iff, String.eqb_eq in Heq; exact Heq ]
    end.
Qed.

(** ** No call adds an order *)

Lemma route_changes_no_order e a accessToken body s :
  orders (snd (verify_crypto_payment e a accessToken body s)) = orders s.
Proof.
  unfold verify_crypto_payment.
  destruct (Auth.protectedRoute a accessToken) as [u | code message error];
    [| reflexivity].
  pose proof (validate_frame e s (as_user u body)) as (Ho & _ & _).
  destruct (run e (validateCryptoPayment (as_user u body)) s) as [r s1];
    cbn [fst snd] in *.
  destruct r as [| code body']; [| exact Ho].
  destruct (verify_changes_nothing e s1 (as_user u body)) as (_ & Ho1 & _).
  destruct (run e (verifyCryptoPayment (as_user u body)) s1) as [r' s2];
    cbn [fst snd] in *.
  congruence.
Qed.

Lemma settled_changes_no_order e ev s :
  orders (snd (run e (onPaymentProcessed ev) s)) = orders s.
Proof.
  destruct s as [st pp t b os ids j]. unfold onPaymentProcessed.
  run_all; reflexivity.
Qed.

Lemma handle_changes_no_order e c s : orders (handle e c s) = orders s.
Proof.
  destruct c as [req | req | a accessToken body | ev]; cbn [handle].
  - apply validate_frame.
  - apply verify_changes_nothing.
  - apply route_changes_no_order.
  - apply settled_changes_no_order.
Qed.

Lemma serve_changes_no_order calls : forall s, orders (serve calls s) = orders s.
Proof.
  induction calls as [| [e c] calls IH]; intros s; cbn [serve]; [reflexivity |].
  rewrite IH. apply handle_changes_no_order.
Qed.

(** C3: (1) in every run of the controller, [order.save()] is reached only
    after the receipt was fetched with a successful status, the contract
    deployed at the artifact's address for the node's network answered
    [true] for the payment id, and the transaction was fetched with a
    recipient equal to that address up to letter case; (2) no call creates
    a second order: whatever the cache holds, a processed record or none, no
    invocation of the middleware, the controller, the route or the event
    subscriber, nor any sequence of them, adds an order to the collection
    (the [save()] the controller reaches is rejected by the order schema). *)
Theorem order_only_after_checks_and_never_a_second :
  (forall e s req o r,
     In (EvSave o r) (emitted e (verifyCryptoPayment req) s) ->
     exists h pid n address to before after,
       transactionHash req = Some h /\ paymentId req = Some pid
       /\ order_transactionHash o = h
       /\ emitted e (verifyCryptoPayment req) s = (before ++ EvSave o r :: after)%list
       /\ In (EvReceipt h (Resolved (Some (mkReceipt true)))) before
       /\ In (EvNetId (Resolved n)) before
       /\ deployedNetwork (PaymentProcessor (snd (run e (verifyCryptoPayment req) s))) n
          = Resolved (Some address)
       /\ In (EvPaymentStatus address pid (Resolved true)) before
       /\ In (EvTransaction h (Resolved (Some (mkTransaction (Some to))))) before
       /\ toLowerCase to = toLowerCase address)
  /\ (forall e s req,
        orders (snd (run e (verifyCryptoPayment req) s)) = orders s)
  /\ (forall e a accessToken body s,
        orders (snd (verify_crypto_payment e a accessToken body s)) = orders s)
  /\ (forall calls s, orders (serve calls s) = orders s).
Proof.
  split; [apply save_only_after_checks |].
  split; [intros; apply verify_changes_nothing |].
  split; [intros; apply route_changes_no_order |].
  intros; apply serve_changes_no_order.
Qed.

(** The sample request, in a process that holds the processed record of its
    hash or in a fresh one, sent through the route and to the controller. *)
Lemma order_only_after_checks_and_never_a_second_witness :
  (exists h pid n address to before after message,
     transactionHash Sample.request = Some h /\ paymentId Sample.request = Some pid
     /\ order_transactionHash (sample_order None) = h
     /\ emitted (Sample.env Ioredis true 1000) (verifyCryptoPayment Sample.request) initial
        = (before ++ EvSave (sample_order None) (Rejected message) :: after)%list
     /\ In (EvReceipt h (Resolved (Some (mkReceipt true)))) before
     /\ In (EvNetId (Resolved n)) before
     /\ In (EvPaymentStatus address pid (Resolved true)) before
     /\ In (EvTransaction h (Resolved (Some (mkTransaction (Some to))))) before
     /\ toLowerCase to = toLowerCase address)
  /\ orders (serve replays recorded) = orders recorded
  /\ orders (serve replays initial) = orders initial.
Proof.
  destruct order_only_after_checks_and_never_a_second as (A & _ & _ & B).
  split; [| split; apply B].
  destruct (A (Sample.env Ioredis true 1000) initial Sample.request
              (sample_order None)
              (Rejected (OrderSchema.ValidationError
                           (OrderSchema.invalid_paths (sample_order None)))))
    as (h & pid & n & address & to & before & after & H);
    [vm_compute; do 7 right; left; reflexivity |].
  exists h, pid, n, address, to, before, after. eexists.
  repeat split; try apply H.
Defined.

(** ** The middleware after structural validation *)

Lemma validate_structurally_valid e s req :
  structurally_valid e req = true ->
  exists h w,
    transactionHash req = Some h /\ walletAddress req = Some w
    /\ run e (validateCryptoPayment req) s = run e (dedup_and_rate_limit h w) s.
Proof.
  unfold structurally_valid. intros H.
  apply andb_true_iff in H as [H Hh]. apply andb_true_iff in H as [H Hw].
  apply andb_true_iff in H as [Hp Ha].
  destruct (present_fields req Hp)
    as (item & items & p & w & h & E1 & E2 & T2 & E3 & T3 & E4 & T4).
  exists h, w. split; [done |]. split; [done |].
  unfold validateCryptoPayment. rewrite E1, E2, E3, E4, T2 in *.
  destruct w as [|wc ws]; [discriminate |].
  destruct h as [|hc hs]; [discriminate |].
  apply negb_true_iff in Ha.
  cbn [negb run exec]. rewrite Ha. cbn [negb run exec]. rewrite Hw, Hh. reflexivity.
Qed.

Lemma incr_missing e st k :
  redis e <> Ioredis ->
  Client.incr e st k = Rejected "redis.incr is not a function".
Proof. unfold Client.incr. by destruct (redis e). Qed.

(** ** The REST client and the rate limit *)

Lemma rest_never_rejects e s req :
  redis e = UpstashRedisRestClient ->
  fst (run e (validateCryptoPayment req) s) <> too_many_requests.
Proof.
  intros Hrest.
  assert (Hincr : forall st k,
             Client.incr e st k = Rejected "redis.incr is not a function")
    by (intros; apply incr_missing; congruence).
  destruct s as [st pp t b os ids j]. unfold validateCryptoPayment.
  run_all; cbn [fst]; try discriminate;
    match goal with
    | H : Client.incr _ _ _ = Resolved _ |- _ => rewrite Hincr in H; discriminate H
    end.
Qed.

Lemma rest_sequence_never_rejects calls : forall s,
  Forall (fun rq => redis (fst rq) = UpstashRedisRestClient) calls ->
  Forall (fun r => r <> too_many_requests) (validations calls s).
Proof.
  induction calls as [| [e req] calls IH]; intros s Hall; cbn [validations].
  - constructor.
  - apply Forall_cons in Hall as [Hrest Hall]. cbn [fst] in Hrest.
    pose proof (rest_never_rejects e s req Hrest) as Hne.
    destruct (run e (validateCryptoPayment req) s) as [r s']. cbn [fst] in Hne.
    constructor; [exact Hne | by apply IH].
Qed.

(** C9: with the Upstash REST client configured ([redis e] is that client),
    from any state and for any request the middleware never answers with the
    rate-limit rejection; [redis.incr] is not a function of that client, the
    call throws, the [catch] swallows it and [expire] is never reached; a
    structurally valid request whose hash is not locked is passed on with
    [next()], whatever the cache holds under the wallet's counter key; and in
    any sequence of requests served through that client, none is answered
    with the rate-limit rejection. *)
Theorem rest_client_never_rate_limits e s req :
  redis e = UpstashRedisRestClient ->
  fst (run e (validateCryptoPayment req) s) <> too_many_requests
  /\ (forall k r, In (EvIncr k r) (emitted e (validateCryptoPayment req) s) ->
        r = Rejected "redis.incr is not a function")
  /\ (forall k secs r,
        ~ In (EvExpire k secs r) (emitted e (validateCryptoPayment req) s))
  /\ (forall h, structurally_valid e req = true ->
        transactionHash req = Some h ->
        cached e s (tx_processing h) = false ->
        fst (run e (validateCryptoPayment req) s) = Next)
  /\ (forall calls s',
        Forall (fun rq => redis (fst rq) = redis e) calls ->
        Forall (fun r => r <> too_many_requests) (validations calls s')).
Proof.
  intros Hrest.
  assert (Hincr : forall st k,
             Client.incr e st k = Rejected "redis.incr is not a function")
    by (intros; apply incr_missing; congruence).
  split; [| split; [| split; [| split]]].
  - by apply rest_never_rejects.
  - intros k r. destruct s as [st pp t b os ids j].
    unfold emitted, validateCryptoPayment.
    run_all; journal_norm; intros H; try (exfalso; not_in H);
      try match goal with
      | H : Client.incr _ _ _ = Resolved _ |- _ => rewrite Hincr in H; discriminate H
      end.
    cbn [In] in H. repeat (destruct H as [H | H]; [try discriminate H |]);
      [| destruct H].
    match goal with
    | Hi : Client.incr _ _ _ = Rejected _ |- _ => rewrite Hincr in Hi
    end. congruence.
  - intros k secs r. destruct s as [st pp t b os ids j].
    unfold emitted, validateCryptoPayment.
    run_all; journal_norm; intros H; try (not_in H);
      match goal with
      | H : Client.incr _ _ _ = Resolved _ |- _ => rewrite Hincr in H; discriminate H
      end.
  - intros h Hv Hh Hc.
    destruct (validate_structurally_valid e s req Hv) as (h' & w & Hh' & Hw & ->).
    assert (h' = h) by congruence; subst h'.
    destruct s as [st pp t b os ids j]. unfold cached in Hc; cbn [store] in Hc.
    run_all; cbn [fst]; try reflexivity; try discriminate Hc;
      try match goal with
      | H : Client.incr _ _ _ = Resolved _ |- _ => rewrite Hincr in H; discriminate H
      end.
  - intros calls s' Hall. apply rest_sequence_never_rejects.
    eapply Forall_impl; [exact Hall |]. intros rq Hrq. congruence.
Qed.

Lemma rest_client_never_rate_limits_witness :
  fst (run (Sample.env UpstashRedisRestClient true 1000)
           (validateCryptoPayment Sample.request) initial) <> too_many_requests
  /\ (forall k r,
        In (EvIncr k r)
           (emitted (Sample.env UpstashRedisRestClient true 1000)
                    (validateCryptoPayment Sample.request) initial) ->
        r = Rejected "redis.incr is not a function")
  /\ (forall k secs r,
        ~ In (EvExpire k secs r)
             (emitted (Sample.env UpstashRedisRestClient true 1000)
                      (validateCryptoPayment Sample.request) initial))
  /\ (forall h,
        structurally_valid (Sample.env UpstashRedisRestClient true 1000)
                           Sample.request = true ->
        transactionHash Sample.request = Some h ->
        cached (Sample.env UpstashRedisRestClient true 1000) initial
               (tx_processing h) = false ->
        fst (run (Sample.env UpstashRedisRestClient true 1000)
                 (validateCryptoPayment Sample.request) initial) = Next)
  /\ (forall calls s',
        Forall (fun rq => redis (fst rq)
                          = redis (Sample.env UpstashRedisRestClient true 1000)) calls ->
        Forall (fun r => r <> too_many_requests) (validations calls s')).
Proof.
  apply (rest_client_never_rate_limits
           (Sample.env UpstashRedisRestClient true 1000) initial Sample.request).
  reflexivity.
Defined.

Lemma parse_toString z : parse_int (toString z) = Some z.
Proof.
  unfold parse_int, toString.
  rewrite NilZero.isi.
  - by rewrite DecimalZ.of_to.
  - destruct z as [|p|p]; cbn; try discriminate.
    intros [= H]. by apply DecimalPos.Unsigned.to_uint_nonnil in H.
  - destruct z as [|p|p]; cbn; try discriminate.
    intros [= H]. by apply DecimalPos.Unsigned.to_uint_nonnil in H.
Qed.

Lemma toString_truthy z : truthy (Some (toString z)) = true.
Proof.
  unfold toString.
  destruct (Z.to_int z) as [d|d]; cbn; [| reflexivity].
  unfold NilZero.string_of_uint. destruct d; reflexivity.
Qed.

(** ** The rate limit under ioredis *)

Section Ioredis.
Variable e : Env.
Hypothesis client : redis e = Ioredis.
Hypothesis reachable : redis_reachable e = true.

Lemma get_ioredis st k : Client.get e st k = Resolved (Server.GET (now e) st k).
Proof. unfold Client.get. by rewrite client, reachable. Qed.

Lemma set_ioredis st k v ex :
  0 < ex ->
  Client.set e st k v ex = Resolved (<[k := Entry v (Some (now e + 1000 * ex))]> st).
Proof.
  intros H. unfold Client.set, Server.SETEX. rewrite client, reachable.
  destruct (Z.leb_spec ex 0); [lia | reflexivity].
Qed.

Lemma incr_first st k :
  Server.lookup (now e) st k = None ->
  Client.incr e st k = Resolved (1, <[k := Entry (toString 1) None]> st).
Proof.
  intros H. unfold Client.incr, Server.INCR. by rewrite client, reachable, H.
Qed.

Lemma incr_next st k n T :
  st !! k = Some (Entry (toString n) (Some T)) -> now e <= T ->
  n < 9223372036854775807 ->
  Client.incr e st k
  = Resolved (n + 1, <[k := Entry (toString (n + 1)) (Some T)]> st).
Proof.
  intros H HT Hn. unfold Client.incr, Server.INCR, Server.lookup, live.
  rewrite client, reachable, H. cbn [expireAt value].
  destruct (Z.leb_spec (now e) T); [| lia]. cbn [expireAt value].
  rewrite parse_toString.
  destruct (Z.ltb_spec n 9223372036854775807); [reflexivity | lia].
Qed.

Lemma expire_ioredis st k v secs :
  st !! k = Some (Entry v None) ->
  Client.expire e st k secs
  = Resolved (<[k := Entry v (Some (now e + 1000 * secs))]> st).
Proof.
  intros H. unfold Client.expire, Server.EXPIRE, Server.lookup, live.
  by rewrite client, reachable, H.
Qed.

(** The first request of a window: the counter is created with value 1 and
    a 60 s expiry, and the request passes. *)
Lemma first_of_window s h w :
  store s !! tx_processing h = None ->
  Server.lookup (now e) (store s) (wallet_requests w) = None ->
  let out := run e (dedup_and_rate_limit h w) s in
  fst out = Next
  /\ store (snd out) !! wallet_requests w
     = Some (Entry (toString 1) (Some (now e + 60000)))
  /\ forall k, k <> wallet_requests w -> k <> tx_processing h ->
       store (snd out) !! k = store s !! k.
Proof.
  destruct s as [st pp t b os ids j]. cbn [store]. intros Hlock Hcount.
  cbn [dedup_and_rate_limit run exec store log].
  rewrite get_ioredis. unfold Server.GET, Server.lookup. rewrite Hlock.
  cbn [fmap option_fmap option_map truthy run exec store log].
  rewrite set_ioredis by lia. cbn [run exec store log with_store].
  rewrite incr_first.
  2:{ unfold Server.lookup. rewrite lookup_insert_ne
        by (apply not_eq_sym, processing_not_wallet). exact Hcount. }
  cbn [run exec store log with_store]. rewrite Z.eqb_refl.
  cbn [run exec store log with_store].
  rewrite (expire_ioredis _ _ (toString 1)) by apply lookup_insert_eq.
  cbn [run exec store log with_store fst snd].
  replace (10 <? 1) with false by reflexivity.
  cbn [run fst snd store log with_store].
  split; [reflexivity |]. split.
  - rewrite lookup_insert_eq. do 2 f_equal.
  - intros k Hk1 Hk2. by rewrite !lookup_insert_ne.
Qed.

(** A later request of the window: the counter goes from [n] to [n + 1],
    keeps its expiry, and the request passes exactly when [n + 1] is at
    most 10. *)
Lemma later_in_window s h w n T :
  store s !! tx_processing h = None ->
  store s !! wallet_requests w = Some (Entry (toString n) (Some T)) ->
  now e <= T -> 1 <= n < 9223372036854775807 ->
  let out := run e (dedup_and_rate_limit h w) s in
  fst out = (if 10 <? n + 1 then too_many_requests else Next)
  /\ store (snd out) !! wallet_requests w
     = Some (Entry (toString (n + 1)) (Some T))
  /\ forall k, k <> wallet_requests w -> k <> tx_processing h ->
       store (snd out) !! k = store s !! k.
Proof.
  destruct s as [st pp t b os ids j]. cbn [store]. intros Hlock Hcount HT Hn.
  cbn [dedup_and_rate_limit run exec store log].
  rewrite get_ioredis. unfold Server.GET, Server.lookup. rewrite Hlock.
  cbn [fmap option_fmap option_map truthy run exec store log].
  rewrite set_ioredis by lia. cbn [run exec store log with_store].
  rewrite (incr_next _ _ n T); [| | exact HT | lia].
  2:{ rewrite lookup_insert_ne by (apply not_eq_sym, processing_not_wallet).
      exact Hcount. }
  cbn [run exec store log with_store].
  destruct (Z.eqb_spec (n + 1) 1) as [Heq | _]; [lia |].
  destruct (10 <? n + 1); cbn [run fst snd store log with_store].
  all: split; [reflexivity |]; split;
    [ by rewrite lookup_insert_eq
    | intros k Hk1 Hk2; by rewrite !lookup_insert_ne ].
Qed.
End Ioredis.

Lemma window_rest w T calls : forall n s,
  1 <= n -> n + Z.of_nat (length calls) < 9223372036854775807 ->
  Forall (in_window w T) calls ->
  NoDup (map (fun rq => hash_of (snd rq)) calls) ->
  Forall (fun rq => store s !! tx_processing (hash_of (snd rq)) = None) calls ->
  store s !! wallet_requests w = Some (Entry (toString n) (Some T)) ->
  validations calls s = expected n (length calls).
Proof.
  induction calls as [| [e req] calls IH]; intros n s Hn Hlen Hwin Hnd Hfree Hcount.
  - reflexivity.
  - cbn [length] in Hlen. rewrite Nat2Z.inj_succ in Hlen.
    apply Forall_cons in Hwin as [(Hc & Hr & HT & Hv & Hw) Hwin].
    apply Forall_cons in Hfree as [Hfree1 Hfree].
    cbn [map] in Hnd. apply NoDup_cons in Hnd as [Hnotin Hnd].
    cbn [fst snd] in *.
    destruct (validate_structurally_valid e s req Hv) as (h & w' & Hh & Hw' & Hrun).
    assert (w' = w) by congruence; subst w'.
    assert (Hhash : hash_of req = h) by (unfold hash_of; by rewrite Hh).
    rewrite Hhash in *.
    destruct (later_in_window e Hc Hr s h w n T Hfree1 Hcount HT ltac:(lia))
      as (Hans & Hcount' & Hframe).
    cbn [validations length expected]. rewrite Hrun.
    destruct (run e (dedup_and_rate_limit h w) s) as [r s']; cbn [fst snd] in *.
    rewrite Hans. f_equal.
    apply IH; try done; try lia.
    apply Forall_forall. intros rq Hin.
    rewrite Forall_forall in Hfree. rewrite Hframe.
    + by apply Hfree.
    + apply not_eq_sym, processing_not_wallet.
    + intros Heq. apply tx_processing_inj in Heq. apply Hnotin.
      rewrite <- Heq. apply list_elem_of_fmap. by exists rq.
Qed.

(** X3: the rate limit counts requests: of the requests one wallet sends
    through the ioredis client, starting with no live counter, within the
    60 s that follow the first of them, each to a hash of its own that is not
    locked, the first ten are passed on with [next()] and every later one is
    answered 429 [{error: "Too many payment verification requests",
    retryAfter: 60}]. *)
Lemma rate_limit_window w e0 req0 calls s :
  in_window w (now e0 + 60000) (e0, req0) ->
  Forall (in_window w (now e0 + 60000)) calls ->
  Z.of_nat (length calls) < 9223372036854775806 ->
  NoDup (map (fun rq => hash_of (snd rq)) ((e0, req0) :: calls)) ->
  Forall (fun rq => store s !! tx_processing (hash_of (snd rq)) = None)
         ((e0, req0) :: calls) ->
  Server.lookup (now e0) (store s) (wallet_requests w) = None ->
  validations ((e0, req0) :: calls) s = Next :: expected 1 (length calls).
Proof.
  intros (Hc & Hr & _ & Hv & Hw) Hwin Hlen Hnd Hfree Hcount.
  apply Forall_cons in Hfree as [Hfree1 Hfree].
  cbn [map] in Hnd. apply NoDup_cons in Hnd as [Hnotin Hnd].
  cbn [fst snd] in *.
  destruct (validate_structurally_valid e0 s req0 Hv) as (h & w' & Hh & Hw' & Hrun).
  assert (w' = w) by congruence; subst w'.
  assert (Hhash : hash_of req0 = h) by (unfold hash_of; by rewrite Hh).
  rewrite Hhash in *.
  destruct (first_of_window e0 Hc Hr s h w Hfree1 Hcount) as (Hans & Hcount' & Hframe).
  cbn [validations]. rewrite Hrun.
  destruct (run e0 (dedup_and_rate_limit h w) s) as [r s']; cbn [fst snd] in *.
  rewrite Hans. f_equal.
  apply (window_rest w (now e0 + 60000)); try done; try lia.
  apply Forall_forall. intros rq Hin.
  rewrite Forall_forall in Hfree. rewrite Hframe.
  - by apply Hfree.
  - apply not_eq_sym, processing_not_wallet.
  - intros Heq. apply tx_processing_inj in Heq. apply Hnotin.
    rewrite <- Heq. apply list_elem_of_fmap. by exists rq.
Qed.

Lemma incr_inv e st k n st' :
  Client.incr e st k = Resolved (n, st') ->
  redis e = Ioredis /\ redis_reachable e = true
  /\ exists exp, st' = <[k := Entry (toString n) exp]> st
                 /\ live (now e) (Entry (toString n) exp) = true.
Proof.
  unfold Client.incr, Client.not_a_function, Client.unreachable, Server.INCR,
    Server.lookup.
  destruct (redis e); try discriminate.
  destruct (redis_reachable e); [| discriminate].
  intros H. split; [done |]. split; [done |].
  destruct (st !! k) as [ent |] eqn:Hk.
  - destruct (live (now e) ent) eqn:Hlive.
    + destruct (parse_int (value ent)) as [m |]; [| discriminate].
      destruct (m <? 9223372036854775807); inversion H; subst.
      exists (expireAt ent). split; [done |]. exact Hlive.
    + inversion H; subst. exists None. done.
  - inversion H; subst. exists None. done.
Qed.

Lemma expire_inv e st k secs st' ent :
  Client.expire e st k secs = Resolved st' ->
  st !! k = Some ent -> live (now e) ent = true ->
  st' = <[k := Entry (value ent) (Some (now e + 1000 * secs))]> st.
Proof.
  unfold Client.expire, Client.not_a_function, Client.unreachable, Server.EXPIRE,
    Server.lookup.
  destruct (redis e); try discriminate.
  destruct (redis_reachable e); [| discriminate].
  intros H Hk Hlive. rewrite Hk, Hlive in H. by inversion H.
Qed.

(** The request that opens a counter window: its [incr] answered 1 and its
    [expire] went through.  This happens under the ioredis client only, the
    counter then holds 1 with a 60 s expiry, and the request passes. *)
Lemma window_opened e s h w :
  opens_window w (emitted e (dedup_and_rate_limit h w) s) ->
  redis e = Ioredis /\ redis_reachable e = true
  /\ fst (run e (dedup_and_rate_limit h w) s) = Next
  /\ store (snd (run e (dedup_and_rate_limit h w) s)) !! wallet_requests w
     = Some (Entry (toString 1) (Some (now e + 60000)))
  /\ forall k, k <> wallet_requests w -> k <> tx_processing h ->
       store (snd (run e (dedup_and_rate_limit h w) s)) !! k = store s !! k.
Proof.
  destruct s as [st pp t b os ids j]. unfold opens_window, emitted.
  run_all; journal_norm; cbn [fst snd store]; intros [Hi He];
    try (exfalso; not_in Hi); try (exfalso; not_in He).
  all: cbn [In] in Hi;
    repeat (destruct Hi as [Hi | Hi]; [try discriminate Hi |]);
    try (destruct Hi; fail).
  all: inversion Hi; subst; clear Hi He.
  all: try (exfalso;
            match goal with
            | H : (_ <? _) = _ |- _ => discriminate H
            | H : (_ =? _) = _ |- _ => discriminate H
            end).
  all: match goal with
    | Hincr : Client.incr _ _ ?k = Resolved (_, ?g),
      Hexp : Client.expire _ ?g ?k _ = Resolved _ |- _ =>
        destruct (incr_inv _ _ _ _ _ Hincr) as (Hc & Hr & exp & -> & Hlive);
        rewrite (expire_inv _ _ _ _ _ _ Hexp (lookup_insert_eq _ _ _) Hlive)
    end.
  all: split; [done |]; split; [done |]; split; [reflexivity |]; split;
    [ by rewrite lookup_insert_eq
    | intros k' Hk1 Hk2; rewrite !lookup_insert_ne by done;
      match goal with
      | Hset : Client.set _ _ _ _ _ = Resolved _ |- _ =>
          apply (set_other _ _ _ _ _ _ k' Hset); congruence
      end ].
Qed.

Lemma wallet_requests_inj w w' : wallet_requests w = wallet_requests w' -> w = w'.
Proof. unfold wallet_requests; cbv [String.append]. congruence. Qed.

Lemma validated_cons e req calls s :
  validated ((e, req) :: calls) s
  = validated calls (snd (run e (validateCryptoPayment req) s)).
Proof. reflexivity. Qed.

(** The counter after further requests of a window, and the keys they leave
    alone. *)
Lemma window_state w T calls : forall n s,
  1 <= n -> n + Z.of_nat (length calls) < 9223372036854775807 ->
  Forall (in_window w T) calls ->
  NoDup (map (fun rq => hash_of (snd rq)) calls) ->
  Forall (fun rq => store s !! tx_processing (hash_of (snd rq)) = None) calls ->
  store s !! wallet_requests w = Some (Entry (toString n) (Some T)) ->
  store (validated calls s) !! wallet_requests w
  = Some (Entry (toString (n + Z.of_nat (length calls))) (Some T))
  /\ forall k, k <> wallet_requests w -> (forall h, k <> tx_processing h) ->
       store (validated calls s) !! k = store s !! k.
Proof.
  induction calls as [| [e req] calls IH]; intros n s Hn Hlen Hwin Hnd Hfree Hcount.
  - cbn [length]. rewrite Z.add_0_r. split; [exact Hcount | reflexivity].
  - cbn [length] in *. rewrite Nat2Z.inj_succ in *.
    apply Forall_cons in Hwin as [(Hc & Hr & HT & Hv & Hw) Hwin].
    apply Forall_cons in Hfree as [Hfree1 Hfree].
    cbn [map] in Hnd. apply NoDup_cons in Hnd as [Hnotin Hnd].
    cbn [fst snd] in *.
    destruct (validate_structurally_valid e s req Hv) as (h & w' & Hh & Hw' & Hrun).
    assert (w' = w) by congruence; subst w'.
    assert (Hhash : hash_of req = h) by (unfold hash_of; by rewrite Hh).
    rewrite Hhash in *.
    destruct (later_in_window e Hc Hr s h w n T Hfree1 Hcount HT ltac:(lia))
      as (_ & Hcount' & Hframe).
    rewrite validated_cons, Hrun.
    destruct (run e (dedup_and_rate_limit h w) s) as [r s']; cbn [fst snd] in *.
    destruct (IH (n + 1) s') as [IH1 IH2]; try done; try lia.
    { apply Forall_forall. intros rq Hin.
      rewrite Forall_forall in Hfree. rewrite Hframe.
      + by apply Hfree.
      + apply not_eq_sym, processing_not_wallet.
      + intros Heq. apply tx_processing_inj in Heq. apply Hnotin.
        rewrite <- Heq. apply list_elem_of_fmap. by exists rq. }
    split.
    + rewrite IH1. do 3 f_equal. lia.
    + intros k Hk1 Hk2. rewrite IH2 by done. apply Hframe; [done | apply Hk2].
Qed.

(** C5 (as amended): through the ioredis client, when a request of a wallet
    opens a counter window (its [incr] answers 1 and its [expire] goes
    through) and ten more requests of that wallet follow within the 60 s of
    the window, all structurally valid and each for a hash of its own that
    is not locked, then the first ten are passed on with [next()] and the
    eleventh is answered 429 [{error: "Too many payment verification
    requests", retryAfter: 60}].  The counter is the wallet's own: it is the
    key [wallet-requests:<walletAddress>], which then holds 11 and expires
    60 s after the first request, and the counters of all other wallets are
    as they were. *)
Theorem tenth_passes_eleventh_is_rejected w e0 req0 calls s :
  structurally_valid e0 req0 = true -> walletAddress req0 = Some w ->
  opens_window w (emitted e0 (validateCryptoPayment req0) s) ->
  Forall (within_window e0 w) calls ->
  length calls = 10%nat ->
  NoDup (map (fun rq => hash_of (snd rq)) ((e0, req0) :: calls)) ->
  Forall (fun rq => store s !! tx_processing (hash_of (snd rq)) = None) calls ->
  validations ((e0, req0) :: calls) s
  = [Next; Next; Next; Next; Next; Next; Next; Next; Next; Next;
     Reply 429 (JError (mkError "Too many payment verification requests"
                                (Some 60) None None))]
  /\ store (validated ((e0, req0) :: calls) s) !! ("wallet-requests:" +:+ w)
     = Some (Entry "11" (Some (now e0 + 60000)))
  /\ forall w', w' <> w ->
       store (validated ((e0, req0) :: calls) s) !! ("wallet-requests:" +:+ w')
       = store s !! ("wallet-requests:" +:+ w').
Proof.
  change (fun x => "wallet-requests:" +:+ x) with wallet_requests.
  change ("wallet-requests:" +:+ w) with (wallet_requests w).
  intros Hv Hw Hopen Hall Hlen Hnd Hfree.
  cbn [map] in Hnd. apply NoDup_cons in Hnd as [Hnotin Hnd]. cbn [snd] in Hnotin.
  destruct (validate_structurally_valid e0 s req0 Hv) as (h & w' & Hh & Hw' & Hrun).
  assert (w' = w) by congruence; subst w'.
  assert (Hhash : hash_of req0 = h) by (unfold hash_of; by rewrite Hh).
  rewrite Hhash in Hnotin.
  unfold emitted in Hopen. rewrite Hrun in Hopen.
  destruct (window_opened e0 s h w Hopen) as (Hc & Hr & Hans & Hcount & Hframe).
  cbn [validations]. rewrite validated_cons, Hrun.
  destruct (run e0 (dedup_and_rate_limit h w) s) as [r s']; cbn [fst snd] in *.
  assert (Hwin : Forall (in_window w (now e0 + 60000)) calls).
  { eapply Forall_impl; [exact Hall |].
    intros rq (Hc' & Hr' & HT & Hv' & Hw''). repeat split; try done. congruence. }
  assert (Hfree' : Forall (fun rq => store s' !! tx_processing (hash_of (snd rq)) = None)
                          calls).
  { apply Forall_forall. intros rq Hin.
    rewrite Forall_forall in Hfree. rewrite Hframe.
    + by apply Hfree.
    + apply not_eq_sym, processing_not_wallet.
    + intros Heq. apply tx_processing_inj in Heq. apply Hnotin.
      rewrite <- Heq. apply list_elem_of_fmap. by exists rq. }
  destruct (window_state w (now e0 + 60000) calls 1 s') as [Hst1 Hst2];
    try done; try lia.
  split; [| split].
  - rewrite Hans. f_equal.
    rewrite (window_rest w (now e0 + 60000) calls 1 s'); try done; try lia.
    rewrite Hlen. reflexivity.
  - rewrite Hst1, Hlen. reflexivity.
  - intros w'' Hne.
    change ("wallet-requests:" +:+ w'') with (wallet_requests w'').
    assert (Hk : wallet_requests w'' <> wallet_requests w)
      by (intros Heq; apply wallet_requests_inj in Heq; done).
    rewrite Hst2; [| exact Hk | intros x; apply processing_not_wallet].
    apply Hframe; [exact Hk | apply processing_not_wallet].
Qed.

Lemma tenth_passes_eleventh_is_rejected_witness :
  validations (eleven_at Ioredis 1000) initial
  = [Next; Next; Next; Next; Next; Next; Next; Next; Next; Next;
     Reply 429 (JError (mkError "Too many payment verification requests"
                                (Some 60) None None))]
  /\ store (validated (eleven_at Ioredis 1000) initial)
       !! ("wallet-requests:" +:+ Sample.wallet)
     = Some (Entry "11" (Some (1000 + 60000)))
  /\ forall w', w' <> Sample.wallet ->
       store (validated (eleven_at Ioredis 1000) initial)
         !! ("wallet-requests:" +:+ w')
       = store initial !! ("wallet-requests:" +:+ w').
Proof.
  apply (tenth_passes_eleventh_is_rejected Sample.wallet).
  - reflexivity.
  - reflexivity.
  - vm_compute. split; repeat first [left; reflexivity | right].
  - repeat (constructor; [repeat split; cbn; lia |]). constructor.
  - reflexivity.
  - apply (bool_decide_unpack _). vm_compute. exact I.
  - repeat (constructor; [reflexivity |]). constructor.
Defined.

(** C5 (as stated) fails: eleven structurally valid requests of the sample
    wallet, all sent at time 1000.  Through the REST client, and through the
    in-memory mock, all eleven are passed on.  Through the ioredis client,
    when the eleven carry the same hash, the first is passed on and each of
    the others, the tenth and the eleventh among them, is answered with the
    429 of the in-flight lock, [retryAfter: 5], before the counter is
    touched. *)
Lemma eleventh_is_not_always_rate_limited :
  validations (eleven_at UpstashRedisRestClient 1000) initial
  = [Next; Next; Next; Next; Next; Next; Next; Next; Next; Next; Next]
  /\ validations (eleven_at InMemoryMock 1000) initial
     = [Next; Next; Next; Next; Next; Next; Next; Next; Next; Next; Next]
  /\ validations (repeat (Sample.env Ioredis true 1000, Sample.request) 11) initial
     = Next :: repeat (Reply 429 (JError (mkError "Transaction is already being processed"
                                                  (Some 5) None None))) 10
  /\ store (validated (repeat (Sample.env Ioredis true 1000, Sample.request) 11)
                      initial)
       !! ("wallet-requests:" +:+ Sample.wallet)
     = Some (Entry "1" (Some 61000)).
Proof. vm_compute. repeat split; reflexivity. Qed.

(** ** The in-flight lock *)

Section Lock.
Variable e : Env.

Lemma get_answers st k : answering e -> exists v, Client.get e st k = Resolved v.
Proof.
  unfold Client.get, answering. intros [H | H]; rewrite H; [eauto |].
  destruct (redis e); eauto.
Qed.

Lemma set_answers st k v ex :
  answering e -> 0 < ex ->
  Client.set e st k v ex = Resolved (<[k := Entry v (Client.kept_expiry e ex)]> st).
Proof.
  unfold Client.set, Client.kept_expiry, Server.SETEX. intros Ha Hex.
  destruct (Z.leb_spec ex 0) as [Hle | _]; [lia |].
  destruct Ha as [H | H]; rewrite H; [reflexivity |].
  destruct (redis e); reflexivity.
Qed.

(** A validation that finds no lock writes one: the time of the write,
    with a 300 s expiry where the client keeps expiry times. *)
Lemma lock_written s h w :
  answering e -> cached e s (tx_processing h) = false ->
  store (snd (run e (dedup_and_rate_limit h w) s)) !! tx_processing h
  = Some (Entry (toString (now e)) (Client.kept_expiry e 300)).
Proof.
  intros Ha Hc. destruct s as [st pp t b os ids j].
  unfold cached in Hc; cbn [store] in Hc.
  destruct (get_answers st (tx_processing h) Ha) as [v Hv].
  rewrite Hv in Hc.
  pose proof (set_answers st (tx_processing h) (toString (now e)) 300 Ha
                ltac:(lia)) as Hset.
  cbn [dedup_and_rate_limit run exec store log]. rewrite Hv, Hc.
  cbn [run exec store log]. rewrite Hset.
  run_all; cbn [snd store]; frame;
    first [ apply lookup_insert_eq | apply processing_not_wallet ].
Qed.

(** A validation that finds a lock answers 429 and changes nothing. *)
Lemma blocked_while_locked s h w ent :
  store s !! tx_processing h = Some ent ->
  truthy (Some (value ent)) = true ->
  redis e = InMemoryMock \/ (redis_reachable e = true /\ live (now e) ent = true) ->
  run e (dedup_and_rate_limit h w) s
  = (already_being_processed,
     log (EvGet (tx_processing h) (Resolved (Some (value ent)))) s).
Proof.
  intros Hl Ht Ha.
  assert (Hget : Client.get e (store s) (tx_processing h)
                 = Resolved (Some (value ent))).
  { unfold Client.get, Server.GET, Server.lookup. rewrite Hl.
    destruct Ha as [-> | [-> Hlive]]; [reflexivity |].
    rewrite Hlive. by destruct (redis e). }
  cbn [dedup_and_rate_limit run exec]. rewrite Hget, Ht. reflexivity.
Qed.

(** A lock whose expiry instant has passed does not block, under the
    clients that keep expiry times. *)
Lemma free_after_expiry s h w v T :
  store s !! tx_processing h = Some (Entry v (Some T)) ->
  T < now e -> redis e <> InMemoryMock ->
  fst (run e (dedup_and_rate_limit h w) s) <> already_being_processed.
Proof.
  intros Hl HT Hc. destruct s as [st pp t b os ids j]. cbn [store] in Hl.
  assert (Hget : forall r, Client.get e st (tx_processing h) = Resolved r ->
                           r = None).
  { unfold Client.get, Server.GET, Server.lookup, live, Client.unreachable.
    rewrite Hl. cbn [expireAt].
    destruct (Z.leb_spec (now e) T) as [Hle | _]; [lia |].
    destruct (redis e); [| | done]; destruct (redis_reachable e);
      intros r Hr; inversion Hr; reflexivity. }
  run_all; cbn [fst]; try discriminate.
  specialize (Hget _ eq_refl). subst. discriminate.
Qed.
End Lock.




(** ** The contract artifact loader *)

Lemma loadContractAbi_good e s :
  loadContractAbi e s
  = match good_artifact e s with
    | Some parsed => with_loaded parsed (now e) s
    | None => s
    end.
Proof.
  unfold loadContractAbi, good_artifact.
  destruct (paymentProcessorPath e) as [f|]; [| done].
  destruct (lastContractLoadTime s <? mtimeMs f); [| done].
  destruct (readFileSync f) as [c|]; done.
Qed.

Lemma reloads_last_good envs : forall s,
  PaymentProcessor (reloads envs s)
  = match last_good envs s with
    | Some d => d
    | None => PaymentProcessor s
    end.
Proof.
  induction envs as [| e envs IH]; intros s; cbn [reloads last_good].
  - reflexivity.
  - rewrite IH. destruct (last_good envs (loadContractAbi e s)); [done |].
    rewrite loadContractAbi_good. by destruct (good_artifact e s).
Qed.

(** C8: (1) a run of the loader changes the loader's variables only if the
    artifact exists and its modification time is later than the time of the
    last successful load, and such an artifact, when it can be read and
    parsed, becomes the descriptor, the load time becoming the current time;
    (2) when the artifact is missing, cannot be read, or does not parse, the
    run leaves the descriptor and the load time as they were; (3) after any
    series of loader runs the descriptor is the one parsed by the last run
    that found a good artifact, whatever missing or malformed artifacts the
    later runs met; (4) in a process where no run has found one, the
    descriptor is still the empty placeholder, and it is with a descriptor
    that has no deployment at all that [getPaymentProcessorContract] answers
    [null] for every network. *)
Theorem loader_keeps_the_last_good_descriptor :
  (forall e s, loadContractAbi e s <> s ->
     exists f, paymentProcessorPath e = Some f
               /\ lastContractLoadTime s < mtimeMs f)
  /\ (forall e s f c parsed,
        paymentProcessorPath e = Some f ->
        lastContractLoadTime s < mtimeMs f ->
        readFileSync f = Resolved c -> JSON_parse e c = Some parsed ->
        PaymentProcessor (loadContractAbi e s) = parsed
        /\ lastContractLoadTime (loadContractAbi e s) = now e)
  /\ (forall e s,
        paymentProcessorPath e = None
        \/ (exists f, paymentProcessorPath e = Some f
                      /\ ((exists m, readFileSync f = Rejected m)
                          \/ (exists c, readFileSync f = Resolved c
                                        /\ JSON_parse e c = None))) ->
        loadContractAbi e s = s)
  /\ (forall envs s,
        PaymentProcessor (reloads envs s)
        = match last_good envs s with
          | Some d => d
          | None => PaymentProcessor s
          end)
  /\ (forall envs,
        last_good envs initial = None ->
        PaymentProcessor (reloads envs initial) = placeholder)
  /\ (forall e s,
        networks (PaymentProcessor (loadContractAbi e s)) = Some ∅ ->
        fst (run e getPaymentProcessorContract s) = None).
Proof.
  split; [| split; [| split; [| split; [| split]]]].
  - intros e s Hne. rewrite loadContractAbi_good in Hne.
    unfold good_artifact in Hne.
    destruct (paymentProcessorPath e) as [f|]; [| done].
    exists f. split; [done |].
    destruct (Z.ltb_spec (lastContractLoadTime s) (mtimeMs f)); done.
  - intros e s f c parsed Hf Hnew Hread Hparse.
    rewrite loadContractAbi_good. unfold good_artifact.
    rewrite Hf, Hread, Hparse.
    destruct (Z.ltb_spec (lastContractLoadTime s) (mtimeMs f)); [done | lia].
  - intros e s H. rewrite loadContractAbi_good. unfold good_artifact.
    destruct H as [-> | (f & -> & [[m ->] | (c & -> & ->)])]; [done | |].
    + by destruct (lastContractLoadTime s <? mtimeMs f).
    + by destruct (lastContractLoadTime s <? mtimeMs f).
  - intros envs s. apply reloads_last_good.
  - intros envs Hnone. rewrite reloads_last_good, Hnone. done.
  - intros e s Hempty. rewrite loadContractAbi_eq in Hempty.
    destruct s as [st pp t b os ids j].
    cbn [PaymentProcessor lastContractLoadTime] in Hempty.
    run_all; cbn [fst]; try reflexivity.
    match goal with
    | H : deployedNetwork _ _ = Resolved (Some _) |- _ =>
        unfold deployedNetwork in H; rewrite Hempty, lookup_empty in H;
        discriminate H
    end.
Qed.

Lemma loader_keeps_the_last_good_descriptor_witness :
  loadContractAbi missing_env (reloads [Sample.env Ioredis true 1000] initial)
  = reloads [Sample.env Ioredis true 1000] initial
  /\ PaymentProcessor (reloads timer_runs initial) = Sample.artifact
  /\ PaymentProcessor (reloads [missing_env; malformed_env] initial) = placeholder.
Proof.
  destruct loader_keeps_the_last_good_descriptor as (_ & _ & Hkeep & Hlast & Hnone & _).
  split; [| split].
  - apply Hkeep. left. reflexivity.
  - rewrite Hlast. reflexivity.
  - apply Hnone. reflexivity.
Defined.

(** ** Expiry of the in-flight lock *)

(** X1: under the clients that keep expiry times (ioredis, REST), a
    validation that finds no lock stores it with an expiry 300 s after the
    write, and a validation of the same hash that comes more than 300 s after
    that one is not held back by it. *)
Lemma lock_expires_after_300s e1 e2 s req1 req2 h :
  structurally_valid e1 req1 = true -> transactionHash req1 = Some h ->
  structurally_valid e2 req2 = true -> transactionHash req2 = Some h ->
  redis e1 <> InMemoryMock -> redis_reachable e1 = true -> redis e2 = redis e1 ->
  cached e1 s (tx_processing h) = false ->
  now e1 + 300000 < now e2 ->
  store (snd (run e1 (validateCryptoPayment req1) s)) !! tx_processing h
    = Some (Entry (toString (now e1)) (Some (now e1 + 300000)))
  /\ fst (run e2 (validateCryptoPayment req2)
              (snd (run e1 (validateCryptoPayment req1) s)))
     <> already_being_processed.
Proof.
  intros Hv1 Hh1 Hv2 Hh2 Hc Hr Hcl Hfree Hlate.
  destruct (validate_structurally_valid e1 s req1 Hv1) as (h1 & w1 & Hh1' & _ & Hrun1).
  assert (h1 = h) by congruence; subst h1.
  pose proof (lock_written e1 s h w1 (or_intror Hr) Hfree) as Hlock.
  rewrite <- Hrun1 in Hlock.
  assert (Hexp : Client.kept_expiry e1 300 = Some (now e1 + 300000))
    by (unfold Client.kept_expiry; destruct (redis e1); done).
  rewrite Hexp in Hlock. split; [exact Hlock |].
  set (s1 := snd (run e1 (validateCryptoPayment req1) s)) in *.
  destruct (validate_structurally_valid e2 s1 req2 Hv2) as (h2 & w2 & Hh2' & _ & Hrun2).
  assert (h2 = h) by congruence; subst h2.
  rewrite Hrun2. eapply free_after_expiry; [exact Hlock | lia | congruence].
Qed.

(** C6 fails under the in-memory mock: its [set] is
    [(key, value) => cache.set(key, value)], so the lock written at time 1000
    is stored without expiry and still answers 429 to the same request a
    million seconds later. *)
Example mock_lock_never_expires :
  validations [(Sample.env InMemoryMock true 1000, Sample.request);
               (Sample.env InMemoryMock true 1000000000, Sample.request)] initial
  = [Next; already_being_processed]
  /\ store (snd (run (Sample.env InMemoryMock true 1000)
                     (validateCryptoPayment Sample.request) initial))
       !! tx_processing Sample.hash
     = Some (Entry (toString 1000) None).
Proof. vm_compute. split; reflexivity. Qed.

(** ** The cache out of reach *)

Lemma get_unreachable e st k :
  redis e <> InMemoryMock -> redis_reachable e = false ->
  Client.get e st k = Rejected "connection failed".
Proof.
  unfold Client.get, Client.unreachable. intros Hc ->. by destruct (redis e).
Qed.

(** The middleware lets a structurally valid request through when the cache
    cannot be reached. *)
Lemma validate_degrades e s req :
  redis e <> InMemoryMock -> redis_reachable e = false ->
  structurally_valid e req = true ->
  fst (run e (validateCryptoPayment req) s) = Next
  /\ store (snd (run e (validateCryptoPayment req) s)) = store s.
Proof.
  intros Hc Hr Hv.
  destruct (validate_structurally_valid e s req Hv) as (h & w & _ & _ & ->).
  cbn [dedup_and_rate_limit run exec]. rewrite get_unreachable by done.
  split; reflexivity.
Qed.

(** X2: the controller does not degrade: its first cache read is outside
    the inner [try], so when the cache cannot be reached the outer [catch]
    answers 500, the ledger is never asked and nothing else changes. *)
Lemma verify_needs_the_cache e s req h :
  redis e <> InMemoryMock -> redis_reachable e = false ->
  present req = true -> transactionHash req = Some h ->
  run e (verifyCryptoPayment req) s
  = (Reply 500 (JError (mkError "An error occurred while verifying crypto payment"
                                None None (Some "connection failed"))),
     log (EvGet (tx h) (Rejected "connection failed")) s).
Proof.
  intros Hc Hr Hp Hh.
  destruct (present_fields req Hp)
    as (item & items & p & w & h' & E1 & E2 & T2 & E3 & T3 & E4 & T4).
  rewrite Hh in E4. inversion E4; subst h'. clear E4.
  unfold verifyCryptoPayment. rewrite E1, E2, E3, Hh.
  destruct p as [|pc ps]; [discriminate|].
  destruct w as [|wc ws]; [discriminate|].
  destruct h as [|hc hs]; [discriminate|].
  cbn [run exec]. rewrite get_unreachable by done. reflexivity.
Qed.

(** C4 fails in the controller: the sample request, whose payment did settle
    on the ledger, is sent by a signed-in user while the cache cannot be
    reached.  The middleware swallows the failure of its cache read and
    passes the request on; the controller's read of [tx:<hash>] stands
    outside the inner [try], so the controller answers 500
    [{error: "An error occurred while verifying crypto payment"}] after that
    one read, without having asked the ledger for anything, and this is what
    the client of the route receives.  With the cache in reach the
    controller goes on to ask the ledger for the receipt. *)
Example cache_outage_fails_the_verification :
  fst (run (Sample.env Ioredis false 1000) (validateCryptoPayment Sample.request)
           initial) = Next
  /\ run (Sample.env Ioredis false 1000) (verifyCryptoPayment Sample.request) initial
     = (Reply 500
          (JError (mkError "An error occurred while verifying crypto payment"
                           None None (Some "connection failed"))),
        log (EvGet ("tx:" +:+ Sample.hash) (Rejected "connection failed")) initial)
  /\ fst (verify_crypto_payment (Sample.env Ioredis false 1000) signed_in
            (Some "token") Sample.request initial)
     = Handled
         (Reply 500
            (JError (mkError "An error occurred while verifying crypto payment"
                             None None (Some "connection failed"))))
  /\ In (EvReceipt Sample.hash (Resolved (Some (mkReceipt true))))
        (emitted (Sample.env Ioredis true 1000) (verifyCryptoPayment Sample.request)
                 initial).
Proof.
  split; [vm_compute; reflexivity |].
  split; [vm_compute; reflexivity |].
  split; [vm_compute; reflexivity |].
  vm_compute. do 2 right. left. reflexivity.
Qed.

Lemma lock_expires_after_300s_witness :
  store (snd (run (Sample.env Ioredis true 1000)
                  (validateCryptoPayment Sample.request) initial))
    !! tx_processing Sample.hash
    = Some (Entry (toString 1000) (Some (1000 + 300000)))
  /\ fst (run (Sample.env Ioredis true 301001) (validateCryptoPayment Sample.request)
              (snd (run (Sample.env Ioredis true 1000)
                        (validateCryptoPayment Sample.request) initial)))
     <> already_being_processed.
Proof.
  apply (lock_expires_after_300s
           (Sample.env Ioredis true 1000) (Sample.env Ioredis true 301001)
           initial Sample.request Sample.request Sample.hash);
    try reflexivity; discriminate.
Defined.

Lemma verify_needs_the_cache_witness :
  run (Sample.env UpstashRedisRestClient false 1000)
      (verifyCryptoPayment Sample.request) initial
  = (Reply 500 (JError (mkError "An error occurred while verifying crypto payment"
                                None None (Some "connection failed"))),
     log (EvGet (tx Sample.hash) (Rejected "connection failed")) initial).
Proof.
  apply (verify_needs_the_cache
           (Sample.env UpstashRedisRestClient false 1000) initial
           Sample.request Sample.hash);
    try reflexivity; discriminate.
Defined.

Lemma rate_limit_window_witness :
  validations (eleven_at Ioredis 1000) initial = Next :: expected 1 10.
Proof.
  apply (rate_limit_window Sample.wallet).
  - repeat split; cbn; lia.
  - repeat (constructor; [repeat split; cbn; lia |]). constructor.
  - cbn. lia.
  - apply (bool_decide_unpack _). vm_compute. exact I.
  - repeat (constructor; [reflexivity |]). constructor.
  - reflexivity.
Defined.

(** ** Structural validation *)

(** X4: the middleware answers 400 exactly to the requests that fail its
    structural validation: a field missing or empty, an amount for which
    [!amount || isNaN(amount) || amount <= 0] holds (so that a numeric string
    such as ["10"], or [true], passes as an amount), a wallet address
    [ethers.isAddress] refuses, or a hash that is not [0x] and 64 hex digits.
    It does so before any cache operation: the state, journal included, is as
    it was. *)
Theorem validation_answers_400_before_touching_the_cache e s req :
  (structurally_valid e req = false ->
     exists msg, run e (validateCryptoPayment req) s = (Reply 400 (err msg), s))
  /\ (structurally_valid e req = true ->
        forall body, fst (run e (validateCryptoPayment req) s) <> Reply 400 body)
  /\ (forall text n,
        amount req = js_string text -> StringToNumber e text = Finite (Z.pos n) 1 ->
        text <> EmptyString ->
        structurally_valid e req
        = structurally_valid e (mkRequest (products req) (paymentId req)
                                          (walletAddress req) (transactionHash req)
                                          (js_number (Finite (Z.pos n) 1)) (user req))).
Proof.
  split; [| split].
  - unfold structurally_valid, present, validateCryptoPayment.
    destruct (products req) as [[|item items]|]; [eauto | | eauto].
    destruct (paymentId req) as [[|pc ps]|]; cbn [truthy negb andb]; [eauto | | eauto].
    destruct (walletAddress req) as [[|wc ws]|]; cbn [truthy negb andb]; [eauto | | eauto].
    destruct (transactionHash req) as [[|hc hs]|]; cbn [truthy negb andb]; [eauto | | eauto].
    cbn [run exec].
    destruct (invalid_amount (amount req) (ToNumber (StringToNumber e) (amount req)));
      cbn [negb andb run exec]; [eauto |].
    destruct (ethers_isAddress e (String wc ws)); cbn [negb andb run]; [| eauto].
    destruct (txHashRegex_test (String hc hs)); cbn [negb]; [discriminate | eauto].
  - intros Hv body.
    destruct (validate_structurally_valid e s req Hv) as (h & w & _ & _ & ->).
    destruct s as [st pp t b os ids j].
    run_all; cbn [fst]; discriminate.
  - intros text n Ha Hn Ht. unfold structurally_valid, present.
    cbn [products paymentId walletAddress transactionHash amount].
    rewrite Ha. cbn [ToNumber]. rewrite Hn.
    destruct text; [done | reflexivity].
Qed.

(** ** The journal only grows *)

Lemma exec_journal e {X} (o : op X) s :
  exists new, journal (snd (exec e o s)) = (journal s ++ new)%list.
Proof.
  destruct s as [st pp t b os ids j].
  destruct o; cbn [exec]; try rewrite loadContractAbi_eq;
    repeat match goal with
    | |- context [match ?x with _ => _ end] => destruct x
    end;
    cbn [snd journal log with_store with_available with_order with_fresh_id];
    first [ by eexists | exists []; by rewrite app_nil_r ].
Qed.

Lemma run_journal e {A} (p : prog A) : forall s,
  exists new, journal (snd (run e p s)) = (journal s ++ new)%list.
Proof.
  induction p as [a | X o k IH]; intros s; cbn [run].
  - exists []. cbn [snd]. by rewrite app_nil_r.
  - destruct (exec_journal e o s) as [n1 H1].
    destruct (exec e o s) as [x s1]. cbn [snd] in H1.
    destruct (IH x s1) as [n2 H2]. exists (n1 ++ n2)%list.
    rewrite H2, H1. by rewrite app_assoc.
Qed.

Lemma run_emitted e {A} (p : prog A) s :
  journal (snd (run e p s)) = (journal s ++ emitted e p s)%list.
Proof.
  unfold emitted. destruct (run_journal e p s) as [new ->].
  by rewrite drop_app_length.
Qed.

(** The journal of a sequence is the journal of its first part followed by
    that of the rest. *)
Lemma emitted_bind e {A B} (p : prog A) (f : A -> prog B) s :
  emitted e (bind p f) s
  = (emitted e p s
     ++ emitted e (f (fst (run e p s))) (snd (run e p s)))%list.
Proof.
  unfold emitted at 1. rewrite run_bind.
  pose proof (run_emitted e p s) as H1.
  destruct (run e p s) as [a s1]. cbn [fst snd] in *.
  rewrite (run_emitted e (f a) s1), H1, <- app_assoc.
  by rewrite drop_app_length.
Qed.

(** ** The keys the handlers touch *)

Lemma payment_not_processing h p : payment p <> tx_processing h.
Proof. unfold tx_processing, payment; cbv [String.append]. congruence. Qed.

Lemma payment_not_wallet w p : payment p <> wallet_requests w.
Proof. unfold wallet_requests, payment; cbv [String.append]. congruence. Qed.

(** The journal of a request through the route is the journal of the
    middleware followed, when the middleware called [next()], by that of the
    controller. *)
Lemma route_emitted_split e a accessToken body s ev :
  In ev (route_emitted e a accessToken body s) ->
  exists u,
    Auth.protectedRoute a accessToken = Auth.Proceed u
    /\ (In ev (emitted e (validateCryptoPayment (as_user u body)) s)
        \/ exists s1, In ev (emitted e (verifyCryptoPayment (as_user u body)) s1)).
Proof.
  unfold route_emitted, verify_crypto_payment.
  destruct (Auth.protectedRoute a accessToken) as [u | code message error].
  2: { cbn [snd]. rewrite drop_all. intros []. }
  intros H. exists u. split; [reflexivity |].
  pose proof (run_emitted e (validateCryptoPayment (as_user u body)) s) as H1.
  destruct (run e (validateCryptoPayment (as_user u body)) s) as [r s1];
    cbn [fst snd] in *.
  destruct r as [| code body'].
  - pose proof (run_emitted e (verifyCryptoPayment (as_user u body)) s1) as H2.
    destruct (run e (verifyCryptoPayment (as_user u body)) s1) as [r' s2];
      cbn [fst snd] in *.
    rewrite H2, H1, <- app_assoc, drop_app_length in H.
    apply in_app_or in H as [H | H]; [by left | right; by exists s1].
  - cbn [snd] in H. rewrite H1, drop_app_length in H. by left.
Qed.

Lemma validate_keys e s req ev k :
  key_of ev = Some k ->
  In ev (emitted e (validateCryptoPayment req) s) ->
  exists h w, transactionHash req = Some h /\ walletAddress req = Some w
              /\ (k = tx_processing h \/ k = wallet_requests w).
Proof.
  intros Hk. destruct s as [st pp t b os ids j].
  unfold emitted, validateCryptoPayment.
  run_all; journal_norm; intros H; try (exfalso; not_in H).
  all: cbn [In] in H;
    repeat (destruct H as [H | H];
            [subst ev; cbn [key_of] in Hk; inversion Hk; subst k; eauto 6 |]);
    destruct H.
Qed.

Lemma verify_keys e s req ev k :
  key_of ev = Some k ->
  In ev (emitted e (verifyCryptoPayment req) s) ->
  exists h, transactionHash req = Some h /\ k = tx h.
Proof.
  intros Hk. destruct s as [st pp t b os ids j].
  unfold emitted, verifyCryptoPayment.
  run_all; journal_norm; intros H; try (exfalso; not_in H).
  all: cbn [In] in H;
    repeat (destruct H as [H | H];
            [subst ev; cbn [key_of] in Hk;
             first [discriminate Hk | inversion Hk; subst k; eauto] |]);
    destruct H.
Qed.

(** X5: every cache operation of the middleware is on
    [tx-processing:<hash>] or [wallet-requests:<wallet>] of the request, every
    cache operation of the controller is on [tx:<hash>] of the request, and
    so no cache operation of a request through the route is on a key
    [payment:<id>]: the settlement records the event subscriber writes are
    never read by the verification. *)
Theorem handlers_touch_only_their_own_keys e s req :
  (forall ev k,
     key_of ev = Some k -> In ev (emitted e (validateCryptoPayment req) s) ->
     exists h w, transactionHash req = Some h /\ walletAddress req = Some w
                 /\ (k = "tx-processing:" +:+ h \/ k = "wallet-requests:" +:+ w))
  /\ (forall ev k,
        key_of ev = Some k -> In ev (emitted e (verifyCryptoPayment req) s) ->
        exists h, transactionHash req = Some h /\ k = "tx:" +:+ h)
  /\ (forall a accessToken ev k,
        key_of ev = Some k -> In ev (route_emitted e a accessToken req s) ->
        forall pid, k <> "payment:" +:+ pid).
Proof.
  split; [exact (validate_keys e s req) |].
  split; [exact (verify_keys e s req) |].
  intros a accessToken ev k Hk H pid.
  change ("payment:" +:+ pid) with (payment pid).
  destruct (route_emitted_split _ _ _ _ _ _ H) as (u & _ & [H1 | [s1 H2]]).
  - destruct (validate_keys _ _ _ _ _ Hk H1) as (h & w & _ & _ & [-> | ->]).
    + apply not_eq_sym, payment_not_processing.
    + apply not_eq_sym, payment_not_wallet.
  - destruct (verify_keys _ _ _ _ _ Hk H2) as (h & _ & ->).
    apply not_eq_sym, tx_not_payment.
Qed.

(** The reads of the sample request: of the lock by the middleware, of the
    processed record by the controller, alone and behind the route. *)
Lemma handlers_touch_only_their_own_keys_witness :
  (exists h w,
     transactionHash Sample.request = Some h /\ walletAddress Sample.request = Some w
     /\ ("tx-processing:" +:+ Sample.hash = "tx-processing:" +:+ h
         \/ "tx-processing:" +:+ Sample.hash = "wallet-requests:" +:+ w))
  /\ (exists h, transactionHash Sample.request = Some h
                /\ "tx:" +:+ Sample.hash = "tx:" +:+ h)
  /\ (forall pid, "tx:" +:+ Sample.hash <> "payment:" +:+ pid).
Proof.
  destruct (handlers_touch_only_their_own_keys
              (Sample.env Ioredis true 1000) initial Sample.request)
    as (A & B & C).
  split; [| split].
  - apply (A (EvGet (tx_processing Sample.hash) (Resolved None)));
      [reflexivity | vm_compute; left; reflexivity].
  - apply (B (EvGet (tx Sample.hash) (Resolved None)));
      [reflexivity | vm_compute; left; reflexivity].
  - apply (C signed_in (Some "token") (EvGet (tx Sample.hash) (Resolved None)));
      [reflexivity | vm_compute; do 4 right; left; reflexivity].
Defined.

(** ** A settled payment *)



(** ** Letter case of a transaction hash *)

Lemma toLowerCase_length s : String.length (toLowerCase s) = String.length s.
Proof.
  induction s as [| c r IH]; [reflexivity |].
  unfold toLowerCase; fold toLowerCase. cbn [String.length]. by rewrite IH.
Qed.

Lemma is_hex_lower c : is_hex (lower_ascii c) = is_hex c.
Proof. destruct c as [[] [] [] [] [] [] [] []]; reflexivity. Qed.

Lemma all_hex_lower s : all_hex (toLowerCase s) = all_hex s.
Proof.
  induction s as [| c r IH]; [reflexivity |].
  unfold toLowerCase; fold toLowerCase. cbn [all_hex].
  by rewrite is_hex_lower, IH.
Qed.

Lemma txHashRegex_inv h :
  txHashRegex_test h = true ->
  exists r, h = String "0" (String "x" r)
            /\ String.length r = 64%nat /\ all_hex r = true.
Proof.
  unfold txHashRegex_test.
  destruct h as [| c1 [| c2 r]]; try discriminate.
  - destruct c1 as [[] [] [] [] [] [] [] []]; discriminate.
  - destruct c1 as [[] [] [] [] [] [] [] []]; try discriminate.
    destruct c2 as [[] [] [] [] [] [] [] []]; try discriminate.
    intros H. apply andb_true_iff in H as [Hl Hx].
    exists r. split; [reflexivity |]. split; [by apply Nat.eqb_eq | done].
Qed.

(** X7: the hash is used as it is spelled.  For a well-formed hash [h], any
    other spelling [h'] of the same digits (equal to [h] once both are put in
    lower case) passes the format check as soon as it starts with [0x], and
    the lock and the processed record of [h] are invisible to it: reading
    [tx-processing:<h'>] and [tx:<h'>] gives what it would give without
    them. *)
Theorem hash_spelling_is_not_normalised h h' :
  txHashRegex_test h = true ->
  toLowerCase h' = toLowerCase h -> h' <> h ->
  txHashRegex_test h' = String.prefix "0x" h'
  /\ forall e st lock record,
       let st' := <[tx h := record]> (<[tx_processing h := lock]> st) in
       Client.get e st' (tx_processing h') = Client.get e st (tx_processing h')
       /\ Client.get e st' (tx h') = Client.get e st (tx h').
Proof.
  intros Hv Hl Hne. split.
  - destruct (txHashRegex_inv h Hv) as (r & -> & Hlen & Hhex).
    destruct h' as [| c1 [| c2 r']].
    + reflexivity.
    + unfold txHashRegex_test. cbn.
      destruct c1 as [[] [] [] [] [] [] [] []]; reflexivity.
    + unfold toLowerCase in Hl; fold toLowerCase in Hl.
      injection Hl as H1 H2 H3.
      assert (Hr : txHashRegex_test (String "0" (String "x" r')) = true).
      { unfold txHashRegex_test.
        rewrite <- (toLowerCase_length r'), H3, toLowerCase_length, Hlen.
        rewrite <- (all_hex_lower r'), H3, all_hex_lower, Hhex. reflexivity. }
      destruct c1 as [[] [] [] [] [] [] [] []];
        try (unfold txHashRegex_test; reflexivity).
      destruct c2 as [[] [] [] [] [] [] [] []];
        try (unfold txHashRegex_test; reflexivity).
      rewrite Hr. cbn. by destruct r'.
  - intros e st lock record st'. subst st'. split; apply get_ext.
    + rewrite lookup_insert_ne by apply not_eq_sym, tx_not_processing.
      rewrite lookup_insert_ne; [done |].
      intros H. apply tx_processing_inj in H. congruence.
    + rewrite lookup_insert_ne by (intros H; apply tx_inj in H; congruence).
      rewrite lookup_insert_ne; [done |]. apply tx_not_processing.
Qed.

Lemma hash_spelling_is_not_normalised_witness :
  txHashRegex_test upper_hash = String.prefix "0x" upper_hash
  /\ forall e st lock record,
       let st' := <[tx Sample.hash := record]>
                    (<[tx_processing Sample.hash := lock]> st) in
       Client.get e st' (tx_processing upper_hash)
         = Client.get e st (tx_processing upper_hash)
       /\ Client.get e st' (tx upper_hash) = Client.get e st (tx upper_hash).
Proof.
  apply (hash_spelling_is_not_normalised Sample.hash);
    [reflexivity | reflexivity | discriminate].
Defined.

(** ** Binding the contract *)


(** ** The answers of the controller *)

(** X9: the controller answers every request, and never with [next()] or a
    429: with 200 and the order; with 400 and a bare [{error}]; with 500 and
    an error body without [retryAfter], marked retryable except for the
    outer [catch], whose body carries no [retryable] at all; or with the 503
    [{error: "Blockchain services temporarily unavailable", retryAfter: 60,
    retryable: true}]. *)
Theorem controller_always_answers e s req :
  exists code body,
    fst (run e (verifyCryptoPayment req) s) = Reply code body
    /\ ((code = 200 /\ exists order, body = JSuccess order)
        \/ (code = 400 /\ exists msg, body = err msg)
        \/ (code = 500
            /\ exists er, body = JError er /\ retryAfter er = None
                          /\ (retryable er = Some true
                              \/ (retryable er = None
                                  /\ error er
                                     = "An error occurred while verifying crypto payment")))
        \/ (code = 503 /\ Reply code body = services_unavailable)).
Proof.
  destruct s as [st pp t b os ids j]. unfold verifyCryptoPayment.
  run_all; cbn [fst]; do 2 eexists; (split; [reflexivity |]);
    first [ left; split; [reflexivity | eexists; reflexivity]
          | right; left; split; [reflexivity | eexists; reflexivity]
          | right; right; right; split; reflexivity
          | right; right; left; split; [reflexivity |];
            eexists; split; [reflexivity |]; split; [reflexivity |];
            first [left; reflexivity | right; split; reflexivity] ].
Qed.

(** ** The ledger out of reach *)

(** The controller writes no key but [tx:<hash>]. *)
Lemma verify_store_frame e s req k :
  (forall h, tx h <> k) ->
  store (snd (run e (verifyCryptoPayment req) s)) !! k = store s !! k.
Proof.
  intros Hk. destruct s as [st pp t b os ids j]. unfold verifyCryptoPayment.
  run_all; cbn [snd store]; frame; reflexivity.
Qed.

(** X10: when the node does not answer the health probe, a request that
    carries its fields and has no processed record is answered 503
    [{error: "Blockchain services temporarily unavailable", retryAfter: 60,
    retryable: true}] after one cache read and the one probe: no receipt is
    asked for, the cache and the orders are as before, and the availability
    flag is left down. *)
Theorem unhealthy_ledger_is_a_retryable_503 e s req h m :
  present req = true -> transactionHash req = Some h ->
  answering e -> cached e s (tx h) = false ->
  net_getId (chain e) = Rejected m ->
  let out := run e (verifyCryptoPayment req) s in
  fst out = services_unavailable
  /\ emitted e (verifyCryptoPayment req) s
     = [EvGet (tx h) (Client.get e (store s) (tx h)); EvNetId (Rejected m)]
  /\ store (snd out) = store s /\ orders (snd out) = orders s
  /\ isBlockchainAvailable (snd out) = false.
Proof.
  intros Hp Hh Ha Hc Hn out. subst out.
  destruct (present_fields req Hp)
    as (item & items & p & w & h' & E1 & E2 & T2 & E3 & T3 & E4 & T4).
  assert (h' = h) by congruence; subst h'. clear E4.
  destruct s as [st pp t b os ids j].
  unfold cached in Hc. cbn [store] in *.
  destruct (get_answers e st (tx h) Ha) as [v Hget]. rewrite Hget in Hc.
  unfold emitted, verifyCryptoPayment. rewrite E1, E2, E3, Hh.
  destruct p as [|pc ps]; [discriminate |].
  destruct w as [|wc ws]; [discriminate |].
  destruct h as [|hc hs]; [discriminate |].
  run_all; journal_norm. cbn [fst snd store orders isBlockchainAvailable].
  repeat split; reflexivity.
Qed.

Lemma unhealthy_ledger_is_a_retryable_503_witness :
  fst (run (outage_env 1000) (verifyCryptoPayment Sample.request) initial)
    = services_unavailable
  /\ emitted (outage_env 1000) (verifyCryptoPayment Sample.request) initial
     = [EvGet (tx Sample.hash)
              (Client.get (outage_env 1000) (store initial) (tx Sample.hash));
        EvNetId (Rejected "timeout")]
  /\ store (snd (run (outage_env 1000) (verifyCryptoPayment Sample.request) initial))
     = store initial
  /\ orders (snd (run (outage_env 1000) (verifyCryptoPayment Sample.request) initial))
     = orders initial
  /\ isBlockchainAvailable
       (snd (run (outage_env 1000) (verifyCryptoPayment Sample.request) initial))
     = false.
Proof.
  apply (unhealthy_ledger_is_a_retryable_503
           (outage_env 1000) initial Sample.request Sample.hash "timeout");
    try reflexivity.
  right. reflexivity.
Defined.

(** X11: nothing releases the in-flight lock.  Whatever the route answers
    to an authenticated, structurally valid request that found its hash
    unlocked (a 400, the retryable 500 or 503), the same request sent again
    by an authenticated user while the lock is in force (within 300 s;
    always, under the in-memory mock) is answered 429
    [{error: "Transaction is already being processed", retryAfter: 5}] by
    the middleware after one cache read, and the controller is not run. *)
Theorem failed_attempt_keeps_the_hash_locked
    e1 e2 a1 a2 token1 token2 u1 u2 s req h :
  Auth.protectedRoute a1 token1 = Auth.Proceed u1 ->
  Auth.protectedRoute a2 token2 = Auth.Proceed u2 ->
  structurally_valid e1 req = true -> structurally_valid e2 req = true ->
  transactionHash req = Some h ->
  answering e1 -> cached e1 s ("tx-processing:" +:+ h) = false ->
  redis e2 = redis e1 -> answering e2 -> record_in_force e2 (now e1 + 300000) ->
  let s1 := snd (verify_crypto_payment e1 a1 token1 req s) in
  verify_crypto_payment e2 a2 token2 req s1
  = (Handled (Reply 429 (JError (mkError "Transaction is already being processed"
                                         (Some 5) None None))),
     log (EvGet ("tx-processing:" +:+ h) (Resolved (Some (toString (now e1))))) s1).
Proof.
  change ("tx-processing:" +:+ h) with (tx_processing h).
  intros Hu1 Hu2 Hv1 Hv2 Hh Ha1 Hc Hcl Ha2 Hforce s1.
  assert (Hv1' : structurally_valid e1 (as_user u1 req) = true) by exact Hv1.
  assert (Hv2' : structurally_valid e2 (as_user u2 req) = true) by exact Hv2.
  destruct (validate_structurally_valid e1 s _ Hv1') as (h1 & w1 & Hh1 & _ & Hrun1).
  assert (h1 = h) by (cbn [as_user transactionHash] in Hh1; congruence); subst h1.
  pose proof (lock_written e1 s h w1 Ha1 Hc) as Hlock.
  rewrite <- Hrun1 in Hlock.
  assert (Hlock1 : store s1 !! tx_processing h
                   = Some (Entry (toString (now e1)) (Client.kept_expiry e1 300))).
  { subst s1. unfold verify_crypto_payment. rewrite Hu1.
    destruct (run e1 (validateCryptoPayment (as_user u1 req)) s) as [r s0];
      cbn [snd] in Hlock.
    destruct r as [| code body]; cbn [snd]; [| exact Hlock].
    pose proof (verify_store_frame e1 s0 (as_user u1 req) (tx_processing h)) as Hf.
    destruct (run e1 (verifyCryptoPayment (as_user u1 req)) s0) as [r' s2];
      cbn [snd] in *.
    rewrite Hf; [exact Hlock |].
    intros x. apply not_eq_sym, tx_not_processing. }
  clearbody s1.
  destruct (validate_structurally_valid e2 s1 _ Hv2') as (h2 & w2 & Hh2 & _ & Hrun2).
  assert (h2 = h) by (cbn [as_user transactionHash] in Hh2; congruence); subst h2.
  unfold verify_crypto_payment. rewrite Hu2, Hrun2.
  rewrite (blocked_while_locked e2 s1 h w2 _ Hlock1); [reflexivity | |].
  - apply toString_truthy.
  - destruct Hforce as [Hm | Ht]; [by left |].
    destruct Ha2 as [Hm | Hr]; [by left |]. right. split; [exact Hr |].
    unfold live, Client.kept_expiry; cbn [expireAt].
    destruct (redis e1); [| | reflexivity]; apply Z.leb_le; lia.
Qed.

(** The sample request, sent by a signed-in user, meets a node that cannot
    be reached and is answered 503 with [retryAfter: 60]; sent again 60 s
    later it is answered 429. *)
Lemma failed_attempt_keeps_the_hash_locked_witness :
  fst (verify_crypto_payment (outage_env 1000) signed_in (Some "token")
                             Sample.request initial)
    = Handled services_unavailable
  /\ verify_crypto_payment (outage_env 61000) signed_in (Some "token") Sample.request
       (snd (verify_crypto_payment (outage_env 1000) signed_in (Some "token")
                                   Sample.request initial))
     = (Handled (Reply 429 (JError (mkError "Transaction is already being processed"
                                            (Some 5) None None))),
        log (EvGet ("tx-processing:" +:+ Sample.hash)
                   (Resolved (Some (toString 1000))))
            (snd (verify_crypto_payment (outage_env 1000) signed_in (Some "token")
                                        Sample.request initial))).
Proof.
  split; [vm_compute; reflexivity |].
  apply (failed_attempt_keeps_the_hash_locked
           (outage_env 1000) (outage_env 61000) signed_in signed_in
           (Some "token") (Some "token")
           (Auth.mkUser "user1" "customer") (Auth.mkUser "user1" "customer")
           initial Sample.request Sample.hash);
    try reflexivity; try (right; reflexivity).
  right. cbn. lia.
Defined.

(** ** The end of a counter window *)

(** X12: the window of the rate limit is fixed by its first request.  Once
    the wallet's counter has expired, whatever it had counted up to, the next
    structurally valid request through the ioredis client (its hash not
    locked) is passed on with [next()] and starts a new counter at 1 that
    expires 60 s later. *)
Theorem exhausted_window_reopens_when_the_counter_expires e s req h w n T :
  redis e = Ioredis -> redis_reachable e = true ->
  structurally_valid e req = true ->
  transactionHash req = Some h -> walletAddress req = Some w ->
  store s !! tx_processing h = None ->
  store s !! wallet_requests w = Some (Entry (toString n) (Some T)) ->
  T < now e ->
  let out := run e (validateCryptoPayment req) s in
  fst out = Next
  /\ store (snd out) !! wallet_requests w
     = Some (Entry (toString 1) (Some (now e + 60000))).
Proof.
  intros Hc Hr Hv Hh Hw Hlock Hcount HT out. subst out.
  destruct (validate_structurally_valid e s req Hv) as (h' & w' & Hh' & Hw' & ->).
  assert (h' = h) by congruence. assert (w' = w) by congruence. subst h' w'.
  destruct (first_of_window e Hc Hr s h w Hlock) as (H1 & H2 & _); [| done].
  unfold Server.lookup, live. rewrite Hcount. cbn [expireAt].
  destruct (Z.leb_spec (now e) T); [lia | reflexivity].
Qed.

Lemma exhausted_window_reopens_when_the_counter_expires_witness :
  fst (run (Sample.env Ioredis true 61001) (validateCryptoPayment Sample.request)
           used_up) = Next
  /\ store (snd (run (Sample.env Ioredis true 61001)
                     (validateCryptoPayment Sample.request) used_up))
       !! wallet_requests Sample.wallet
     = Some (Entry (toString 1) (Some (61001 + 60000))).
Proof.
  apply (exhausted_window_reopens_when_the_counter_expires
           (Sample.env Ioredis true 61001) used_up Sample.request Sample.hash
           Sample.wallet 11 61000);
    reflexivity.
Defined.

(** ** The order schema *)

(** X23: every order the controller hands to [order.save()] has the status
    ["completed"], which is not among the values the order schema allows for
    [status] ([pending], [processing], [shipped], [delivered], [cancelled]);
    its payment method, ["crypto"], is among those the schema allows. *)
Theorem saved_orders_carry_a_status_outside_the_schema e s req o r :
  In (EvSave o r) (emitted e (verifyCryptoPayment req) s) ->
  order_status o = "completed"
  /\ OrderSchema.allows OrderSchema.status_enum (order_status o) = false
  /\ OrderSchema.allows OrderSchema.paymentMethod_enum (order_paymentMethod o) = true.
Proof.
  destruct s as [st pp t b os ids j].
  unfold emitted, verifyCryptoPayment.
  run_all; journal_norm; intros H; try (exfalso; not_in H).
  all: cbn [In] in H;
    repeat (destruct H as [H | H]; [try discriminate H |]); try (destruct H; fail).
  all: inversion H; subst o r; cbn [order_status order_paymentMethod];
    repeat split; reflexivity.
Qed.

Lemma saved_orders_carry_a_status_outside_the_schema_witness :
  order_status (sample_order None) = "completed"
  /\ OrderSchema.allows OrderSchema.status_enum (order_status (sample_order None))
     = false
  /\ OrderSchema.allows OrderSchema.paymentMethod_enum
       (order_paymentMethod (sample_order None)) = true.
Proof.
  apply (saved_orders_carry_a_status_outside_the_schema
           (Sample.env Ioredis true 1000) initial Sample.request _
           (Rejected (OrderSchema.ValidationError
                        (OrderSchema.invalid_paths (sample_order None))))).
  vm_compute. do 7 right. left. reflexivity.
Defined.

(** ** The settlement record *)


(** ** The REST client's argument lists *)

Lemma indexOf_absent x args : Rest.includes x args = false -> Rest.indexOf x args = -1.
Proof.
  unfold Rest.includes. induction args as [| a rest IH]; cbn [existsb Rest.indexOf]; [done |].
  intros H. apply orb_false_iff in H as [Ha Hr]. rewrite Ha, (IH Hr). reflexivity.
Qed.

Lemma arg_eqb_eq a b : Rest.arg_eqb a b = true <-> a = b.
Proof.
  destruct a, b; cbn; try (split; [discriminate | congruence]).
  - rewrite String.eqb_eq. split; congruence.
  - rewrite Z.eqb_eq. split; congruence.
  - done.
Qed.

Lemma includes_In x args : Rest.includes x args = true <-> In x args.
Proof.
  unfold Rest.includes. rewrite existsb_exists. split.
  - intros (a & Hin & Heq). apply arg_eqb_eq in Heq. by subst.
  - intros Hin. exists x. split; [done | by apply arg_eqb_eq].
Qed.

Lemma indexOf_first x pre post :
  ~ In x pre -> Rest.indexOf x (pre ++ x :: post) = Z.of_nat (length pre).
Proof.
  induction pre as [| a pre IH]; intros Hnot; cbn [app Rest.indexOf length].
  - replace (Rest.arg_eqb x x) with true by (symmetry; by apply arg_eqb_eq). reflexivity.
  - destruct (Rest.arg_eqb a x) eqn:Ha.
    + apply arg_eqb_eq in Ha. subst. exfalso. apply Hnot. by left.
    + rewrite IH by (intros H; apply Hnot; by right).
      destruct (Z.ltb_spec (Z.of_nat (length pre)) 0); lia.
Qed.

(** X13: of the options passed to the REST client's [set] only an [EX] with
    its seconds reaches the server, as [ex]: what comes before the first
    ['EX'] and after its seconds (an [NX], say) is dropped; without an ['EX']
    (a [PX], a lower-case ['ex']), or with ['EX'] as the last argument, the
    request is a plain [set key value] and the key gets no expiry. *)
Theorem rest_set_forwards_only_the_first_EX key value args :
  (forall pre seconds post,
     args = (pre ++ Rest.Str "EX" :: seconds :: post)%list -> ~ In (Rest.Str "EX") pre ->
     Rest.set key value args = ("set", [key; value; Rest.Str "ex"; seconds]))
  /\ (~ In (Rest.Str "EX") args -> Rest.set key value args = ("set", [key; value]))
  /\ (forall pre, args = (pre ++ [Rest.Str "EX"])%list -> ~ In (Rest.Str "EX") pre ->
        Rest.set key value args = ("set", [key; value])).
Proof.
  split; [| split].
  - intros pre seconds post -> Hnot. unfold Rest.set.
    replace (Rest.includes (Rest.Str "EX") (pre ++ Rest.Str "EX" :: seconds :: post)) with true
      by (symmetry; apply includes_In, in_or_app; right; by left).
    rewrite indexOf_first by done. rewrite length_app. cbn [length andb].
    destruct (Z.ltb_spec (Z.of_nat (length pre) + 1)
                         (Z.of_nat (length pre + S (S (length post))))); [| lia].
    unfold Rest.at_index.
    destruct (Z.ltb_spec (Z.of_nat (length pre) + 1) 0); [lia |].
    replace (Z.to_nat (Z.of_nat (length pre) + 1)) with (length pre + 1)%nat by lia.
    rewrite nth_error_app2 by lia.
    replace (length pre + 1 - length pre)%nat with 1%nat by lia. reflexivity.
  - intros Hnot. unfold Rest.set.
    destruct (Rest.includes (Rest.Str "EX") args) eqn:Hin; [| reflexivity].
    apply includes_In in Hin. contradiction.
  - intros pre -> Hnot. unfold Rest.set.
    rewrite indexOf_first by done. rewrite length_app. cbn [length].
    destruct (Z.ltb_spec (Z.of_nat (length pre) + 1) (Z.of_nat (length pre + 1)));
      [lia |].
    by rewrite andb_false_r.
Qed.

(** ** The push transport's URL *)

Lemma startsWith_split s p :
  Js.startsWith s p = true -> exists rest, s = p +:+ rest.
Proof.
  revert s. induction p as [| a p IH]; intros s H.
  - by exists s.
  - destruct s as [| b s]; [discriminate |]. cbn in H.
    apply andb_true_iff in H as [Hb Hs]. apply Ascii.eqb_eq in Hb. subst b.
    destruct (IH s Hs) as [rest ->]. by exists rest.
Qed.

Lemma startsWith_length s p :
  Js.startsWith s p = true -> (String.length p <= String.length s)%nat.
Proof.
  intros H. destruct (startsWith_split s p H) as [rest ->].
  clear H. induction p as [| a p IH]; [cbn; lia |].
  change (String a p +:+ rest) with (String a (p +:+ rest)).
  cbn [String.length]. lia.
Qed.

Lemma includes_length s p :
  Js.includes s p = true -> (String.length p <= String.length s)%nat.
Proof.
  induction s as [| c s IH]; cbn [Js.includes]; intros H.
  - rewrite orb_false_r in H. by apply startsWith_length in H.
  - apply orb_true_iff in H as [H | H].
    + by apply startsWith_length in H.
    + cbn [String.length]. specialize (IH H). lia.
Qed.

Lemma startsWith_append s p t :
  Js.startsWith s p = true -> Js.startsWith (s +:+ t) p = true.
Proof.
  revert s. induction p as [| a p IH]; intros s H; [reflexivity |].
  destruct s as [| b s]; [discriminate |].
  change (String b s +:+ t) with (String b (s +:+ t)). cbn [Js.startsWith] in *.
  apply andb_true_iff in H as [-> Hs]. by apply IH.
Qed.

Lemma includes_append s p t :
  Js.includes s p = true -> Js.includes (s +:+ t) p = true.
Proof.
  induction s as [| c s IH]; cbn [Js.includes]; intros H.
  - rewrite orb_false_r in H. destruct p; [| discriminate].
    by destruct t.
  - apply orb_true_iff in H as [H | H].
    + change (String c s +:+ t) with (String c (s +:+ t)).
      cbn [Js.includes].
      pose proof (startsWith_append (String c s) p t H) as H'.
      change (String c s +:+ t) with (String c (s +:+ t)) in H'.
      by rewrite H'.
    + change (String c s +:+ t) with (String c (s +:+ t)).
      cbn [Js.includes]. rewrite (IH H). apply orb_true_r.
Qed.

(** A pattern that begins with the separator does not begin inside a text
    without separator. *)
Lemma includes_past s t q :
  Url.no_slash s = true ->
  Js.includes (s +:+ t) (String "/" q) = Js.includes t (String "/" q).
Proof.
  induction s as [| c s IH]; intros H; [reflexivity |].
  cbn [Url.no_slash] in H. apply andb_true_iff in H as [Hc Hs].
  change (String c s +:+ t) with (String c (s +:+ t)).
  cbn [Js.includes Js.startsWith]. apply negb_true_iff in Hc. rewrite Hc.
  cbn [andb orb]. by apply IH.
Qed.

Lemma replace_past s t q r :
  Url.no_slash s = true ->
  Js.replace (s +:+ t) (String "/" q) r = s +:+ Js.replace t (String "/" q) r.
Proof.
  induction s as [| c s IH]; intros H; [reflexivity |].
  cbn [Url.no_slash] in H. apply andb_true_iff in H as [Hc Hs].
  change (String c s +:+ t) with (String c (s +:+ t)).
  cbn [Js.replace Js.startsWith]. apply negb_true_iff in Hc. rewrite Hc.
  cbn [andb]. by rewrite IH.
Qed.

(** After the separator that ends the scheme comes the host: a pattern of
    two characters between separators does not begin there. *)
Lemma host_is_no_segment host t x y q :
  Url.no_slash host = true -> (3 <= String.length host)%nat ->
  Js.startsWith (String "/" (host +:+ t)) (String "/" (String x (String y (String "/" q))))
  = false.
Proof.
  intros Hs Hl. destruct host as [| c1 [| c2 [| c3 host]]]; cbn in Hl; try lia.
  cbn [Url.no_slash] in Hs.
  apply andb_true_iff in Hs as [_ Hs]. apply andb_true_iff in Hs as [_ Hs].
  apply andb_true_iff in Hs as [H3 _]. apply negb_true_iff in H3.
  change (String c1 (String c2 (String c3 host)) +:+ t)
    with (String c1 (String c2 (String c3 (host +:+ t)))).
  cbn [Js.startsWith]. rewrite H3.
  destruct (Ascii.eqb "/" "/"), (Ascii.eqb c1 x), (Ascii.eqb c2 y); reflexivity.
Qed.

(** X20: the URL of the push transport.  Whatever the environment variable
    holds, [wsProvider] does not start with [https://]; a URL that does not
    start with [https://] ([ws://], [wss://], but also [http://]) is taken as
    it is; [https://<host>/v3/<id>], with a host that contains [infura.io],
    becomes [wss://<host>/ws/v3/<id>] (the conversion the source documents),
    provided [/ws/] does not occur in [/<id>]; and an [https://] URL without
    [infura.io] only has its scheme replaced by [wss://]. *)
Theorem websocket_url_is_normalised :
  (forall url, Js.startsWith (wsProvider url) "https://" = false)
  /\ (forall c url,
        Js.startsWith (String c url) "https://" = false ->
        wsProvider (Some (String c url)) = String c url)
  /\ (forall host id,
        Url.no_slash host = true -> Js.includes host "infura.io" = true ->
        Js.includes (String "/" id) "/ws/" = false ->
        wsProvider (Some ("https://" +:+ host +:+ "/v3/" +:+ id))
        = "wss://" +:+ host +:+ "/ws/v3/" +:+ id)
  /\ (forall rest,
        Js.includes ("wss://" +:+ rest) "infura.io" = false ->
        wsProvider (Some ("https://" +:+ rest)) = "wss://" +:+ rest).
Proof.
  split; [| split; [| split]].
  - intros url. unfold wsProvider.
    set (w := match url with Some (String c u) => String c u | _ => _ end).
    destruct (Js.startsWith w "https://") eqn:Hw; [| exact Hw].
    destruct (startsWith_split w _ Hw) as [rest ->].
    cbv [String.append]. cbn [Js.replace Js.startsWith Ascii.eqb Bool.eqb andb
                              String.length Js.skip].
    cbv [String.append].
    destruct (_ && _); reflexivity.
  - intros c url H. unfold wsProvider. by rewrite H.
  - intros host id Hs Hi Hid.
    pose proof (includes_length _ _ Hi) as Hl. cbn [String.length] in Hl.
    unfold wsProvider. cbv [String.append]; fold String.append.
    cbn [Js.startsWith Ascii.eqb Bool.eqb andb].
    cbn [Js.replace Js.startsWith Ascii.eqb Bool.eqb andb String.length Js.skip].
    cbv [String.append]; fold String.append.
    set (path := String "/" (String "v" (String "3" (String "/" id)))).
    assert (Hinf : Js.includes
                     (String "w" (String "s" (String "s" (String ":" (String "/"
                        (String "/" (host +:+ path))))))) "infura.io" = true).
    { cbn [Js.includes]. rewrite (includes_append host "infura.io" path Hi).
      by rewrite !orb_true_r. }
    assert (Hws : Js.includes
                    (String "w" (String "s" (String "s" (String ":" (String "/"
                       (String "/" (host +:+ path))))))) "/ws/" = false).
    { cbn [Js.includes]. rewrite (includes_past host path _ Hs).
      rewrite (host_is_no_segment host path "w" "s" "" Hs ltac:(lia)).
      subst path. cbn [Js.includes] in *. cbn [Js.startsWith Ascii.eqb Bool.eqb andb orb] in *.
      exact Hid. }
    rewrite Hinf, Hws. cbn [negb andb].
    cbn [Js.replace]. 
    rewrite (host_is_no_segment host path "v" "3" "" Hs ltac:(lia)).
    cbn [Js.startsWith Ascii.eqb Bool.eqb andb].
    rewrite (replace_past host path _ _ Hs). subst path.
    cbn [Js.replace Js.startsWith Ascii.eqb Bool.eqb andb String.length Js.skip].
    reflexivity.
  - intros rest Hn. unfold wsProvider. cbv [String.append]; fold String.append.
    cbn [Js.startsWith Ascii.eqb Bool.eqb andb].
    cbn [Js.replace Js.startsWith Ascii.eqb Bool.eqb andb String.length Js.skip].
    cbv [String.append]; fold String.append.
    cbv [String.append] in Hn; fold String.append in Hn.
    by rewrite Hn.
Qed.

(** ** The connection manager *)

(** Split on every test the manager makes, down to the resulting record. *)
Ltac transport_cases :=
  repeat match goal with b : bool |- _ => destruct b end;
  cbv beta iota zeta delta
    [Transport.react Transport.createHttpProvider
     Transport.createWebSocketProvider Transport.isEventSubscriptionHealthy
     Transport.set_call Transport.set_push Transport.setup Transport.declared
     Transport.MAX_BLOCKCHAIN_RETRIES Transport.MAX_WS_RETRIES
     Transport.isBlockchainAvailable Transport.isWebSocketAvailable
     Transport.blockchainRetryCount Transport.wsRetryCount Transport.web3Ws
     Transport.blockNumberProbes Transport.connectionTests
     Transport.scheduledCreations Transport.wsProviders
     Transport.httpCreations Transport.wsCreations fst snd negb andb];
  repeat (match goal with
          | |- context [?x <? ?y] => destruct (Z.ltb_spec x y)
          | |- context [match ?n with O => _ | S _ => _ end] => destruct n
          | |- context [match ?w with Transport.NotAssigned => _ | _ => _ end] =>
              destruct w
          end; cbv beta iota).

Lemma react_within_budget c h :
  within_budget c -> within_budget (Transport.react c h).
Proof.
  unfold within_budget. destruct c, h; intros H; revert H.
  all: transport_cases.
  all: intros; lia.
Qed.

Lemma after_within_budget hs : forall c,
  within_budget c -> within_budget (Transport.after hs c).
Proof.
  induction hs as [| h hs IH]; intros c H; cbn [Transport.after]; [done |].
  by apply IH, react_within_budget.
Qed.

Lemma react_call_attempts_paid c h :
  h <> Transport.BlockNumber true ->
  call_attempts_paid c -> call_attempts_paid (Transport.react c h).
Proof.
  unfold call_attempts_paid. destruct c, h; intros Hh H; revert H.
  all: transport_cases.
  all: intros; first [lia | congruence].
Qed.

Lemma react_push_attempts_paid c h :
  h <> Transport.ProviderConnect ->
  push_attempts_paid c -> push_attempts_paid (Transport.react c h).
Proof.
  unfold push_attempts_paid. destruct c, h; intros Hh H; revert H.
  all: transport_cases.
  all: intros; first [lia | congruence].
Qed.

Lemma after_call_attempts_paid hs : forall c,
  ~ In (Transport.BlockNumber true) hs ->
  call_attempts_paid c -> call_attempts_paid (Transport.after hs c).
Proof.
  induction hs as [| h hs IH]; intros c Hn H; cbn [Transport.after]; [done |].
  apply IH; [intros Hin; apply Hn; by right |].
  apply react_call_attempts_paid; [intros ->; apply Hn; by left | done].
Qed.

Lemma after_push_attempts_paid hs : forall c,
  ~ In Transport.ProviderConnect hs ->
  push_attempts_paid c -> push_attempts_paid (Transport.after hs c).
Proof.
  induction hs as [| h hs IH]; intros c Hn H; cbn [Transport.after]; [done |].
  apply IH; [intros Hin; apply Hn; by right |].
  apply react_push_attempts_paid; [intros ->; apply Hn; by left | done].
Qed.

(** X15: reconnection is bounded.  After the initial setup, whatever
    happens and in whatever order, [blockchainRetryCount] stays within 0..5
    and [wsRetryCount] within 0..10; as long as no [getBlockNumber()] probe
    has succeeded, [createHttpProvider] has been called at most 6 times (the
    initial call and five retries); and as long as no websocket provider has
    reported ['connect'], the calls of [createWebSocketProvider] made and
    scheduled are at most 11. *)
Theorem reconnection_attempts_are_bounded http ws happenings :
  let c := Transport.after happenings (Transport.setup http ws) in
  (0 <= Transport.blockchainRetryCount c <= 5
   /\ 0 <= Transport.wsRetryCount c <= 10)
  /\ (~ In (Transport.BlockNumber true) happenings ->
        (Transport.httpCreations c <= 6)%nat)
  /\ (~ In Transport.ProviderConnect happenings ->
        (Transport.wsCreations c + Transport.scheduledCreations c <= 11)%nat).
Proof.
  intros c. subst c.
  assert (Hb : within_budget (Transport.setup http ws))
    by (unfold within_budget, Transport.MAX_BLOCKCHAIN_RETRIES,
        Transport.MAX_WS_RETRIES; destruct http, ws; cbn; lia).
  pose proof (after_within_budget happenings _ Hb) as Hb'.
  split; [exact Hb' |]. destruct Hb' as [H1 H2].
  unfold Transport.MAX_BLOCKCHAIN_RETRIES, Transport.MAX_WS_RETRIES in *.
  split; intros Hn.
  - assert (Hc : call_attempts_paid (Transport.setup http ws))
      by (unfold call_attempts_paid; destruct http, ws; cbn; lia).
    pose proof (after_call_attempts_paid happenings _ Hn Hc) as Hc'.
    unfold call_attempts_paid in Hc'. lia.
  - assert (Hc : push_attempts_paid (Transport.setup http ws))
      by (unfold push_attempts_paid; destruct http, ws; cbn; lia).
    pose proof (after_push_attempts_paid happenings _ Hn Hc) as Hc'.
    unfold push_attempts_paid in Hc'. lia.
Qed.

Lemma react_call_given_up c h :
  call_given_up c ->
  call_given_up (Transport.react c h)
  /\ Transport.httpCreations (Transport.react c h) = Transport.httpCreations c.
Proof.
  unfold call_given_up. destruct c, h; intros H; revert H.
  all: transport_cases.
  all: cbn [Transport.blockchainRetryCount Transport.blockNumberProbes];
    intros [? ?]; first [lia | done].
Qed.

(** X16: giving up on the call transport is final.  Once
    [blockchainRetryCount] has reached 5 with no probe outstanding, nothing
    that happens afterwards (intervals, health checks that succeed or fail)
    resets the counter or calls [createHttpProvider] again. *)
Theorem exhausted_call_budget_is_never_refilled c happenings :
  Transport.blockchainRetryCount c = 5 -> Transport.blockNumberProbes c = 0%nat ->
  let c' := Transport.after happenings c in
  Transport.blockchainRetryCount c' = 5
  /\ Transport.httpCreations c' = Transport.httpCreations c.
Proof.
  intros H1 H2 c'. subst c'.
  assert (H : call_given_up c) by done. clear H1 H2.
  revert c H. induction happenings as [| h hs IH]; intros c H; cbn [Transport.after].
  - destruct H. done.
  - destruct (react_call_given_up c h H) as [H' Hc].
    destruct (IH _ H') as [IH1 IH2]. split; [done | congruence].
Qed.

Lemma exhausted_call_budget_is_never_refilled_witness :
  let c' := Transport.after [Transport.CallHealth true; Transport.CallHealth false;
                             Transport.Interval true true] given_up in
  Transport.blockchainRetryCount c' = 5
  /\ Transport.httpCreations c' = Transport.httpCreations given_up.
Proof.
  apply (exhausted_call_budget_is_never_refilled given_up); reflexivity.
Defined.

(** ** The event subscriber *)

Lemma setup_resolves e p l :
  fst (Subscriber.setupBlockchainEventListeners e p l) = Resolved tt
  /\ Subscriber.retryCount (snd (Subscriber.setupBlockchainEventListeners e p l))
     = Subscriber.retryCount l
  /\ Subscriber.timers (snd (Subscriber.setupBlockchainEventListeners e p l))
     = Subscriber.timers l
  /\ (Transport.isWebSocketAvailable (Subscriber.conn l) = false ->
        Subscriber.subscriptions (snd (Subscriber.setupBlockchainEventListeners e p l))
        = Subscriber.subscriptions l)
  /\ (length (Subscriber.subscriptions
                (snd (Subscriber.setupBlockchainEventListeners e p l)))
      <= S (length (Subscriber.subscriptions l)))%nat.
Proof.
  unfold Subscriber.setupBlockchainEventListeners.
  destruct (Transport.isEventSubscriptionHealthy _ _ (Subscriber.conn l))
    as [isHealthy c1] eqn:Hh.
  destruct isHealthy; cbn [negb].
  - destruct (Subscriber.getPaymentProcessorContract_forEvents e p c1 _)
      as [[contract c2] s2].
    assert (Hav : Transport.isWebSocketAvailable (Subscriber.conn l) = true).
    { unfold Transport.isEventSubscriptionHealthy in Hh.
      destruct (Transport.isWebSocketAvailable (Subscriber.conn l)); [done |].
      cbn in Hh. congruence. }
    destruct contract as [contract |]; cbn [fst snd].
    + destruct (Subscriber.events_PaymentProcessed p contract); cbn [negb fst snd].
      * destruct (Subscriber.subscribe p contract) as [[] | m]; cbn [fst snd];
          cbn [Subscriber.retryCount Subscriber.timers Subscriber.subscriptions];
          rewrite ?length_app; cbn [length];
          repeat split; try done; try congruence; lia.
      * cbn [Subscriber.retryCount Subscriber.timers Subscriber.subscriptions].
        repeat split; try done; lia.
    + cbn [Subscriber.retryCount Subscriber.timers Subscriber.subscriptions].
      repeat split; try done; lia.
  - cbn [fst snd Subscriber.retryCount Subscriber.timers Subscriber.subscriptions].
    repeat split; try done; lia.
Qed.

Lemma initialize_once e p l :
  Subscriber.retryCount (Subscriber.initializeEventListeners e p l)
  = Subscriber.retryCount l
  /\ Subscriber.timers (Subscriber.initializeEventListeners e p l)
     = Subscriber.timers l
  /\ (Transport.isWebSocketAvailable (Subscriber.conn l) = false ->
        Subscriber.subscriptions (Subscriber.initializeEventListeners e p l)
        = Subscriber.subscriptions l)
  /\ (length (Subscriber.subscriptions (Subscriber.initializeEventListeners e p l))
      <= S (length (Subscriber.subscriptions l)))%nat.
Proof.
  pose proof (setup_resolves e p l) as (H1 & H2 & H3 & H4 & H5).
  unfold Subscriber.initializeEventListeners.
  destruct (Subscriber.setupBlockchainEventListeners e p l) as [[u | m] l'];
    cbn [fst snd] in *; [done | discriminate].
Qed.

(** Once the start-up timer has fired nothing is pending and nothing changes
    the subscriptions any more. *)
Lemma lifetime_idle steps : forall l,
  Subscriber.timers l = [] ->
  Subscriber.timers (Subscriber.lifetime steps l) = []
  /\ Subscriber.retryCount (Subscriber.lifetime steps l) = Subscriber.retryCount l
  /\ Subscriber.subscriptions (Subscriber.lifetime steps l)
     = Subscriber.subscriptions l.
Proof.
  induction steps as [| st steps IH]; intros l Hl; cbn [Subscriber.lifetime]; [done |].
  destruct st as [h | e p]; cbn [Subscriber.step].
  - destruct (IH (Subscriber.mkListener (Transport.react (Subscriber.conn l) h)
                    (Subscriber.module l) (Subscriber.subscriptions l)
                    (Subscriber.retryCount l) (Subscriber.timers l)) Hl)
      as (H1 & H2 & H3).
    done.
  - rewrite Hl. by apply IH.
Qed.

Lemma lifetime_managers before : forall l,
  Subscriber.lifetime (map Subscriber.Manager before) l
  = Subscriber.mkListener (Transport.after before (Subscriber.conn l))
      (Subscriber.module l) (Subscriber.subscriptions l)
      (Subscriber.retryCount l) (Subscriber.timers l).
Proof.
  induction before as [| h before IH]; intros l;
    cbn [map Subscriber.lifetime Transport.after Subscriber.step].
  - by destruct l.
  - by rewrite IH.
Qed.

Lemma lifetime_app steps steps' l :
  Subscriber.lifetime (steps ++ steps') l
  = Subscriber.lifetime steps' (Subscriber.lifetime steps l).
Proof.
  revert l. induction steps as [| st steps IH]; intros l; [done |].
  cbn [app Subscriber.lifetime]. apply IH.
Qed.

Lemma lifetime_loaded steps : forall c s,
  let l := Subscriber.lifetime steps (Subscriber.loaded c s) in
  Subscriber.retryCount l = 0
  /\ (Subscriber.timers l = [5000] \/ Subscriber.timers l = [])
  /\ (length (Subscriber.subscriptions l) <= 1)%nat.
Proof.
  induction steps as [| st steps IH]; intros c s; cbn [Subscriber.lifetime].
  - cbn. repeat split; [by left | lia].
  - destruct st as [h | e p]; cbn [Subscriber.step Subscriber.loaded
      Subscriber.conn Subscriber.module Subscriber.subscriptions
      Subscriber.retryCount Subscriber.timers].
    + apply (IH (Transport.react c h) s).
    + pose proof (initialize_once e p (Subscriber.mkListener c s [] 0 []))
        as (H1 & H2 & _ & H4).
      cbn [Subscriber.retryCount Subscriber.timers Subscriber.subscriptions length]
        in *.
      destruct (lifetime_idle steps _ H2) as (I1 & I2 & I3).
      cbv zeta. rewrite I1, I2, I3, H1. repeat split; [by right | done].
Qed.

(** X17: the event subscriber is set up once.  [setupBlockchainEventListeners]
    catches whatever is thrown inside it, so its promise never rejects and the
    retry of [initializeEventListeners] never runs: from the loaded module
    on, whatever happens, [retryCount] stays 0, no timer is pending beyond
    the one of start-up, and at most one subscription is made; and when the
    push transport is not available at the moment the start-up timer fires,
    no subscription is ever made, whatever the connection manager achieves
    later. *)
Theorem subscriber_is_set_up_once_and_never_retried c s steps :
  let l := Subscriber.lifetime steps (Subscriber.loaded c s) in
  Subscriber.retryCount l = 0
  /\ (Subscriber.timers l = [5000] \/ Subscriber.timers l = [])
  /\ (length (Subscriber.subscriptions l) <= 1)%nat
  /\ forall before e p later,
       steps = (map Subscriber.Manager before ++ Subscriber.Timer e p :: later)%list ->
       Transport.isWebSocketAvailable (Transport.after before c) = false ->
       Subscriber.subscriptions l = [].
Proof.
  intros l. subst l.
  destruct (lifetime_loaded steps c s) as (H1 & H2 & H3).
  split; [exact H1 |]. split; [exact H2 |]. split; [exact H3 |].
  intros before e p later -> Hdown.
  rewrite lifetime_app, lifetime_managers.
  cbn [Subscriber.lifetime Subscriber.step Subscriber.loaded Subscriber.conn
       Subscriber.module Subscriber.subscriptions Subscriber.retryCount
       Subscriber.timers].
  pose proof (initialize_once e p
                (Subscriber.mkListener (Transport.after before c) s [] 0 []))
    as (_ & H5 & H6 & _).
  cbn [Subscriber.timers Subscriber.conn Subscriber.subscriptions] in H5, H6.
  destruct (lifetime_idle later _ H5) as (_ & _ & ->). by apply H6.
Qed.

(** ** The cache wrapper *)

(** X18: what [getOrSetCache] answers.  Either the callback is not invoked
    and the answer is the parsed text the cache holds under the key; or the
    callback is invoked once and its result is the answer, the cache being
    left as it was or, for truthy data, with the data under the key; or the
    callback is invoked twice (its first promise rejected, or storing the
    data threw) and the answer is what the second invocation gives, the cache
    being left as it was.  So the wrapper rejects only when the invocation of
    the callback it answers with does. *)
Theorem wrapper_answers_from_the_cache_or_the_last_callback {D}
    (JSON_parse_data : string -> outcome D) (JSON_stringify : D -> outcome string)
    (truthy_data : D -> bool) e st key (callback : nat -> outcome D) expiry :
  exists r st' invoked,
    getOrSetCache JSON_parse_data JSON_stringify truthy_data e st key callback expiry
    = (r, st', invoked)
    /\ ((invoked = 0%nat /\ st' = st
         /\ exists text data, Client.get e st key = Resolved (Some text)
                              /\ JSON_parse_data text = Resolved data
                              /\ r = Resolved data)
        \/ (invoked = 1%nat /\ r = callback 0%nat
            /\ (st' = st
                \/ exists data text,
                     callback 0%nat = Resolved data /\ truthy_data data = true
                     /\ JSON_stringify data = Resolved text
                     /\ Client.set e st key text
                                   (match expiry with Some s => s | None => 3600 end)
                        = Resolved st'))
        \/ (invoked = 2%nat /\ r = callback 1%nat /\ st' = st)).
Proof.
  unfold getOrSetCache.
  set (seconds := match expiry with Some s => s | None => 3600 end).
  destruct (Client.get e st key) as [[[| c text] |] | m] eqn:Hget.
  2: { destruct (JSON_parse_data (String c text)) as [data | m] eqn:Hp;
         do 3 eexists; (split; [reflexivity |]).
       - left. eauto 10.
       - right. left. auto. }
  3: { do 3 eexists. split; [reflexivity |]. right. left. auto. }
  all: destruct (callback 0%nat) as [freshData | m] eqn:Hc;
    [| do 3 eexists; split; [reflexivity |]; right; right; auto].
  all: destruct (truthy_data freshData) eqn:Hd;
    [| do 3 eexists; split; [reflexivity |]; right; left; auto].
  all: destruct (JSON_stringify freshData) as [text' | m] eqn:Hs;
    [| do 3 eexists; split; [reflexivity |]; right; right; auto].
  all: destruct (Client.set e st key text' seconds) as [st' | m] eqn:Hset;
    do 3 eexists; (split; [reflexivity |]);
    [ right; left; split; [done |]; split; [done |]; right; eauto 10
    | right; right; auto ].
Qed.

(** X19: a second call is served from the cache.  When the first call finds
    nothing under the key, the callback gives truthy data, the data is stored
    (its text is not empty, the expiry positive), and parsing that text gives
    the data back, then a second call made while the entry lasts (within the
    expiry; always, under the in-memory mock) answers with the same data
    without invoking its callback, and leaves the cache as it is. *)
Theorem wrapper_serves_the_second_call_from_the_cache {D}
    (JSON_parse_data : string -> outcome D) (JSON_stringify : D -> outcome string)
    (truthy_data : D -> bool)
    e1 e2 st key (callback callback' : nat -> outcome D) seconds v data text :
  answering e1 -> Client.get e1 st key = Resolved v -> truthy v = false ->
  callback 0%nat = Resolved data -> truthy_data data = true ->
  JSON_stringify data = Resolved text -> truthy (Some text) = true ->
  JSON_parse_data text = Resolved data -> 0 < seconds ->
  redis e2 = redis e1 -> answering e2 ->
  record_in_force e2 (now e1 + 1000 * seconds) ->
  let wrapper := getOrSetCache JSON_parse_data JSON_stringify truthy_data in
  exists st',
    wrapper e1 st key callback (Some seconds) = (Resolved data, st', 1%nat)
    /\ wrapper e2 st' key callback' (Some seconds) = (Resolved data, st', 0%nat).
Proof.
  intros Ha1 Hget Hv Hc Hd Hs Ht Hp Hsec Hcl Ha2 Hforce wrapper.
  subst wrapper. unfold getOrSetCache. rewrite Hget.
  pose proof (set_answers e1 st key text seconds Ha1 Hsec) as Hset.
  assert (Hget2 : Client.get e2 (<[key := Entry text (Client.kept_expiry e1 seconds)]> st)
                             key
                  = Resolved (Some text)).
  { unfold Client.get, Server.GET, Server.lookup, live, Client.kept_expiry.
    rewrite lookup_insert_eq. cbn [expireAt value].
    destruct Hforce as [Hm | Hnow].
    - rewrite Hm. reflexivity.
    - destruct Ha2 as [Hm | Hr]; [rewrite Hm; reflexivity |].
      rewrite Hr, <- Hcl.
      destruct (redis e2); [| | reflexivity];
        (destruct (Z.leb_spec (now e2) (now e1 + 1000 * seconds));
         [reflexivity | lia]). }
  destruct text as [| c text]; [discriminate Ht |].
  destruct v as [[| c' t'] |]; [| discriminate Hv |];
    rewrite Hc, Hd, Hs, Hset; eexists; (split; [reflexivity |]);
    rewrite Hget2, Hp; reflexivity.
Qed.

Lemma wrapper_serves_the_second_call_from_the_cache_witness :
  exists st',
    text_wrapper (Sample.env Ioredis true 1000) ∅ "products" fresh (Some 60)
      = (Resolved "fresh", st', 1%nat)
    /\ text_wrapper (Sample.env Ioredis true 61000) st' "products"
                    (fun _ => Rejected "not asked") (Some 60)
       = (Resolved "fresh", st', 0%nat).
Proof.
  apply (wrapper_serves_the_second_call_from_the_cache
           Resolved Resolved (fun text => truthy (Some text))
           (Sample.env Ioredis true 1000) (Sample.env Ioredis true 61000)
           ∅ "products" fresh (fun _ => Rejected "not asked") 60 None "fresh" "fresh");
    try reflexivity; right; reflexivity.
Defined.

(** ** Authentication *)

(** X21: [protectedRoute] calls [next()] exactly when the cookie holds a
    token that [jwt.verify] accepts and [User.findById] finds the user of its
    payload, who then becomes [req.user]; every refusal is a 401 or a 500;
    and a token [jwt.verify] throws on is answered 401 only for a
    [TokenExpiredError]: any other error (a bad signature, a malformed token)
    is rethrown to the outer [catch] and answered 500. *)
Theorem protected_route_lets_only_verified_users_through a accessToken :
  (forall user,
     Auth.protectedRoute a accessToken = Auth.Proceed user
     <-> exists c token userId,
           accessToken = Some (String c token)
           /\ Auth.jwt_verify a (String c token) = Auth.Returned userId
           /\ Auth.User_findById a userId = Auth.Returned (Some user))
  /\ (forall code message error,
        Auth.protectedRoute a accessToken = Auth.Refuse code message error ->
        code = 401 \/ code = 500)
  /\ (forall c token err,
        accessToken = Some (String c token) ->
        Auth.jwt_verify a (String c token) = Auth.Thrown err ->
        Auth.protectedRoute a accessToken
        = if String.eqb (Auth.name err) "TokenExpiredError"
          then Auth.Refuse 401 "User not authenticated- Token expired" None
          else Auth.Refuse 500 "Unauthorized- Server errori Invalid access token"
                           (Some (Auth.message err))).
Proof.
  unfold Auth.protectedRoute. split; [| split].
  - intros user. split.
    + destruct accessToken as [[| c token] |]; try discriminate.
      destruct (Auth.jwt_verify a (String c token)) as [userId | err] eqn:Hv.
      * destruct (Auth.User_findById a userId) as [[u |] | err] eqn:Hf.
        -- intros [= ->]. eauto 10.
        -- discriminate.
        -- destruct (String.eqb _ _); discriminate.
      * destruct (String.eqb _ _); discriminate.
    + intros (c & token & userId & -> & -> & ->). reflexivity.
  - intros code message error.
    destruct accessToken as [[| c token] |];
      try (intros [= <- _ _]; by left).
    destruct (Auth.jwt_verify a (String c token)) as [userId | err].
    + destruct (Auth.User_findById a userId) as [[u |] | err].
      * discriminate.
      * intros [= <- _ _]. by left.
      * destruct (String.eqb _ _); intros [= <- _ _]; [by left | by right].
    + destruct (String.eqb _ _); intros [= <- _ _]; [by left | by right].
  - intros c token err -> ->. reflexivity.
Qed.

(** ** The route *)



(** ** [checkoutSuccess] *)

Lemma findOne_new {Number} sessionId (os : list (Checkout.Order Number)) o :
  Checkout.findOne sessionId os = None ->
  Checkout.stripeSessionId o = sessionId ->
  Checkout.findOne sessionId (os ++ [o]) = Some o.
Proof.
  unfold Checkout.findOne. intros Hnone Ho.
  induction os as [| o' os IH]; cbn [app find] in *.
  - rewrite Ho, String.eqb_refl. reflexivity.
  - destruct (String.eqb _ sessionId); [discriminate | by apply IH].
Qed.

(** X25: [checkoutSuccess] is idempotent in sequence.  After a call that
    created an order for a session, any later call for the same session
    (still paid, the database answering) finds that order, answers with its
    id and "Order already processed", and changes nothing. *)
Theorem checkout_success_answers_a_replay_with_the_same_order
    {Number} (hundredth : Z -> Number) v v' sessionId s orderId s' session :
  Checkout.checkoutSuccess hundredth v sessionId s
    = (Checkout.Created orderId, s') ->
  Checkout.sessions_retrieve v' sessionId = Resolved session ->
  Checkout.payment_status session = "paid" ->
  Checkout.Order_findOne v' = Resolved tt ->
  Checkout.checkoutSuccess hundredth v' sessionId s'
    = (Checkout.AlreadyProcessed orderId, s')
  /\ length (Checkout.orders s') = S (length (Checkout.orders s)).
Proof.
  intros Hfirst Hs Hpaid Hdb.
  unfold Checkout.checkoutSuccess in Hfirst.
  destruct (Checkout.sessions_retrieve v sessionId) as [session0 |];
    [| discriminate].
  destruct (String.eqb (Checkout.payment_status session0) "paid"); [| discriminate].
  destruct (Checkout.Order_findOne v); [| discriminate].
  destruct (Checkout.findOne sessionId (Checkout.orders s)) eqn:Hnone;
    [discriminate |].
  match type of Hfirst with
  | match ?u with _ => _ end = _ =>
      assert (Hu : forall s1, u = Resolved s1 ->
                     Checkout.orders s1 = Checkout.orders s);
        [| destruct u as [s1 |]; [specialize (Hu s1 eq_refl) | discriminate]]
  end.
  { intros s1.
    destruct (Checkout.metadata_couponCode session0); [by intros [= <-] |].
    destruct (Checkout.Coupon_findOneAndUpdate v); [| discriminate].
    by intros [= <-]. }
  destruct (Checkout.JSON_parse_products v _) as [items |]; [| discriminate].
  destruct (Checkout.save v _); [| discriminate].
  injection Hfirst as <- <-.
  cbn [Checkout._id Checkout.orders]. rewrite Hu.
  split; [| rewrite length_app; cbn [length]; lia].
  unfold Checkout.checkoutSuccess. rewrite Hs, Hpaid, Hdb. cbn [String.eqb].
  replace (String.eqb "paid" "paid") with true by reflexivity.
  cbn [Checkout.orders].
  erewrite findOne_new; [reflexivity | exact Hnone | reflexivity].
Qed.

(** X26: two edges of [checkoutSuccess].  For a session that is not paid
    the handler returns without sending any response, and changes nothing.
    And the coupon is deactivated before the order is saved: when
    [newOrder.save()] rejects, the answer is the 500, no order exists, and
    the coupon of the session is inactive all the same. *)
Theorem checkout_success_edges {Number} (hundredth : Z -> Number) v sessionId s :
  (forall session,
     Checkout.sessions_retrieve v sessionId = Resolved session ->
     Checkout.payment_status session <> "paid" ->
     Checkout.checkoutSuccess hundredth v sessionId s
     = (Checkout.Unanswered, s))
  /\ (forall session c couponCode items m,
        Checkout.sessions_retrieve v sessionId = Resolved session ->
        Checkout.payment_status session = "paid" ->
        Checkout.Order_findOne v = Resolved tt ->
        Checkout.findOne sessionId (Checkout.orders s) = None ->
        Checkout.metadata_couponCode session = String c couponCode ->
        Checkout.Coupon_findOneAndUpdate v = Resolved tt ->
        Checkout.JSON_parse_products v (Checkout.metadata_products session)
          = Resolved items ->
        Checkout.save v
          (Checkout.mkOrder (Checkout.objectIds s)
             (Checkout.metadata_userId session) items
             (hundredth (Checkout.amount_total session)) sessionId) = Rejected m ->
        let out := Checkout.checkoutSuccess hundredth v sessionId s in
        fst out = Checkout.Failed m
        /\ Checkout.orders (snd out) = Checkout.orders s
        /\ Checkout.coupons (snd out)
           = Checkout.deactivate (String c couponCode)
               (Checkout.metadata_userId session) (Checkout.coupons s)).
Proof.
  split.
  - intros session Hs Hp. unfold Checkout.checkoutSuccess. rewrite Hs.
    destruct (String.eqb_spec (Checkout.payment_status session) "paid"); done.
  - intros session c couponCode items m Hs Hp Hdb Hnone Hc Hu Hparse Hsave out.
    subst out. unfold Checkout.checkoutSuccess.
    rewrite Hs, Hp, Hdb, Hnone, Hc, Hu.
    replace (String.eqb "paid" "paid") with true by reflexivity.
    cbn [Checkout.objectIds Checkout.orders Checkout.coupons].
    rewrite Hparse, Hsave. cbn. done.
Qed.

Lemma checkout_success_answers_a_replay_with_the_same_order_witness :
  Checkout.checkoutSuccess (fun cents => cents / 100) shop_services "cs_1"
    (snd (Checkout.checkoutSuccess (fun cents => cents / 100) shop_services "cs_1"
                                   empty_shop))
  = (Checkout.AlreadyProcessed 0,
     snd (Checkout.checkoutSuccess (fun cents => cents / 100) shop_services "cs_1"
                                   empty_shop))
  /\ length (Checkout.orders
               (snd (Checkout.checkoutSuccess (fun cents => cents / 100)
                       shop_services "cs_1" empty_shop)))
     = S (length (Checkout.orders empty_shop)).
Proof.
  apply (checkout_success_answers_a_replay_with_the_same_order
           (fun cents => cents / 100) shop_services shop_services "cs_1" empty_shop
           0%N _ paid);
    reflexivity.
Defined.
